(** * The temporal-memory region adapter (htmresearch/regions)

    A shallow embedding of [TMRegion] (src/htmresearch/regions/TMRegion.py)
    and of its sibling [L2Column] (src/htmresearch/regions/L2Column.py),
    followed by the properties of the adapter layer: the derived
    predicted-active output, reset handling, input conversion, the
    default-output selector, initialisation and the parameter setters.

    Modelling choices, all read off the source:
    - a region object is its attribute dictionary [self.__dict__], a
      [gmap string pyval]; [hasattr]/[getattr]/[setattr] are membership,
      lookup and insert.  Method names resolve on the class and are not
      parameter names; they are not part of the dictionary;
    - a numpy vector is a [list Z]; the region only ever stores 0 and 1 in
      its own vectors and only compares input elements with 1 and 0;
    - Python exceptions are an outcome next to the state: a statement that
      raises keeps every mutation made before it;
    - the temporal-memory backend and the factory that builds it
      (htmresearch.algorithms.temporal_memory_factory) are not part of the
      region sources; they are interfaces ([TemporalMemory], [Factory]). *)

From Stdlib Require Import ZArith Floats.
From stdpp Require Import gmap strings list fin_maps.

Set Warnings "-inexact-float".

(** ** Python values and exceptions *)

Abbreviation ndarray := (list Z).

(** The values an attribute of a region can hold: the scalars and strings of
    the parameter table, numpy vectors, and the backend object [tm]. *)
Inductive pyval (B : Type) : Type :=
  | PyNone
  | PyBool (b : bool)
  | PyInt (z : Z)
  | PyFloat (x : float)
  | PyStr (s : string)
  | PyArray (a : ndarray)
  | PyTM (tm : B).

Arguments PyNone {B}.
Arguments PyBool {B} b.
Arguments PyInt {B} z.
Arguments PyFloat {B} x.
Arguments PyStr {B} s.
Arguments PyArray {B} a.
Arguments PyTM {B} tm.

Inductive exn : Type :=
  | KeyError (key : string)
  | AttributeError (attr : string)
  | TypeError
  | ValueError
  | IndexError
  | AssertionError
  | Exception (msg : string).

Inductive result (A : Type) : Type :=
  | Ok (a : A)
  | Raise (e : exn).

Arguments Ok {A} a.
Arguments Raise {A} e.

(** ** Statements: state passing with exceptions

    [M S A] is a Python statement or expression run on a mutable state [S]:
    it returns a value or raises, and in both cases hands on the state with
    whatever it has mutated so far. *)

Definition M (S A : Type) : Type := S -> result A * S.

Definition ret {S A} (a : A) : M S A := fun s => (Ok a, s).

Definition raise {S A} (e : exn) : M S A := fun s => (Raise e, s).

Definition bind {S A C} (m : M S A) (k : A -> M S C) : M S C :=
  fun s =>
    match m s with
    | (Ok a, s') => k a s'
    | (Raise e, s') => (Raise e, s')
    end.

Definition of_result {S A} (r : result A) : M S A := fun s => (r, s).

Definition gets {S A} (f : S -> A) : M S A := fun s => (Ok (f s), s).

Notation "'let*' x ':=' m 'in' k" := (bind m (fun x => k))
  (at level 10, x name, m at level 100, k at level 200).
Notation "m ;; k" := (bind m (fun _ => k))
  (at level 100, k at level 200, right associativity).

(** ** numpy primitives *)

(** [numpy.zeros(n)] *)
Definition np_zeros (n : nat) : ndarray := replicate n 0%Z.

(** [a[:] = v] for a scalar [v] *)
Definition np_fill (v : Z) (a : ndarray) : ndarray := replicate (length a) v.

(** [a[cells] = v] with a list of indices: numpy checks every index before it
    writes and raises [IndexError] when one is out of range. *)
Definition np_put (cells : list nat) (v : Z) (a : ndarray) : result ndarray :=
  if forallb (fun i => i <? length a)%nat cells
  then Ok (foldr (fun i acc => <[i:=v]> acc) a cells)
  else Raise IndexError.

(** [a * b] on vectors, with numpy's broadcasting of a one-element operand. *)
Definition np_mul (a b : ndarray) : result ndarray :=
  if (length a =? length b)%nat then Ok (zip_with Z.mul a b)
  else match a, b with
       | [x], _ => Ok (map (Z.mul x) b)
       | _, [y] => Ok (map (fun x => Z.mul x y) a)
       | _, _ => Raise ValueError
       end.

(** [dst[:] = src]: the source must have the destination's length, or one
    element, which is then repeated. *)
Definition np_assign (src dst : ndarray) : result ndarray :=
  if (length src =? length dst)%nat then Ok src
  else match src with
       | [x] => Ok (replicate (length dst) x)
       | _ => Raise ValueError
       end.

(** [numpy.where(x == 1)[0]]: the indices, in increasing order, of the
    elements equal to 1. *)
Fixpoint where_eq1_from (i : nat) (x : ndarray) : list nat :=
  match x with
  | [] => []
  | v :: x' =>
      if bool_decide (v = 1%Z) then i :: where_eq1_from (S i) x'
      else where_eq1_from (S i) x'
  end.

Definition np_where_eq1 (x : ndarray) : list nat := where_eq1_from 0 x.

(** [set(numpy.where(x == 1)[0])] *)
Definition active_set (x : ndarray) : gset nat := list_to_set (np_where_eq1 x).

(** Python's [bool(v)]. *)
Definition py_bool {B} (v : pyval B) : result bool :=
  match v with
  | PyNone => Ok false
  | PyBool b => Ok b
  | PyInt z => Ok (negb (z =? 0)%Z)
  | PyFloat x => Ok (negb (PrimFloat.eqb x 0%float))
  | PyStr s => Ok (negb (String.eqb s ""%string))
  | PyArray [] => Ok false
  | PyArray [x] => Ok (negb (x =? 0)%Z)
  | PyArray _ => Raise ValueError
  | PyTM _ => Ok true
  end.

(** ** The backend capability contract and the factory

    What the region asks of [self._tm].  [compute_args] is
    [len(getArgumentDescriptions(self._tm.compute))], the number of declared
    arguments of the backend's [compute] (with [self]), by which the region
    tells an extended temporal memory from a plain one. *)

Inductive tm_call (B : Type) : Type :=
  | ComputeBasic (activeColumns : gset nat) (learn : pyval B)
  | ComputeExtended (activeColumns : gset nat)
      (activeExternalCells activeApicalCells : option (gset nat))
      (formInternalConnections learn : pyval B).

Arguments ComputeBasic {B} activeColumns learn.
Arguments ComputeExtended {B} activeColumns activeExternalCells
  activeApicalCells formInternalConnections learn.

Class TemporalMemory (B : Type) : Type := {
  compute_args : B -> nat;
  tm_compute : tm_call B -> M B unit;
  getActiveCells : B -> list nat;
  getPredictiveCells : B -> list nat;
  numberOfCells : B -> nat;
  tm_reset : B -> B
}.

(** A keyword argument of the backend constructor: an attribute value, or the
    tuple [(self.columnCount,)] passed as [columnDimensions]. *)
Inductive kwarg (B : Type) : Type :=
  | KwVal (v : pyval B)
  | KwTuple (items : list (pyval B)).

Arguments KwVal {B} v.
Arguments KwTuple {B} items.

(** [getConstructorArguments(imp)[0]] (the accepted parameter names) and
    [createModel(imp, **args)]. *)
Class Factory (B : Type) : Type := {
  getConstructorArguments : pyval B -> result (list string);
  createModel : pyval B -> gmap string (kwarg B) -> result B
}.

(** ** Attribute access on an object dictionary *)

Section Attributes.
Context {B : Type}.

Definition hasattr (name : string) (o : gmap string (pyval B)) : bool :=
  bool_decide (is_Some (o !! name)).

Definition getattr (name : string) : M (gmap string (pyval B)) (pyval B) :=
  fun o =>
    match o !! name with
    | Some v => (Ok v, o)
    | None => (Raise (AttributeError name), o)
    end.

Definition setattr (name : string) (v : pyval B)
  : M (gmap string (pyval B)) unit :=
  fun o => (Ok tt, <[name:=v]> o).

(** [self.<name>] used as a numpy vector. *)
Definition get_array (name : string) : M (gmap string (pyval B)) ndarray :=
  let* v := getattr name in
  match v with
  | PyArray a => ret a
  | _ => raise TypeError
  end.

(** An in-place update [self.<name>[...] = ...] of a numpy vector. *)
Definition update_array (name : string) (f : ndarray -> result ndarray)
  : M (gmap string (pyval B)) unit :=
  let* a := get_array name in
  let* a' := of_result (f a) in
  setattr name (PyArray a').

(** [v == lit] for a string literal [lit]. *)
Definition py_eq_str (v : pyval B) (lit : string) : bool :=
  match v with
  | PyStr s => String.eqb s lit
  | _ => false
  end.

(** [lit + v] for a string literal [lit]. *)
Definition py_str_add (lit : string) (v : pyval B) : result string :=
  match v with
  | PyStr s => Ok (lit ++ s)%string
  | _ => Raise TypeError
  end.
End Attributes.

(** ** The parameter table of a region

    One entry of the [parameters] dictionary that [getSpec] returns, with
    the keys the properties below look at; [constraints] is absent from some
    entries. *)

Inductive access : Type :=
  | ReadOnly
  | ReadWrite.

Record param_spec : Type := Param {
  param_name : string;
  accessMode : access;
  dataType : string;
  constraints : option string
}.

(** One entry of the [inputs] dictionary: its name and [required]. *)
Record input_spec : Type := Input {
  input_name : string;
  required : bool
}.

(** ** TMRegion *)

Module TMRegion.

(** What a [compute] call works on: the region object and the output
    buffers the network hands in, both mutated in place. *)
Record world (B : Type) : Type := World {
  self : gmap string (pyval B);
  outputs : gmap string ndarray
}.

Arguments World {B} self outputs.
Arguments self {B} w.
Arguments outputs {B} w.

(** The constructor's arguments. *)
Record init_args (B : Type) : Type := InitArgs {
  columnCount : pyval B;
  cellsPerColumn : pyval B;
  activationThreshold : pyval B;
  initialPermanence : pyval B;
  connectedPermanence : pyval B;
  minThreshold : pyval B;
  maxNewSynapseCount : pyval B;
  permanenceIncrement : pyval B;
  permanenceDecrement : pyval B;
  predictedSegmentDecrement : pyval B;
  seed : pyval B;
  learnOnOneCell : pyval B;
  temporalImp : pyval B;
  formInternalConnections : pyval B;
  defaultOutputType : pyval B
}.

Arguments InitArgs {B}.
Arguments columnCount {B} i.
Arguments cellsPerColumn {B} i.
Arguments activationThreshold {B} i.
Arguments initialPermanence {B} i.
Arguments connectedPermanence {B} i.
Arguments minThreshold {B} i.
Arguments maxNewSynapseCount {B} i.
Arguments permanenceIncrement {B} i.
Arguments permanenceDecrement {B} i.
Arguments predictedSegmentDecrement {B} i.
Arguments seed {B} i.
Arguments learnOnOneCell {B} i.
Arguments temporalImp {B} i.
Arguments formInternalConnections {B} i.
Arguments defaultOutputType {B} i.

(** The defaults of [__init__]'s signature. *)
Definition default_args {B} : init_args B := {|
  columnCount := PyInt 2048;
  cellsPerColumn := PyInt 32;
  activationThreshold := PyInt 13;
  initialPermanence := PyFloat 0.21;
  connectedPermanence := PyFloat 0.50;
  minThreshold := PyInt 10;
  maxNewSynapseCount := PyInt 20;
  permanenceIncrement := PyFloat 0.10;
  permanenceDecrement := PyFloat 0.10;
  predictedSegmentDecrement := PyFloat 0.0;
  seed := PyInt 42;
  learnOnOneCell := PyInt 1;
  temporalImp := PyStr "tm";
  formInternalConnections := PyInt 1;
  defaultOutputType := PyStr "active"
|}.

Section Region.
Context {B : Type} `{!TemporalMemory B} `{!Factory B}.

(** [__init__] (lines 281-320): the attributes in assignment order.  The
    base-class constructor [PyRegion.__init__] stores nothing. *)
Definition __init__ (a : init_args B) : result (gmap string (pyval B)) :=
  match py_bool (learnOnOneCell a) with
  | Raise e => Raise e
  | Ok one =>
  match py_bool (formInternalConnections a) with
  | Raise e => Raise e
  | Ok fic =>
      Ok (list_to_map
        [ ("columnCount", columnCount a);
          ("cellsPerColumn", cellsPerColumn a);
          ("activationThreshold", activationThreshold a);
          ("initialPermanence", initialPermanence a);
          ("connectedPermanence", connectedPermanence a);
          ("minThreshold", minThreshold a);
          ("maxNewSynapseCount", maxNewSynapseCount a);
          ("permanenceIncrement", permanenceIncrement a);
          ("permanenceDecrement", permanenceDecrement a);
          ("predictedSegmentDecrement", predictedSegmentDecrement a);
          ("seed", seed a);
          ("learnOnOneCell", PyBool one);
          ("learningMode", PyBool true);
          ("inferenceMode", PyBool true);
          ("temporalImp", temporalImp a);
          ("formInternalConnections", PyBool fic);
          ("defaultOutputType", defaultOutputType a);
          ("_tm", PyNone) ]%string)
  end end.

(** [self._tm.<method>(...)] for a query [f] of the backend. *)
Definition with_tm {A} (method : string) (f : B -> A)
  : M (gmap string (pyval B)) A :=
  let* tm := getattr "_tm" in
  match tm with
  | PyTM b => ret (f b)
  | _ => raise (AttributeError method)
  end.

(** [self._tm.<method>(...)] for a call [f] that mutates the backend. *)
Definition call_tm (method : string) (f : M B unit)
  : M (gmap string (pyval B)) unit :=
  let* tm := getattr "_tm" in
  match tm with
  | PyTM b => fun o => let (r, b') := f b in (r, <["_tm":=PyTM b']> o)
  | _ => raise (AttributeError method)
  end.

(** A statement on [self] alone, run inside [compute]. *)
Definition on_self {A} (m : M (gmap string (pyval B)) A) : M (world B) A :=
  fun w => let (r, o) := m (self w) in (r, World o (outputs w)).

(** [inputs[name]] *)
Definition input (inputs : gmap string ndarray) (name : string)
  : M (world B) ndarray :=
  match inputs !! name with
  | Some a => ret a
  | None => raise (KeyError name)
  end.

(** [outputs[name][:] = src] *)
Definition assign_output (name : string) (src : ndarray) : M (world B) unit :=
  fun w =>
    match outputs w !! name with
    | None => (Raise (KeyError name), w)
    | Some dst =>
        match np_assign src dst with
        | Ok d => (Ok tt, World (self w) (<[name:=d]> (outputs w)))
        | Raise e => (Raise e, w)
        end
    end.

(** [initialize] (lines 323-346). *)
Definition initialize : M (gmap string (pyval B)) unit :=
  let* tm := getattr "_tm" in
  match tm with
  | PyNone =>
      let* args := gets (fmap KwVal) in
      let* cc := getattr "columnCount" in
      let args := <["columnDimensions":=KwTuple [cc]]> args in
      let* imp := getattr "temporalImp" in
      let* expectedArgs := of_result (getConstructorArguments imp) in
      let args := filter (fun kv => kv.1 ∈ expectedArgs) args in
      let* imp := getattr "temporalImp" in
      let* b := of_result (createModel imp args) in
      setattr "_tm" (PyTM b);;
      let* n := with_tm "numberOfCells" numberOfCells in
      setattr "activeState" (PyArray (np_zeros n));;
      let* n := with_tm "numberOfCells" numberOfCells in
      setattr "previouslyPredictedCells" (PyArray (np_zeros n))
  | _ => ret tt
  end.

(** [reset] (lines 416-420). *)
Definition reset : M (gmap string (pyval B)) unit :=
  let* tm := getattr "_tm" in
  match tm with
  | PyNone => ret tt
  | _ =>
      call_tm "reset" (fun b => (Ok tt, tm_reset b));;
      update_array "previouslyPredictedCells" (fun a => Ok (np_fill 0 a))
  end.

(** [compute], lines 360-383: the inputs become index sets and the backend
    runs one step, called the way its declared arguments ask for. *)
Definition tm_step (inputs : gmap string ndarray) : M (world B) unit :=
  let* bottomUpIn := input inputs "bottomUpIn" in
  let activeColumns := active_set bottomUpIn in
  let activeExternalCells := active_set <$> inputs !! "externalInput" in
  let activeApicalCells := active_set <$> inputs !! "topDownIn" in
  let* args := on_self (with_tm "compute" compute_args) in
  if (3 <? args)%nat then
    let* fic := on_self (getattr "formInternalConnections") in
    let* learn := on_self (getattr "learningMode") in
    on_self (call_tm "compute"
      (tm_compute (ComputeExtended activeColumns activeExternalCells
                     activeApicalCells fic learn)))
  else
    let* learn := on_self (getattr "learningMode") in
    on_self (call_tm "compute" (tm_compute (ComputeBasic activeColumns learn))).

(** [compute], lines 387-392: the derived state; the value is the local
    [predictedActiveCells].  The backend's cell lists are read just before
    the vector they index; both are reads of attributes that lines 373-387
    have already used, so their order cannot be observed. *)
Definition update_state : M (gmap string (pyval B)) ndarray :=
  update_array "activeState" (fun a => Ok (np_fill 0 a));;
  let* cells := with_tm "getActiveCells" getActiveCells in
  update_array "activeState" (np_put cells 1);;
  let* activeState := get_array "activeState" in
  let* previouslyPredictedCells := get_array "previouslyPredictedCells" in
  let* predictedActiveCells :=
    of_result (np_mul activeState previouslyPredictedCells) in
  update_array "previouslyPredictedCells" (fun a => Ok (np_fill 0 a));;
  let* cells := with_tm "getPredictiveCells" getPredictiveCells in
  update_array "previouslyPredictedCells" (np_put cells 1);;
  ret predictedActiveCells.

(** [compute], lines 395-397. *)
Definition write_outputs (predictedActiveCells : ndarray) : M (world B) unit :=
  let* activeState := on_self (get_array "activeState") in
  assign_output "activeCells" activeState;;
  let* previouslyPredictedCells :=
    on_self (get_array "previouslyPredictedCells") in
  assign_output "predictiveCells" previouslyPredictedCells;;
  assign_output "predictedActiveCells" predictedActiveCells.

(** [compute], lines 360-397 in one piece: everything up to and including
    the three named outputs. *)
Definition named_outputs (inputs : gmap string ndarray) : M (world B) ndarray :=
  tm_step inputs;;
  let* predictedActiveCells := on_self update_state in
  write_outputs predictedActiveCells;;
  ret predictedActiveCells.

(** [compute], lines 400-407. *)
Definition select_default (predictedActiveCells : ndarray) : M (world B) unit :=
  let* t := on_self (getattr "defaultOutputType") in
  if py_eq_str t "active" then
    let* activeState := on_self (get_array "activeState") in
    assign_output "bottomUpOut" activeState
  else if py_eq_str t "predictive" then
    let* previouslyPredictedCells :=
      on_self (get_array "previouslyPredictedCells") in
    assign_output "bottomUpOut" previouslyPredictedCells
  else if py_eq_str t "predictedActiveCells" then
    assign_output "bottomUpOut" predictedActiveCells
  else
    let* msg := of_result (py_str_add "Unknown outputType: " t) in
    raise (Exception msg).

(** [compute], lines 410-413. *)
Definition handle_reset (inputs : gmap string ndarray) : M (world B) unit :=
  match inputs !! "resetIn" with
  | None => ret tt
  | Some resetIn =>
      if (length resetIn =? 1)%nat then
        if bool_decide (resetIn !! 0%nat ≠ Some 0%Z) then on_self reset
        else ret tt
      else raise AssertionError
  end.

(** [compute] (lines 350-413). *)
Definition compute (inputs : gmap string ndarray) : M (world B) unit :=
  tm_step inputs;;
  let* predictedActiveCells := on_self update_state in
  write_outputs predictedActiveCells;;
  select_default predictedActiveCells;;
  handle_reset inputs.

(** [setParameter] (lines 452-464). *)
Definition setParameter (parameterName : string) (index : Z)
    (parameterValue : pyval B) : M (gmap string (pyval B)) unit :=
  if bool_decide (parameterName ∈
       ["learningMode"; "inferenceMode"; "formInternalConnections"]%string)
  then
    let* b := of_result (py_bool parameterValue) in
    setattr parameterName (PyBool b)
  else
    let* known := gets (hasattr parameterName) in
    if known then setattr parameterName parameterValue
    else raise (Exception ("Unknown parameter: " ++ parameterName)).

End Region.
(** [getSpec] (lines 54-278): the [parameters], [outputs], [inputs] and
    [commands] it declares, in the order of the source. *)
Definition getSpec_parameters : list param_spec :=
  [ Param "learningMode" ReadWrite "UInt32" (Some "bool");
    Param "inferenceMode" ReadWrite "UInt32" (Some "bool");
    Param "columnCount" ReadWrite "UInt32" (Some "");
    Param "inputWidth" ReadOnly "UInt32" (Some "");
    Param "cellsPerColumn" ReadWrite "UInt32" (Some "");
    Param "activationThreshold" ReadWrite "UInt32" (Some "");
    Param "initialPermanence" ReadWrite "Real32" (Some "");
    Param "connectedPermanence" ReadWrite "Real32" (Some "");
    Param "minThreshold" ReadWrite "UInt32" (Some "");
    Param "maxNewSynapseCount" ReadWrite "UInt32" None;
    Param "permanenceIncrement" ReadWrite "Real32" None;
    Param "permanenceDecrement" ReadWrite "Real32" None;
    Param "predictedSegmentDecrement" ReadWrite "Real32" None;
    Param "seed" ReadWrite "UInt32" None;
    Param "temporalImp" ReadWrite "Byte"
      (Some "enum: tm,tmCPP, extended,tmMixin");
    Param "formInternalConnections" ReadWrite "UInt32" (Some "bool");
    Param "learnOnOneCell" ReadWrite "UInt32" (Some "bool");
    Param "defaultOutputType" ReadWrite "Byte"
      (Some "enum: active,predictive,predictedActiveCells") ]%string.

Definition getSpec_outputs : list string :=
  ["bottomUpOut"; "predictiveCells"; "predictedActiveCells";
   "activeCells"]%string.

Definition getSpec_inputs : list input_spec :=
  [ Input "bottomUpIn" true; Input "resetIn" false;
    Input "sequenceIdIn" false; Input "externalInput" true;
    Input "topDownIn" false ]%string.

Definition getSpec_commands : list string :=
  ["reset"; "prettyPrintTraces"; "debugPlot"]%string.

Section Queries.
Context {B : Type}.

(** Python's binary [*] on two attribute values, as in [L2Column] below. *)
Variable py_mul : pyval B -> pyval B -> result (pyval B).

(** [getOutputElementCount] (lines 467-475). *)
Definition getOutputElementCount (name : string)
  : M (gmap string (pyval B)) (pyval B) :=
  if bool_decide (name ∈
       ["bottomUpOut"; "predictedActiveCells"; "predictiveCells";
        "activeCells"]%string)
  then
    let* columnCount := getattr "columnCount" in
    let* cellsPerColumn := getattr "cellsPerColumn" in
    of_result (py_mul columnCount cellsPerColumn)
  else raise (Exception "Invalid output name specified").

End Queries.

End TMRegion.

(** ** L2Column *)

Module L2Column.

Record init_args (B : Type) : Type := InitArgs {
  columnCount : pyval B;
  cellsPerColumn : pyval B;
  activationThreshold : pyval B;
  initialPermanence : pyval B;
  connectedPermanence : pyval B;
  minThreshold : pyval B;
  maxNewSynapseCount : pyval B;
  permanenceIncrement : pyval B;
  permanenceDecrement : pyval B;
  predictedSegmentDecrement : pyval B;
  seed : pyval B;
  defaultOutputType : pyval B
}.

Arguments InitArgs {B}.
Arguments columnCount {B} i.
Arguments cellsPerColumn {B} i.
Arguments activationThreshold {B} i.
Arguments initialPermanence {B} i.
Arguments connectedPermanence {B} i.
Arguments minThreshold {B} i.
Arguments maxNewSynapseCount {B} i.
Arguments permanenceIncrement {B} i.
Arguments permanenceDecrement {B} i.
Arguments predictedSegmentDecrement {B} i.
Arguments seed {B} i.
Arguments defaultOutputType {B} i.

Definition default_args {B} : init_args B := {|
  columnCount := PyInt 2048;
  cellsPerColumn := PyInt 16;
  activationThreshold := PyInt 13;
  initialPermanence := PyFloat 0.21;
  connectedPermanence := PyFloat 0.50;
  minThreshold := PyInt 10;
  maxNewSynapseCount := PyInt 20;
  permanenceIncrement := PyFloat 0.10;
  permanenceDecrement := PyFloat 0.10;
  predictedSegmentDecrement := PyFloat 0.0;
  seed := PyInt 42;
  defaultOutputType := PyStr "active"
|}.

(** [getSpec] (lines 33-219): the [parameters], [outputs], [inputs] and
    [commands] it declares, in the order of the source. *)
Definition getSpec_parameters : list param_spec :=
  [ Param "learningMode" ReadWrite "UInt32" (Some "bool");
    Param "inferenceMode" ReadWrite "UInt32" (Some "bool");
    Param "columnCount" ReadWrite "UInt32" (Some "");
    Param "inputWidth" ReadOnly "UInt32" (Some "");
    Param "cellsPerColumn" ReadWrite "UInt32" (Some "");
    Param "activationThreshold" ReadWrite "UInt32" (Some "");
    Param "initialPermanence" ReadWrite "Real32" (Some "");
    Param "connectedPermanence" ReadWrite "Real32" (Some "");
    Param "minThreshold" ReadWrite "UInt32" (Some "");
    Param "maxNewSynapseCount" ReadWrite "UInt32" None;
    Param "permanenceIncrement" ReadWrite "Real32" None;
    Param "permanenceDecrement" ReadWrite "Real32" None;
    Param "predictedSegmentDecrement" ReadWrite "Real32" None;
    Param "seed" ReadWrite "UInt32" None;
    Param "defaultOutputType" ReadWrite "Byte"
      (Some "enum: active,predictive,predictedActiveCells") ]%string.

Definition getSpec_outputs : list string :=
  ["feedForwardOutput"; "predictiveCells"; "predictedActiveCells";
   "activeCells"]%string.

Definition getSpec_inputs : list input_spec :=
  [ Input "feedForwardInput" true; Input "lateralInput" false;
    Input "resetIn" false ]%string.

Definition getSpec_commands : list string := ["reset"]%string.

Section Layer.
Context {B : Type}.

(** Python's binary [*] on two attribute values.  The layer multiplies
    whatever [columnCount] and [cellsPerColumn] hold; what the product of two
    given values is belongs to the language, not to the layer. *)
Variable py_mul : pyval B -> pyval B -> result (pyval B).

(** [__init__] (lines 222-253). *)
Definition __init__ (a : init_args B) : result (gmap string (pyval B)) :=
  match py_mul (columnCount a) (cellsPerColumn a) with
  | Raise e => Raise e
  | Ok inputWidth =>
      Ok (list_to_map
        [ ("columnCount", columnCount a);
          ("cellsPerColumn", cellsPerColumn a);
          ("inputWidth", inputWidth);
          ("activationThreshold", activationThreshold a);
          ("initialPermanence", initialPermanence a);
          ("connectedPermanence", connectedPermanence a);
          ("minThreshold", minThreshold a);
          ("maxNewSynapseCount", maxNewSynapseCount a);
          ("permanenceIncrement", permanenceIncrement a);
          ("permanenceDecrement", permanenceDecrement a);
          ("predictedSegmentDecrement", predictedSegmentDecrement a);
          ("seed", seed a);
          ("learningMode", PyBool true);
          ("inferenceMode", PyBool true);
          ("defaultOutputType", defaultOutputType a) ]%string)
  end.

(** [setParameter] (lines 289-301). *)
Definition setParameter (parameterName : string) (index : Z)
    (parameterValue : pyval B) : M (gmap string (pyval B)) unit :=
  (if bool_decide (parameterName ∈ ["learningMode"; "inferenceMode"]%string)
   then
     let* b := of_result (py_bool parameterValue) in
     setattr parameterName (PyBool b)
   else
     let* known := gets (hasattr parameterName) in
     if known then setattr parameterName parameterValue
     else raise (Exception ("Unknown parameter: " ++ parameterName)));;
  let* columnCount := getattr "columnCount" in
  let* cellsPerColumn := getattr "cellsPerColumn" in
  let* inputWidth := of_result (py_mul columnCount cellsPerColumn) in
  setattr "inputWidth" inputWidth.

(** [getOutputElementCount] (lines 304-312). *)
Definition getOutputElementCount (name : string)
  : M (gmap string (pyval B)) (pyval B) :=
  if bool_decide (name ∈
       ["feedForwardOutput"; "predictedActiveCells"; "predictiveCells";
        "activeCells"]%string)
  then
    let* columnCount := getattr "columnCount" in
    let* cellsPerColumn := getattr "cellsPerColumn" in
    of_result (py_mul columnCount cellsPerColumn)
  else raise (Exception "Invalid output name specified").

End Layer.
End L2Column.

(** The product on the declared (UInt32) type of [columnCount] and
    [cellsPerColumn]: integers, with booleans counting as 0 and 1. *)
Definition int_mul {B} (x y : pyval B) : result (pyval B) :=
  let as_int (v : pyval B) : option Z :=
    match v with
    | PyInt z => Some z
    | PyBool b => Some (if b then 1 else 0)%Z
    | _ => None
    end in
  match as_int x, as_int y with
  | Some a, Some b => Ok (PyInt (a * b))
  | _, _ => Raise TypeError
  end.

(** ** A scripted backend

    A stand-in temporal memory for running the region on concrete inputs:
    each [compute] takes the next (active cells, predictive cells) pair off a
    script and remembers the columns it was handed; [reset] clears the two
    cell sets. *)

Record toy : Type := Toy {
  toy_cells : nat;
  toy_args : nat;
  toy_script : list (list nat * list nat);
  toy_active : list nat;
  toy_predictive : list nat;
  toy_columns : gset nat
}.

Definition toy_compute (call : tm_call toy) : M toy unit :=
  fun t =>
    let columns :=
      match call with
      | ComputeBasic cols _ => cols
      | ComputeExtended cols _ _ _ _ => cols
      end in
    match toy_script t with
    | [] => (Ok tt, Toy (toy_cells t) (toy_args t) [] [] [] columns)
    | (act, pred) :: rest =>
        (Ok tt, Toy (toy_cells t) (toy_args t) rest act pred columns)
    end.

Definition toy_reset (t : toy) : toy :=
  Toy (toy_cells t) (toy_args t) (toy_script t) [] [] (toy_columns t).

#[global] Instance toy_tm : TemporalMemory toy := {|
  compute_args := toy_args;
  tm_compute := toy_compute;
  getActiveCells := toy_active;
  getPredictiveCells := toy_predictive;
  numberOfCells := toy_cells;
  tm_reset := toy_reset
|}.

(** A factory that knows one implementation name, ["tm"], whose constructor
    accepts [columnDimensions], [cellsPerColumn] and [seed], and hands out the
    backend [proto]. *)
Definition toy_factory (proto : toy) : Factory toy := {|
  getConstructorArguments imp :=
    if py_eq_str imp "tm"
    then Ok ["columnDimensions"; "cellsPerColumn"; "seed"]%string
    else Raise (Exception "Unknown temporal memory implementation");
  createModel imp _ :=
    if py_eq_str imp "tm" then Ok proto
    else Raise (Exception "Unknown temporal memory implementation")
|}.

(** The scenario of four columns with two cells each: the backend reports
    active cells 0 and 3 and predictive cells 1 and 4 at the first step, and
    active cells 1 and 4 at the second. *)
Definition toy8 : toy :=
  Toy 8 3 [([0; 3], [1; 4]); ([1; 4], [])] [] [] ∅.

Definition args8 : TMRegion.init_args toy :=
  TMRegion.InitArgs (PyInt 4) (PyInt 2) (PyInt 13) (PyFloat 0.21)
    (PyFloat 0.50) (PyInt 10) (PyInt 20) (PyFloat 0.10) (PyFloat 0.10)
    (PyFloat 0.0) (PyInt 42) (PyInt 1) (PyStr "tm") (PyInt 1)
    (PyStr "active").

(** The region of the scenario as the constructor leaves it, and once
    initialised. *)
Definition region_fresh : gmap string (pyval toy) :=
  match @TMRegion.__init__ toy args8 with
  | Ok o => o
  | Raise _ => ∅
  end.

Definition region8 : gmap string (pyval toy) :=
  (@TMRegion.initialize toy toy_tm (toy_factory toy8) region_fresh).2.

Definition buffers8 : gmap string ndarray :=
  list_to_map
    [ ("bottomUpOut", np_zeros 8); ("activeCells", np_zeros 8);
      ("predictiveCells", np_zeros 8);
      ("predictedActiveCells", np_zeros 8) ]%string.

Definition world8 : TMRegion.world toy := TMRegion.World region8 buffers8.

(** Feed-forward input with columns 0 and 2 active, with and without a
    reset flag. *)
Definition in_cols02 : gmap string ndarray :=
  {[ "bottomUpIn"%string := [1; 0; 1; 0]%Z ]}.

Definition in_cols02_reset (flag : ndarray) : gmap string ndarray :=
  <["resetIn"%string := flag]> in_cols02.

(** The same region after [setParameter("defaultOutputType", 0, "bogus")],
    which the setter accepts. *)
Definition region8_bogus : gmap string (pyval toy) :=
  (TMRegion.setParameter "defaultOutputType" 0 (PyStr "bogus") region8).2.

Definition world8_bogus : TMRegion.world toy :=
  TMRegion.World region8_bogus buffers8.

(** The world after one step and after two, without a reset and with the
    flag set on the first step. *)
Definition step1 : TMRegion.world toy := (TMRegion.compute in_cols02 world8).2.

Definition step2 : TMRegion.world toy :=
  (TMRegion.compute in_cols02 (TMRegion.World (TMRegion.self step1) buffers8)).2.

Definition step1_reset : TMRegion.world toy :=
  (TMRegion.compute (in_cols02_reset [1%Z]) world8).2.

Definition step2_after_reset : TMRegion.world toy :=
  (TMRegion.compute in_cols02
     (TMRegion.World (TMRegion.self step1_reset) buffers8)).2.

(** The region after one step and an explicit [reset], and the step that
    follows. *)
Definition region8_reset : gmap string (pyval toy) :=
  (TMRegion.reset (TMRegion.self step1)).2.

Definition step2_after_command : TMRegion.world toy :=
  (TMRegion.compute in_cols02 (TMRegion.World region8_reset buffers8)).2.

(** A feed-forward input with a 2 in it. *)
Definition in_two : gmap string ndarray :=
  {[ "bottomUpIn"%string := [2; 1; 0; 0]%Z ]}.

(** A backend that reports five cells. *)
Definition toy5 : toy := Toy 5 3 [] [] [] ∅.

(** An [L2Column] built with the defaults of its constructor. *)
Definition layer_fresh : gmap string (pyval toy) :=
  match L2Column.__init__ int_mul L2Column.default_args with
  | Ok o => o
  | Raise _ => ∅
  end.

(** ** Vocabulary of the properties *)

(** The 0/1 vector of length [n] with a 1 at every listed cell. *)
Definition mask (n : nat) (cells : list nat) : ndarray :=
  foldr (fun i acc => <[i:=1%Z]> acc) (np_zeros n) cells.

(** Elementwise AND of two binary vectors. *)
Definition np_logical_and (a b : ndarray) : ndarray :=
  zip_with (fun x y => if bool_decide (x ≠ 0%Z ∧ y ≠ 0%Z) then 1%Z else 0%Z)
    a b.

(** The conversion as the specification words it: the indices at which the
    value is nonzero. *)
Fixpoint nonzero_from (i : nat) (x : ndarray) : list nat :=
  match x with
  | [] => []
  | v :: x' =>
      if bool_decide (v ≠ 0%Z) then i :: nonzero_from (S i) x'
      else nonzero_from (S i) x'
  end.

Definition spec_nonzero_set (x : ndarray) : gset nat :=
  list_to_set (nonzero_from 0 x).

Definition binary (x : ndarray) : Prop := Forall (fun v => v = 0%Z ∨ v = 1%Z) x.

(** The attributes [initialize] creates next to the configuration. *)
Definition runtime_attrs : list string :=
  ["_tm"; "activeState"; "previouslyPredictedCells"]%string.

Definition output_names : list string :=
  ["bottomUpOut"; "activeCells"; "predictiveCells";
   "predictedActiveCells"]%string.

Definition valid_selectors : list string :=
  ["active"; "predictive"; "predictedActiveCells"]%string.

(** The configuration attributes [__init__] sets. *)
Definition config_fields : list string :=
  ["columnCount"; "cellsPerColumn"; "activationThreshold";
   "initialPermanence"; "connectedPermanence"; "minThreshold";
   "maxNewSynapseCount"; "permanenceIncrement"; "permanenceDecrement";
   "predictedSegmentDecrement"; "seed"; "learnOnOneCell"; "learningMode";
   "inferenceMode"; "temporalImp"; "formInternalConnections";
   "defaultOutputType"]%string.

(** A statement preserves a relation between the state it starts from and
    the state it leaves, whether it returns or raises. *)
Definition preserves {S A} (R : relation S) (m : M S A) : Prop :=
  ∀ s, R s (m s).2.

Section Vocabulary.
Context {B : Type}.

(** [initialize] has completed: the backend exists and both derived vectors
    have [n] elements. *)
Definition region_ready (n : nat) (o : gmap string (pyval B)) : Prop :=
  (∃ b, o !! "_tm"%string = Some (PyTM b)) ∧
  (∃ a, o !! "activeState"%string = Some (PyArray a) ∧ length a = n) ∧
  (∃ p, o !! "previouslyPredictedCells"%string = Some (PyArray p) ∧
        length p = n).

(** The network's output buffers have [n] elements each. *)
Definition buffers_ready (n : nat) (outs : gmap string ndarray) : Prop :=
  ∀ name, name ∈ output_names → ∃ d, outs !! name = Some d ∧ length d = n.

Definition ready (n : nat) (w : TMRegion.world B) : Prop :=
  region_ready n (TMRegion.self w) ∧ buffers_ready n (TMRegion.outputs w).

(** The vector the selector [t] designates, among the region's two vectors
    and the local [predictedActiveCells]. *)
Definition selected (t : pyval B) (o : gmap string (pyval B))
    (pa src : ndarray) : Prop :=
  (py_eq_str t "active" = true ∧
   o !! "activeState"%string = Some (PyArray src)) ∨
  (py_eq_str t "active" = false ∧ py_eq_str t "predictive" = true ∧
   o !! "previouslyPredictedCells"%string = Some (PyArray src)) ∨
  (py_eq_str t "active" = false ∧ py_eq_str t "predictive" = false ∧
   py_eq_str t "predictedActiveCells" = true ∧ src = pa).

(** Does this step's [resetIn] ask for a reset? *)
Definition resets (inputs : gmap string ndarray) : bool :=
  match inputs !! "resetIn"%string with
  | Some [r] => negb (r =? 0)%Z
  | _ => false
  end.

(** Every attribute outside [runtime_attrs] has the value it had. *)
Definition config_kept (o o' : gmap string (pyval B)) : Prop :=
  ∀ k, k ∉ runtime_attrs → o' !! k = o !! k.

(** [_tm] refers to the backend object it referred to (whose internal state
    may have advanced), or is otherwise untouched. *)
Definition tm_kept (o o' : gmap string (pyval B)) : Prop :=
  match o !! "_tm"%string with
  | Some (PyTM _) => ∃ b', o' !! "_tm"%string = Some (PyTM b')
  | v => o' !! "_tm"%string = v
  end.

Definition frame (o o' : gmap string (pyval B)) : Prop :=
  config_kept o o' ∧ tm_kept o o'.

(** The same, for the region of a [compute] call. *)
Definition self_frame (w w' : TMRegion.world B) : Prop :=
  frame (TMRegion.self w) (TMRegion.self w').

(** The attribute [k] holds the very value it held. *)
Definition attr_kept (k : string) (o o' : gmap string (pyval B)) : Prop :=
  o' !! k = o !! k.

Definition self_attr_kept (k : string) (w w' : TMRegion.world B) : Prop :=
  attr_kept k (TMRegion.self w) (TMRegion.self w').

(** The output buffer [name] holds what it held. *)
Definition output_kept (name : string) (w w' : TMRegion.world B) : Prop :=
  TMRegion.outputs w' !! name = TMRegion.outputs w !! name.

End Vocabulary.

(** ** Further vocabulary *)

(** Two statements simulate each other along [R]: from related states they
    have the same outcome and leave related states. *)
Definition simulates {S A} (R : relation S) (m m' : M S A) : Prop :=
  ∀ s s', R s s' → (m s).1 = (m' s').1 ∧ R (m s).2 (m' s').2.

(** The names [compute] looks up on [self] (six attributes and the method
    [reset], which an instance attribute of that name would shadow), and the
    inputs it looks up. *)
Definition compute_reads : list string :=
  ["_tm"; "formInternalConnections"; "learningMode"; "activeState";
   "previouslyPredictedCells"; "defaultOutputType"; "reset"]%string.

Definition compute_inputs : list string :=
  ["bottomUpIn"; "externalInput"; "topDownIn"; "resetIn"]%string.

(** The parameters [TMRegion.setParameter] passes through [bool]. *)
Definition coerced_parameters : list string :=
  ["learningMode"; "inferenceMode"; "formInternalConnections"]%string.

(** The named output a valid selector designates. *)
Definition selected_output (sel : string) : string :=
  if String.eqb sel "active" then "activeCells"%string
  else if String.eqb sel "predictive" then "predictiveCells"%string
  else "predictedActiveCells"%string.

(** The parameter names a table declares. *)
Definition declared (table : list param_spec) : list string :=
  param_name <$> table.

Section Vocabulary2.
Context {B : Type}.

(** [o'] is [o] with the attribute [k] set to [v]. *)
Definition with_attr (k : string) (v : pyval B)
    (o o' : gmap string (pyval B)) : Prop :=
  o' = <[k:=v]> o.

Definition self_with_attr (k : string) (v : pyval B)
    (w w' : TMRegion.world B) : Prop :=
  TMRegion.self w' = <[k:=v]> (TMRegion.self w) ∧
  TMRegion.outputs w' = TMRegion.outputs w.

(** The call [compute] makes on the backend [b] of a region [o]. *)
Definition backend_call `{!TemporalMemory B} (inputs : gmap string ndarray)
    (x : ndarray) (learn fic : pyval B) (b : B) : tm_call B :=
  if (3 <? compute_args b)%nat
  then ComputeExtended (active_set x)
         (active_set <$> inputs !! "externalInput"%string)
         (active_set <$> inputs !! "topDownIn"%string) fic learn
  else ComputeBasic (active_set x) learn.

(** The three flags [TMRegion.setParameter] coerces hold booleans. *)
Definition flags_boolean (o : gmap string (pyval B)) : Prop :=
  ∀ k, k ∈ coerced_parameters → ∃ b, o !! k = Some (PyBool b).

End Vocabulary2.

(** ** Further backends and worlds for running the region *)

(** A backend whose compute always raises, counting the attempts. *)
Record faulty : Type := Faulty { attempts : nat }.

#[global] Instance faulty_tm : TemporalMemory faulty := {|
  compute_args _ := 3;
  tm_compute _ := fun t =>
    (Raise (Exception "backend failure"), Faulty (S (attempts t)));
  getActiveCells _ := [];
  getPredictiveCells _ := [];
  numberOfCells _ := 8;
  tm_reset t := t
|}.

(** The scenario's region around the faulty backend. *)
Definition region_faulty : gmap string (pyval faulty) :=
  list_to_map
    [ ("learningMode", PyBool true); ("formInternalConnections", PyBool true);
      ("defaultOutputType", PyStr "active"); ("_tm", PyTM (Faulty 0));
      ("activeState", PyArray (np_zeros 8));
      ("previouslyPredictedCells", PyArray (np_zeros 8)) ]%string.

Definition world_faulty : TMRegion.world faulty :=
  TMRegion.World region_faulty buffers8.

(** The scenario's backend after its first step. *)
Definition toy8_after1 : toy :=
  (tm_compute
     (backend_call in_cols02 [1; 0; 1; 0]%Z (PyBool true) (PyBool true) toy8)
     toy8).2.

(** A scripted backend of eight cells that reports the cell 9 as active, and
    the scenario's region initialised with it. *)
Definition toy8_wild : toy := Toy 8 3 [([9], [1])] [] [] ∅.

Definition region8_wild : gmap string (pyval toy) :=
  (@TMRegion.initialize toy toy_tm (toy_factory toy8_wild) region_fresh).2.

Definition world8_wild : TMRegion.world toy :=
  TMRegion.World region8_wild buffers8.

(** A scripted backend that reports the cell 9 as predictive, and the
    scenario's region initialised with it. *)
Definition toy8_stray : toy := Toy 8 3 [([0], [9])] [] [] ∅.

Definition region8_stray : gmap string (pyval toy) :=
  (@TMRegion.initialize toy toy_tm (toy_factory toy8_stray) region_fresh).2.

Definition world8_stray : TMRegion.world toy :=
  TMRegion.World region8_stray buffers8.

(** The two stray backends after their first step. *)
Definition toy8_wild_after1 : toy :=
  Toy 8 3 [] [9] [1] (active_set [1; 0; 1; 0]%Z).

Definition toy8_stray_after1 : toy :=
  Toy 8 3 [] [0] [9] (active_set [1; 0; 1; 0]%Z).

(** The scenario's region before [initialize], with output buffers. *)
Definition world_fresh : TMRegion.world toy :=
  TMRegion.World region_fresh buffers8.

(** The scenario's region asking for an implementation the factory does not
    know. *)
Definition region_cpp : gmap string (pyval toy) :=
  <["temporalImp"%string:=PyStr "cpp"]> region_fresh.

(** Output buffers of four elements, too short for the scenario's region. *)
Definition buffers4 : gmap string ndarray :=
  list_to_map
    [ ("bottomUpOut", np_zeros 4); ("activeCells", np_zeros 4);
      ("predictiveCells", np_zeros 4);
      ("predictedActiveCells", np_zeros 4) ]%string.

Definition world8_short : TMRegion.world toy :=
  TMRegion.World region8 buffers4.

(** ** Binary vectors of a region *)

Section Binary.
Context {B : Type}.

(** Both derived vectors of the region hold only 0 and 1. *)
Definition region_binary (o : gmap string (pyval B)) : Prop :=
  (∀ a, o !! "activeState"%string = Some (PyArray a) → binary a) ∧
  (∀ p, o !! "previouslyPredictedCells"%string = Some (PyArray p) → binary p).

(** The four output buffers hold only 0 and 1. *)
Definition outputs_binary (outs : gmap string ndarray) : Prop :=
  ∀ k d, k ∈ output_names → outs !! k = Some d → binary d.

End Binary.

(** * Properties *)
(** ** Running statements *)

Section Statements.
Context {S : Type}.

Lemma bind_run {A C} (m : M S A) (k : A -> M S C) s :
  bind m k s =
  match m s with
  | (Ok a, s') => k a s'
  | (Raise e, s') => (Raise e, s')
  end.
Proof. reflexivity. Qed.

Lemma bind_Ok {A C} (m : M S A) (k : A -> M S C) s a s1 :
  m s = (Ok a, s1) → bind m k s = k a s1.
Proof. intros E. unfold bind. by rewrite E. Qed.

Lemma bind_Raise {A C} (m : M S A) (k : A -> M S C) s e s1 :
  m s = (Raise e, s1) → bind m k s = (Raise e, s1).
Proof. intros E. unfold bind. by rewrite E. Qed.

Lemma bind_Ok_inv {A C} (m : M S A) (k : A -> M S C) s c s' :
  bind m k s = (Ok c, s') →
  ∃ a s1, m s = (Ok a, s1) ∧ k a s1 = (Ok c, s').
Proof.
  unfold bind. destruct (m s) as [[a|e] s1]; [eauto | discriminate].
Qed.

(** A run whose outcome is known is determined by the state it leaves. *)
Lemma run_Ok {A} (m : M S A) s a : (m s).1 = Ok a → m s = (Ok a, (m s).2).
Proof. destruct (m s). simpl. by intros ->. Qed.

Lemma of_result_Ok_inv {A} (r : result A) (s : S) a s' :
  of_result r s = (Ok a, s') → r = Ok a ∧ s' = s.
Proof. unfold of_result. by intros [= -> ->]. Qed.

Lemma preserves_ret {A} (R : relation S) `{!Reflexive R} (a : A) :
  preserves R (ret a).
Proof. intros s. simpl. reflexivity. Qed.

Lemma preserves_raise {A} (R : relation S) `{!Reflexive R} e :
  preserves R (raise (A:=A) e).
Proof. intros s. simpl. reflexivity. Qed.

Lemma preserves_of_result {A} (R : relation S) `{!Reflexive R} (r : result A) :
  preserves R (of_result r).
Proof. intros s. simpl. reflexivity. Qed.

Lemma preserves_gets {A} (R : relation S) `{!Reflexive R} (f : S -> A) :
  preserves R (gets f).
Proof. intros s. simpl. reflexivity. Qed.

Lemma preserves_bind {A C} (R : relation S) `{!Transitive R}
    (m : M S A) (k : A -> M S C) :
  preserves R m → (∀ a, preserves R (k a)) → preserves R (bind m k).
Proof.
  intros Hm Hk s. unfold bind. specialize (Hm s).
  destruct (m s) as [[a|e] s1]; simpl in *; [|done].
  etrans; [exact Hm | apply Hk].
Qed.

End Statements.

(** ** numpy vectors *)

Lemma length_np_zeros n : length (np_zeros n) = n.
Proof. apply length_replicate. Qed.

Lemma length_np_fill v a : length (np_fill v a) = length a.
Proof. apply length_replicate. Qed.

Lemma np_fill_zeros a : np_fill 0 a = np_zeros (length a).
Proof. reflexivity. Qed.

Lemma length_put_all (cells : list nat) (v : Z) (a : ndarray) :
  length (foldr (fun i acc => <[i:=v]> acc) a cells) = length a.
Proof.
  induction cells as [|i cells IH]; simpl; [done|].
  by rewrite length_insert.
Qed.

Lemma length_mask n cells : length (mask n cells) = n.
Proof. unfold mask. by rewrite length_put_all, length_np_zeros. Qed.

Lemma np_put_Ok_inv cells v a a' :
  np_put cells v a = Ok a' →
  a' = foldr (fun i acc => <[i:=v]> acc) a cells ∧ length a' = length a.
Proof.
  unfold np_put. case_match; [|discriminate].
  intros [= <-]. by rewrite length_put_all.
Qed.

Lemma np_put_fill_inv cells a a' :
  np_put cells 1 (np_fill 0 a) = Ok a' → a' = mask (length a) cells.
Proof. intros [-> _]%np_put_Ok_inv. reflexivity. Qed.

Lemma np_put_in_range cells v a :
  Forall (fun i => i < length a) cells →
  np_put cells v a = Ok (foldr (fun i acc => <[i:=v]> acc) a cells).
Proof.
  intros Hr. unfold np_put.
  assert (forallb (fun i => i <? length a) cells = true) as ->; [|done].
  apply forallb_forall. intros i Hi%list_elem_of_In.
  rewrite Forall_forall in Hr. apply Nat.ltb_lt. auto.
Qed.

Lemma np_mul_same_length a b :
  length a = length b → np_mul a b = Ok (zip_with Z.mul a b).
Proof. intros E. unfold np_mul. by rewrite E, Nat.eqb_refl. Qed.

Lemma np_assign_same_length src dst :
  length src = length dst → np_assign src dst = Ok src.
Proof. intros E. unfold np_assign. by rewrite E, Nat.eqb_refl. Qed.

Lemma binary_replicate_0 n : binary (replicate n 0%Z).
Proof. apply Forall_replicate. by left. Qed.

Lemma binary_insert_1 (a : ndarray) i : binary a → binary (<[i:=1%Z]> a).
Proof. intros Ha. apply Forall_insert; [done | by right]. Qed.

Lemma binary_mask n cells : binary (mask n cells).
Proof.
  unfold mask. induction cells as [|i cells IH]; simpl.
  - apply binary_replicate_0.
  - by apply binary_insert_1.
Qed.

(** On binary vectors the product is the conjunction. *)
Lemma binary_mul_and a b :
  binary a → binary b → zip_with Z.mul a b = np_logical_and a b.
Proof.
  unfold np_logical_and. intros Ha. revert b.
  induction Ha as [|x a Hx Ha IH]; intros b Hb; [done|].
  destruct Hb as [|y b Hy Hb]; [done|]. simpl. f_equal; [|by apply IH].
  destruct Hx as [-> | ->], Hy as [-> | ->]; reflexivity.
Qed.

Lemma mul_zeros_r (a : ndarray) :
  zip_with Z.mul a (np_zeros (length a)) = np_zeros (length a).
Proof.
  induction a as [|x a IH]; [done|]. simpl. unfold np_zeros in *. simpl.
  by rewrite IH, Z.mul_0_r.
Qed.

Lemma and_zeros_r (a : ndarray) :
  np_logical_and a (np_zeros (length a)) = np_zeros (length a).
Proof.
  unfold np_logical_and, np_zeros.
  induction a as [|x a IH]; [done|]. simpl. rewrite IH. f_equal.
  rewrite bool_decide_eq_false_2; [done | by intros [_ ?]].
Qed.

(** ** Attribute access *)

Section AttributeFacts.
Context {B : Type}.
Implicit Types o : gmap string (pyval B).

Lemma getattr_Ok_inv name o v o' :
  getattr name o = (Ok v, o') → o !! name = Some v ∧ o' = o.
Proof. unfold getattr. destruct (o !! name); by intros [= <- <-]. Qed.

Lemma getattr_Some name o v : o !! name = Some v → getattr name o = (Ok v, o).
Proof. unfold getattr. by intros ->. Qed.

Lemma get_array_Ok_inv name o a o' :
  get_array name o = (Ok a, o') → o !! name = Some (PyArray a) ∧ o' = o.
Proof.
  intros (v & o1 & [Hv ->]%getattr_Ok_inv & Hk)%bind_Ok_inv.
  destruct v; try discriminate. by injection Hk as <- <-.
Qed.

Lemma get_array_Some name o a :
  o !! name = Some (PyArray a) → get_array name o = (Ok a, o).
Proof. intros E. unfold get_array. by rewrite (bind_Ok _ _ _ _ _ (getattr_Some _ _ _ E)). Qed.

Lemma update_array_Ok_inv name f o u o' :
  update_array name f o = (Ok u, o') →
  ∃ a a', o !! name = Some (PyArray a) ∧ f a = Ok a' ∧
          o' = <[name:=PyArray a']> o.
Proof.
  intros (a & o1 & [Ha ->]%get_array_Ok_inv & Hk)%bind_Ok_inv.
  apply bind_Ok_inv in Hk as (a' & o2 & [Hf ->]%of_result_Ok_inv & Hk).
  injection Hk as _ <-. eauto.
Qed.

Lemma update_array_Some name f o a a' :
  o !! name = Some (PyArray a) → f a = Ok a' →
  update_array name f o = (Ok tt, <[name:=PyArray a']> o).
Proof.
  intros Ha Hf. unfold update_array.
  rewrite (bind_Ok _ _ _ _ _ (get_array_Some _ _ _ Ha)).
  unfold bind, of_result. by rewrite Hf.
Qed.

(** The state a statement on attributes leaves is the state it found, up to
    the vectors and the backend it updates in place. *)

#[export] Instance config_kept_refl : Reflexive (config_kept (B:=B)).
Proof. by intros o k _. Qed.

#[export] Instance config_kept_trans : Transitive (config_kept (B:=B)).
Proof. intros o1 o2 o3 H12 H23 k Hk. by rewrite H23, H12. Qed.

#[export] Instance tm_kept_refl : Reflexive (tm_kept (B:=B)).
Proof.
  intros o. unfold tm_kept. destruct (o !! "_tm"%string) as [[]|]; eauto.
Qed.

#[export] Instance tm_kept_trans : Transitive (tm_kept (B:=B)).
Proof.
  intros o1 o2 o3. unfold tm_kept.
  destruct (o1 !! "_tm"%string) as [[]|]; intros H12 H23;
    try (rewrite H12 in H23; exact H23).
  destruct H12 as [b' H12]. by rewrite H12 in H23.
Qed.

#[export] Instance frame_refl : Reflexive (frame (B:=B)).
Proof. split; reflexivity. Qed.

#[export] Instance frame_trans : Transitive (frame (B:=B)).
Proof. intros o1 o2 o3 [] []. split; etrans; eauto. Qed.

Lemma frame_insert_array name a o :
  name = "activeState"%string ∨ name = "previouslyPredictedCells"%string →
  frame o (<[name:=PyArray a]> o).
Proof.
  intros Hn. split.
  - intros k Hk. apply lookup_insert_ne. intros ->. apply Hk.
    unfold runtime_attrs. destruct Hn as [-> | ->]; repeat constructor.
  - assert (name ≠ "_tm"%string) by (by destruct Hn as [-> | ->]).
    unfold tm_kept. rewrite lookup_insert_ne by done.
    destruct (o !! "_tm"%string) as [[]|]; eauto.
Qed.

Lemma frame_insert_tm b b' o :
  o !! "_tm"%string = Some (PyTM b) → frame o (<["_tm"%string:=PyTM b']> o).
Proof.
  intros Hb. split.
  - intros k Hk. apply lookup_insert_ne. intros <-. apply Hk.
    unfold runtime_attrs. repeat constructor.
  - unfold tm_kept. rewrite Hb, lookup_insert_eq. eauto.
Qed.

#[export] Instance attr_kept_refl k : Reflexive (attr_kept (B:=B) k).
Proof. by intros o. Qed.

#[export] Instance attr_kept_trans k : Transitive (attr_kept (B:=B) k).
Proof. intros o1 o2 o3. unfold attr_kept. congruence. Qed.

Lemma attr_kept_update_array k name f :
  name ≠ k → preserves (attr_kept k) (update_array (B:=B) name f).
Proof.
  intros Hne o. destruct (update_array name f o) as [[u|e] o'] eqn:E.
  - apply update_array_Ok_inv in E as (a & a' & _ & _ & ->).
    by apply lookup_insert_ne.
  - revert E. unfold update_array, get_array, bind, getattr, of_result, raise, ret.
    repeat case_match; intros; simplify_eq; reflexivity.
Qed.

Lemma preserves_getattr (R : relation (gmap string (pyval B)))
    `{!Reflexive R} name :
  preserves R (getattr name).
Proof. intros o. unfold getattr. by destruct (o !! name). Qed.

Lemma preserves_get_array (R : relation (gmap string (pyval B)))
    `{!Reflexive R, !Transitive R} name :
  preserves R (get_array name).
Proof.
  apply preserves_bind; [done | apply preserves_getattr; done |].
  intros []; by (apply preserves_ret || apply preserves_raise).
Qed.

Lemma frame_update_array name f :
  name = "activeState"%string ∨ name = "previouslyPredictedCells"%string →
  preserves frame (update_array (B:=B) name f).
Proof.
  intros Hn o. destruct (update_array name f o) as [[u|e] o'] eqn:E.
  - apply update_array_Ok_inv in E as (a & a' & _ & _ & ->).
    by apply frame_insert_array.
  - revert E. unfold update_array, get_array, bind, getattr, of_result, raise, ret.
    repeat case_match; intros; simplify_eq; reflexivity.
Qed.

End AttributeFacts.

(** ** The region's statements *)

Section RegionFacts.
Context {B : Type} `{!TemporalMemory B} `{!Factory B}.
Implicit Types o : gmap string (pyval B).
Implicit Types w : TMRegion.world B.
Implicit Types inputs : gmap string ndarray.

Import TMRegion.

Lemma with_tm_Ok_inv {A} method (f : B -> A) o x o' :
  with_tm method f o = (Ok x, o') →
  ∃ b, o !! "_tm"%string = Some (PyTM b) ∧ x = f b ∧ o' = o.
Proof.
  intros (v & o1 & [Hv ->]%getattr_Ok_inv & Hk)%bind_Ok_inv.
  destruct v; try discriminate. injection Hk as <- <-. eauto.
Qed.

Lemma with_tm_Some {A} method (f : B -> A) o b :
  o !! "_tm"%string = Some (PyTM b) → with_tm method f o = (Ok (f b), o).
Proof.
  intros E. unfold with_tm. by rewrite (bind_Ok _ _ _ _ _ (getattr_Some _ _ _ E)).
Qed.

Lemma call_tm_Some method (f : M B unit) o b :
  o !! "_tm"%string = Some (PyTM b) →
  call_tm method f o = ((f b).1, <["_tm"%string:=PyTM (f b).2]> o).
Proof.
  intros E. unfold call_tm.
  rewrite (bind_Ok _ _ _ _ _ (getattr_Some _ _ _ E)). by destruct (f b).
Qed.

Lemma call_tm_Ok_inv method (f : M B unit) o u o' :
  call_tm method f o = (Ok u, o') →
  ∃ b b', o !! "_tm"%string = Some (PyTM b) ∧ f b = (Ok u, b') ∧
          o' = <["_tm"%string:=PyTM b']> o.
Proof.
  intros (v & o1 & [Hv ->]%getattr_Ok_inv & Hk)%bind_Ok_inv.
  destruct v; try discriminate.
  destruct (f tm) as [r b'] eqn:Ef. injection Hk as -> <-. eauto.
Qed.

Lemma frame_with_tm {A} method (f : B -> A) :
  preserves frame (with_tm method f).
Proof.
  apply preserves_bind; [apply _ | apply preserves_getattr, _ |].
  intros []; by (apply preserves_ret || apply preserves_raise).
Qed.

Lemma frame_call_tm method (f : M B unit) : preserves frame (call_tm method f).
Proof.
  intros o. unfold call_tm, bind, getattr, raise.
  destruct (o !! "_tm"%string) as [[]|] eqn:E; try reflexivity.
  destruct (f tm). simpl. by eapply frame_insert_tm.
Qed.

Lemma on_self_Ok_inv {A} (m : M (gmap string (pyval B)) A) w a w' :
  on_self m w = (Ok a, w') →
  ∃ o', m (self w) = (Ok a, o') ∧ w' = World o' (outputs w).
Proof.
  unfold on_self. destruct (m (self w)) as [r o']. intros [= -> <-]. eauto.
Qed.

Lemma on_self_run {A} (m : M (gmap string (pyval B)) A) w r o' :
  m (self w) = (r, o') → on_self m w = (r, World o' (outputs w)).
Proof. unfold on_self. by intros ->. Qed.

Lemma on_self_same {A} (m : M (gmap string (pyval B)) A) w r :
  m (self w) = (r, self w) → on_self m w = (r, w).
Proof. unfold on_self. intros ->. by destruct w. Qed.

Lemma assign_output_Ok_inv name src w u w' :
  assign_output name src w = (Ok u, w') →
  ∃ dst d, outputs w !! name = Some dst ∧ np_assign src dst = Ok d ∧
           w' = World (self w) (<[name:=d]> (outputs w)).
Proof.
  unfold assign_output. destruct (outputs w !! name) as [dst|]; [|discriminate].
  destruct (np_assign src dst) as [d|] eqn:E; [|discriminate].
  intros [= _ <-]. eauto.
Qed.

Lemma assign_output_Some name src w dst :
  outputs w !! name = Some dst → length src = length dst →
  assign_output name src w = (Ok tt, World (self w) (<[name:=src]> (outputs w))).
Proof.
  intros E L. unfold assign_output. by rewrite E, np_assign_same_length.
Qed.

Lemma input_Ok_inv inputs name w a w' :
  input inputs name w = (Ok a, w') → inputs !! name = Some a ∧ w' = w.
Proof. unfold input. destruct (inputs !! name); by intros [= <- <-]. Qed.

(** Frames of a [compute] call. *)

#[export] Instance self_frame_refl : Reflexive (self_frame (B:=B)).
Proof. intros w. unfold self_frame. reflexivity. Qed.

#[export] Instance self_frame_trans : Transitive (self_frame (B:=B)).
Proof. intros w1 w2 w3. unfold self_frame. apply frame_trans. Qed.

#[export] Instance output_kept_refl name : Reflexive (output_kept (B:=B) name).
Proof. by intros w. Qed.

#[export] Instance output_kept_trans name :
  Transitive (output_kept (B:=B) name).
Proof. intros w1 w2 w3. unfold output_kept. congruence. Qed.

#[export] Instance self_attr_kept_refl k :
  Reflexive (self_attr_kept (B:=B) k).
Proof. by intros w. Qed.

#[export] Instance self_attr_kept_trans k :
  Transitive (self_attr_kept (B:=B) k).
Proof. intros w1 w2 w3. unfold self_attr_kept. apply attr_kept_trans. Qed.

Lemma attr_kept_with_tm {A} k method (f : B -> A) :
  preserves (attr_kept k) (with_tm method f).
Proof.
  apply preserves_bind; [apply _ | apply preserves_getattr, _ |].
  intros []; by (apply preserves_ret || apply preserves_raise).
Qed.

Lemma self_attr_kept_on_self {A} k (m : M (gmap string (pyval B)) A) :
  preserves (attr_kept k) m → preserves (self_attr_kept k) (on_self m).
Proof.
  intros Hm w. specialize (Hm (self w)). unfold on_self, self_attr_kept.
  by destruct (m (self w)).
Qed.

Lemma self_attr_kept_assign_output k name src :
  preserves (self_attr_kept k) (assign_output (B:=B) name src).
Proof.
  intros w. unfold assign_output, self_attr_kept.
  destruct (outputs w !! name); [destruct (np_assign _ _)|]; simpl; reflexivity.
Qed.

Lemma self_frame_on_self {A} (m : M (gmap string (pyval B)) A) :
  preserves frame m → preserves self_frame (on_self m).
Proof.
  intros Hm w. specialize (Hm (self w)). unfold on_self, self_frame.
  by destruct (m (self w)).
Qed.

Lemma output_kept_on_self {A} name (m : M (gmap string (pyval B)) A) :
  preserves (output_kept name) (on_self m).
Proof. intros w. unfold on_self, output_kept. by destruct (m (self w)). Qed.

Lemma self_frame_assign_output name src :
  preserves self_frame (assign_output (B:=B) name src).
Proof.
  intros w. unfold assign_output, self_frame.
  destruct (outputs w !! name); [destruct (np_assign _ _)|]; simpl; reflexivity.
Qed.

Lemma output_kept_assign_output name name' src :
  name ≠ name' → preserves (output_kept name') (assign_output (B:=B) name src).
Proof.
  intros Hne w. unfold assign_output.
  destruct (outputs w !! name); [destruct (np_assign _ _)|]; try reflexivity.
  unfold output_kept. simpl. by rewrite lookup_insert_ne.
Qed.

Lemma preserves_input (R : relation (world B)) `{!Reflexive R} inputs name :
  preserves R (input inputs name).
Proof.
  unfold input. destruct (inputs !! name);
    by (apply preserves_ret || apply preserves_raise).
Qed.

End RegionFacts.

Create HintDb frames discriminated.

#[export] Hint Resolve attr_kept_with_tm self_attr_kept_on_self
  self_attr_kept_assign_output : frames.
#[export] Hint Extern 1 (preserves (attr_kept _) (update_array _ _)) =>
  apply attr_kept_update_array; done : frames.
#[export] Hint Resolve frame_with_tm frame_call_tm preserves_getattr
  preserves_get_array self_frame_on_self output_kept_on_self
  self_frame_assign_output preserves_input preserves_ret preserves_raise
  preserves_of_result preserves_gets : frames.
#[export] Hint Extern 1 (preserves frame (update_array _ _)) =>
  apply frame_update_array; auto : frames.
#[export] Hint Extern 1 (preserves (output_kept _) (TMRegion.assign_output _ _)) =>
  apply output_kept_assign_output; done : frames.
#[export] Hint Extern 1 (Reflexive _) => apply _ : frames.
#[export] Hint Extern 1 (Transitive _) => apply _ : frames.

(** A name written out in full is not in a list of other names. *)
Ltac not_listed :=
  let H := fresh in
  intros H;
  repeat (apply elem_of_cons in H as [H|H]; [discriminate H|]);
  by apply elem_of_nil in H.

(** Walks a statement down to its primitives. *)
Ltac frames :=
  repeat match goal with
    | |- preserves _ (bind _ _) => apply preserves_bind; [apply _ | | intros ?]
    | |- preserves _ (if ?c then _ else _) => destruct c
    | |- preserves _ (match ?x with _ => _ end) => destruct x
    end;
  eauto with frames.

Section ComputeFrames.
Context {B : Type} `{!TemporalMemory B} `{!Factory B}.
Implicit Types w : TMRegion.world B.
Implicit Types inputs : gmap string ndarray.

Import TMRegion.

Lemma frame_reset : preserves frame (reset (B:=B)).
Proof. unfold reset. frames. Qed.

Lemma frame_update_state : preserves frame (update_state (B:=B)).
Proof. unfold update_state. frames. Qed.

Lemma self_frame_tm_step inputs : preserves self_frame (tm_step (B:=B) inputs).
Proof. unfold tm_step. frames. Qed.

Lemma self_frame_write_outputs pa :
  preserves self_frame (write_outputs (B:=B) pa).
Proof. unfold write_outputs. frames. Qed.

Lemma self_frame_select_default pa :
  preserves self_frame (select_default (B:=B) pa).
Proof. unfold select_default. frames. Qed.

Lemma self_frame_handle_reset inputs :
  preserves self_frame (handle_reset (B:=B) inputs).
Proof. unfold handle_reset. pose proof frame_reset. frames. Qed.

Lemma self_frame_compute inputs : preserves self_frame (compute (B:=B) inputs).
Proof.
  unfold compute.
  pose proof (self_frame_tm_step inputs). pose proof frame_update_state.
  pose proof self_frame_write_outputs. pose proof self_frame_select_default.
  pose proof (self_frame_handle_reset inputs). frames.
Qed.

Lemma tm_kept_update_state :
  preserves (attr_kept "_tm") (update_state (B:=B)).
Proof. unfold update_state. frames. Qed.

Lemma tm_kept_write_outputs pa :
  preserves (self_attr_kept "_tm") (write_outputs (B:=B) pa).
Proof. unfold write_outputs. frames. Qed.

Lemma tm_kept_select_default pa :
  preserves (self_attr_kept "_tm") (select_default (B:=B) pa).
Proof. unfold select_default. frames. Qed.

Lemma output_kept_tm_step name inputs :
  preserves (output_kept name) (tm_step (B:=B) inputs).
Proof. unfold tm_step. frames. Qed.

Lemma output_kept_write_outputs pa :
  preserves (output_kept "bottomUpOut") (write_outputs (B:=B) pa).
Proof. unfold write_outputs. frames. Qed.

End ComputeFrames.

#[export] Hint Resolve frame_reset frame_update_state self_frame_tm_step
  self_frame_write_outputs self_frame_select_default self_frame_handle_reset
  output_kept_tm_step output_kept_write_outputs : frames.

(** ** What a successful step has done *)

(** Takes a successful run apart, statement by statement. *)
Ltac inv_run :=
  repeat match goal with
    | H : bind _ _ _ = (Ok _, _) |- _ =>
        apply bind_Ok_inv in H as (? & ? & ? & H)
    | H : update_array _ _ _ = (Ok _, _) |- _ =>
        apply update_array_Ok_inv in H as (? & ? & ? & ? & ->)
    | H : get_array _ _ = (Ok _, _) |- _ =>
        apply get_array_Ok_inv in H as [? ->]
    | H : getattr _ _ = (Ok _, _) |- _ =>
        apply getattr_Ok_inv in H as [? ->]
    | H : of_result _ _ = (Ok _, _) |- _ =>
        apply of_result_Ok_inv in H as [? ->]
    | H : TMRegion.with_tm _ _ _ = (Ok _, _) |- _ =>
        apply with_tm_Ok_inv in H as (? & ? & -> & ->)
    | H : TMRegion.call_tm _ _ _ = (Ok _, _) |- _ =>
        apply call_tm_Ok_inv in H as (? & ? & ? & ? & ->)
    | H : TMRegion.on_self _ _ = (Ok _, _) |- _ =>
        apply on_self_Ok_inv in H as (? & H & ->)
    | H : TMRegion.assign_output _ _ _ = (Ok _, _) |- _ =>
        apply assign_output_Ok_inv in H as (? & ? & ? & ? & ->)
    | H : TMRegion.input _ _ _ = (Ok _, _) |- _ =>
        apply input_Ok_inv in H as [? ->]
    | H : ret _ _ = (Ok _, _) |- _ => injection H as <- <-
    | H : raise _ _ = (Ok _, _) |- _ => discriminate H
    end.

Section StepFacts.
Context {B : Type} `{!TemporalMemory B} `{!Factory B}.
Implicit Types o : gmap string (pyval B).
Implicit Types w : TMRegion.world B.
Implicit Types inputs : gmap string ndarray.

Import TMRegion.

(** The call [tm_step] makes on a backend [b]. *)
Lemma tm_step_run inputs w x b learn fic :
  inputs !! "bottomUpIn"%string = Some x →
  self w !! "_tm"%string = Some (PyTM b) →
  self w !! "learningMode"%string = Some learn →
  self w !! "formInternalConnections"%string = Some fic →
  let call :=
    if (3 <? compute_args b)%nat
    then ComputeExtended (active_set x)
           (active_set <$> inputs !! "externalInput"%string)
           (active_set <$> inputs !! "topDownIn"%string) fic learn
    else ComputeBasic (active_set x) learn in
  tm_step inputs w =
  ((tm_compute call b).1,
   World (<["_tm"%string:=PyTM (tm_compute call b).2]> (self w)) (outputs w)).
Proof.
  intros Hx Hb Hl Hf call. unfold tm_step, input. rewrite Hx.
  unfold bind at 1. unfold ret at 1.
  erewrite bind_Ok; [|by apply on_self_same, with_tm_Some].
  subst call. simpl. destruct (3 <? compute_args b)%nat.
  - erewrite bind_Ok; [|by apply on_self_same, getattr_Some].
    erewrite bind_Ok; [|by apply on_self_same, getattr_Some].
    simpl. by apply on_self_run, call_tm_Some.
  - erewrite bind_Ok; [|by apply on_self_same, getattr_Some].
    simpl. by apply on_self_run, call_tm_Some.
Qed.

Lemma tm_step_Ok_inv inputs w u w' :
  tm_step inputs w = (Ok u, w') →
  ∃ b b' call,
    self w !! "_tm"%string = Some (PyTM b) ∧
    tm_compute call b = (Ok u, b') ∧
    w' = World (<["_tm"%string:=PyTM b']> (self w)) (outputs w).
Proof.
  unfold tm_step. intros H. inv_run. simpl in *.
  destruct (3 <? compute_args _)%nat; inv_run; simpl in *; simplify_eq; eauto 8.
Qed.

Lemma update_state_Ok_inv o pa o' :
  update_state o = (Ok pa, o') →
  ∃ b a p,
    o !! "_tm"%string = Some (PyTM b) ∧
    o !! "activeState"%string = Some (PyArray a) ∧
    o !! "previouslyPredictedCells"%string = Some (PyArray p) ∧
    np_mul (mask (length a) (getActiveCells b)) p = Ok pa ∧
    o' = <["previouslyPredictedCells"%string :=
            PyArray (mask (length p) (getPredictiveCells b))]>
         (<["activeState"%string :=
            PyArray (mask (length a) (getActiveCells b))]> o).
Proof.
  unfold update_state. intros H. inv_run. simplify_map_eq.
  repeat match goal with
    | H : np_put _ 1 (np_fill 0 _) = Ok _ |- _ =>
        apply np_put_fill_inv in H as ->
    end.
  eexists _, _, _. repeat split; try done.
  apply map_eq. intros k.
  destruct (decide (k = "previouslyPredictedCells"%string)) as [->|];
    [by simplify_map_eq|].
  destruct (decide (k = "activeState"%string)) as [->|]; by simplify_map_eq.
Qed.

Lemma reset_run o b p :
  o !! "_tm"%string = Some (PyTM b) →
  o !! "previouslyPredictedCells"%string = Some (PyArray p) →
  reset o =
  (Ok tt, <["previouslyPredictedCells"%string := PyArray (np_zeros (length p))]>
            (<["_tm"%string := PyTM (tm_reset b)]> o)).
Proof.
  intros Hb Hp. unfold reset.
  rewrite (bind_Ok _ _ _ _ _ (getattr_Some _ _ _ Hb)).
  rewrite bind_run, (call_tm_Some _ _ _ _ Hb). simpl.
  eapply update_array_Some; [by rewrite lookup_insert_ne | done].
Qed.

Lemma reset_Ok_tm o b o' :
  reset o = (Ok tt, o') → o !! "_tm"%string = Some (PyTM b) →
  o' !! "_tm"%string = Some (PyTM (tm_reset b)).
Proof.
  intros H Hb. unfold reset in H.
  rewrite (bind_Ok _ _ _ _ _ (getattr_Some _ _ _ Hb)) in H.
  rewrite bind_run, (call_tm_Some _ _ _ _ Hb) in H. simpl in H.
  apply update_array_Ok_inv in H as (a & a' & _ & _ & ->).
  rewrite lookup_insert_ne by done. apply lookup_insert_eq.
Qed.

End StepFacts.

Section OutputFacts.
Context {B : Type} `{!TemporalMemory B} `{!Factory B}.
Implicit Types o : gmap string (pyval B).
Implicit Types w : TMRegion.world B.
Implicit Types inputs : gmap string ndarray.

Import TMRegion.

Lemma write_outputs_Ok_inv pa w u w' :
  write_outputs pa w = (Ok u, w') →
  ∃ a p d1 d2 d3 r1 r2 r3,
    self w !! "activeState"%string = Some (PyArray a) ∧
    self w !! "previouslyPredictedCells"%string = Some (PyArray p) ∧
    outputs w !! "activeCells"%string = Some d1 ∧ np_assign a d1 = Ok r1 ∧
    outputs w !! "predictiveCells"%string = Some d2 ∧ np_assign p d2 = Ok r2 ∧
    outputs w !! "predictedActiveCells"%string = Some d3 ∧
    np_assign pa d3 = Ok r3 ∧
    w' = World (self w)
           (<["predictedActiveCells"%string:=r3]>
              (<["predictiveCells"%string:=r2]>
                 (<["activeCells"%string:=r1]> (outputs w)))).
Proof.
  unfold write_outputs. intros H. inv_run. simpl in *. simplify_map_eq.
  eexists _, _, _, _, _, _, _, _. repeat split; eauto.
Qed.

Lemma select_default_Ok_inv pa w u w' :
  select_default pa w = (Ok u, w') →
  ∃ t src dst r,
    self w !! "defaultOutputType"%string = Some t ∧
    selected t (self w) pa src ∧
    outputs w !! "bottomUpOut"%string = Some dst ∧ np_assign src dst = Ok r ∧
    w' = World (self w) (<["bottomUpOut"%string:=r]> (outputs w)).
Proof.
  unfold select_default, selected. intros H. inv_run. simpl in *.
  destruct (py_eq_str _ "active") eqn:E1; inv_run; simpl in *;
    [eexists _, _, _, _; eauto 10 |].
  destruct (py_eq_str _ "predictive") eqn:E2; inv_run; simpl in *;
    [eexists _, _, _, _; eauto 10 |].
  destruct (py_eq_str _ "predictedActiveCells") eqn:E3; inv_run; simpl in *;
    eexists _, _, _, _; eauto 15.
Qed.

Lemma handle_reset_Ok_inv inputs w u w' :
  handle_reset inputs w = (Ok u, w') →
  (resets inputs = false ∧ w' = w) ∨
  (resets inputs = true ∧ reset (self w) = (Ok tt, self w') ∧
   outputs w' = outputs w).
Proof.
  unfold handle_reset, resets.
  destruct (inputs !! "resetIn"%string) as [[|r [|]]|]; simpl;
    try discriminate; try (intros [= _ <-]; by left).
  case_bool_decide as Hr; simpl in Hr.
  - intros H. inv_run. right. destruct u.
    repeat split; [|done]. destruct (r =? 0)%Z eqn:E; [|done].
    apply Z.eqb_eq in E. by subst.
  - intros [= _ <-]. left. split; [|done].
    assert (r = 0%Z) as -> by (destruct (decide (r = 0%Z)); naive_solver).
    done.
Qed.

End OutputFacts.

Section StepOutcome.
Context {B : Type} `{!TemporalMemory B} `{!Factory B}.
Implicit Types o : gmap string (pyval B).
Implicit Types w : TMRegion.world B.
Implicit Types inputs : gmap string ndarray.

Import TMRegion.

Lemma buffers_ready_insert n name d (outs : gmap string ndarray) :
  length d = n → buffers_ready n outs → buffers_ready n (<[name:=d]> outs).
Proof.
  intros Ld Hb k Hk. destruct (decide (name = k)) as [->|].
  - exists d. by rewrite lookup_insert_eq.
  - rewrite lookup_insert_ne by done. by apply Hb.
Qed.

Lemma buffer_assign n name src dst r (outs : gmap string ndarray) :
  buffers_ready n outs → name ∈ output_names → length src = n →
  outs !! name = Some dst → np_assign src dst = Ok r → r = src.
Proof.
  intros Hb Hn Ls Hd Hr. destruct (Hb name Hn) as (d & Hd' & Ld).
  rewrite Hd in Hd'. injection Hd' as ->.
  rewrite np_assign_same_length in Hr by congruence. by injection Hr.
Qed.

(** [compute] is lines 360-397 followed by the selector and the reset
    handling. *)
Lemma compute_named_outputs inputs w :
  compute inputs w =
  bind (named_outputs inputs)
    (fun pa => select_default pa;; handle_reset inputs) w.
Proof.
  unfold compute, named_outputs, bind, ret.
  destruct (tm_step inputs w) as [[?|?] ?]; [|done].
  destruct (on_self update_state _) as [[pa|?] ?]; [|done].
  by destruct (write_outputs pa _) as [[?|?] ?].
Qed.

(** What lines 360-397 have done when they complete, on a region whose
    vectors and buffers have [n] elements. *)
Lemma named_outputs_Ok_inv n inputs w pa w1 :
  ready n w → named_outputs inputs w = (Ok pa, w1) →
  ∃ b b1 call p,
    self w !! "_tm"%string = Some (PyTM b) ∧
    self w !! "previouslyPredictedCells"%string = Some (PyArray p) ∧
    length p = n ∧
    tm_compute call b = (Ok tt, b1) ∧
    pa = zip_with Z.mul (mask n (getActiveCells b1)) p ∧
    w1 = World
           (<["previouslyPredictedCells"%string :=
                PyArray (mask n (getPredictiveCells b1))]>
              (<["activeState"%string :=
                   PyArray (mask n (getActiveCells b1))]>
                 (<["_tm"%string := PyTM b1]> (self w))))
           (<["predictedActiveCells"%string := pa]>
              (<["predictiveCells"%string := mask n (getPredictiveCells b1)]>
                 (<["activeCells"%string := mask n (getActiveCells b1)]>
                    (outputs w)))).
Proof.
  intros [((b0 & Hb0) & (a & Ha & La) & (p & Hp & Lp)) Hbuf] H.
  unfold named_outputs in H.
  apply bind_Ok_inv in H as (? & w0 & H1 & H).
  apply bind_Ok_inv in H as (pa' & w2 & H2 & H).
  apply bind_Ok_inv in H as (? & w3 & H3 & H).
  injection H as -> ->.
  apply tm_step_Ok_inv in H1 as (b & b1 & call & Hb & Hcall & ->).
  apply on_self_Ok_inv in H2 as (o2 & H2 & ->). simpl in H2.
  apply update_state_Ok_inv in H2
    as (b' & a' & p' & Hb' & Ha' & Hp' & Hmul & ->).
  simplify_map_eq.
  rewrite np_mul_same_length in Hmul by (by rewrite length_mask).
  injection Hmul as <-. rewrite Lp in H3.
  pose proof (length_mask (length a) (getActiveCells b')) as Lact.
  pose proof (length_mask (length a) (getPredictiveCells b')) as Lpred.
  assert (length (zip_with Z.mul (mask (length a) (getActiveCells b')) p)
          = length a) as Lpa by (rewrite length_zip_with; lia).
  apply write_outputs_Ok_inv in H3
    as (a1 & p1 & d1 & d2 & d3 & r1 & r2 & r3 & Ha1 & Hp1 & Hd1 & Hr1 &
        Hd2 & Hr2 & Hd3 & Hr3 & ->).
  simpl in *. simplify_map_eq.
  eapply (buffer_assign _ "activeCells") in Hr1;
    [|exact Hbuf | repeat constructor | done | done].
  eapply (buffer_assign _ "predictiveCells") in Hr2;
    [|exact Hbuf | repeat constructor | done | done].
  eapply (buffer_assign _ "predictedActiveCells") in Hr3;
    [|exact Hbuf | repeat constructor | done | done].
  subst r1 r2 r3.
  exists b0, b', call, p. rewrite Lp. repeat split; try done. by destruct x.
Qed.

Lemma named_outputs_ready n inputs w pa w1 :
  ready n w → named_outputs inputs w = (Ok pa, w1) →
  ready n w1 ∧ length pa = n.
Proof.
  intros Hw H. pose proof Hw as [_ Hbuf].
  destruct (named_outputs_Ok_inv _ _ _ _ _ Hw H)
    as (b & b1 & call & p & Hb & Hp & Lp & Hcall & -> & ->).
  assert (length (zip_with Z.mul (mask n (getActiveCells b1)) p) = n) as Lpa
    by (rewrite length_zip_with, length_mask; lia).
  split; [|done]. split; simpl.
  - repeat split; simplify_map_eq; eauto using length_mask.
  - repeat apply buffers_ready_insert; auto using length_mask.
Qed.

(** The outcome of a step that returns, on a region whose vectors and
    buffers have [n] elements. *)
Lemma compute_Ok_inv n inputs w w' :
  ready n w → compute inputs w = (Ok tt, w') →
  ∃ b b1 call p,
    self w !! "_tm"%string = Some (PyTM b) ∧
    self w !! "previouslyPredictedCells"%string = Some (PyArray p) ∧
    length p = n ∧
    tm_compute call b = (Ok tt, b1) ∧
    outputs w' !! "activeCells"%string = Some (mask n (getActiveCells b1)) ∧
    outputs w' !! "predictiveCells"%string =
      Some (mask n (getPredictiveCells b1)) ∧
    outputs w' !! "predictedActiveCells"%string =
      Some (zip_with Z.mul (mask n (getActiveCells b1)) p) ∧
    self w' !! "previouslyPredictedCells"%string =
      Some (PyArray (if resets inputs then np_zeros n
                     else mask n (getPredictiveCells b1))) ∧
    self w' !! "_tm"%string =
      Some (PyTM (if resets inputs then tm_reset b1 else b1)) ∧
    ready n w'.
Proof.
  intros Hw H. rewrite compute_named_outputs in H.
  apply bind_Ok_inv in H as (pa & w1 & H1 & H).
  apply bind_Ok_inv in H as (? & w4 & H4 & H5).
  destruct (named_outputs_ready _ _ _ _ _ Hw H1) as [[Hreg1 Hbuf1] Lpa].
  destruct (named_outputs_Ok_inv _ _ _ _ _ Hw H1)
    as (b & b1 & call & p & Hb & Hp & Lp & Hcall & Hpa & ->).
  apply select_default_Ok_inv in H4
    as (t & src & dst & r & Ht & Hsel & Hdst & Hr & ->).
  simpl in *.
  assert (length src = n) as Lsrc.
  { destruct Hsel as [[_ E] | [(_ & _ & E) | (_ & _ & _ & ->)]];
      simplify_map_eq; auto using length_mask. }
  eapply (buffer_assign _ "bottomUpOut") in Hr;
    [|exact Hbuf1 | repeat constructor | done | done].
  subst r.
  pose proof (buffers_ready_insert _ "bottomUpOut" _ _ Lsrc Hbuf1) as Hbuf'.
  exists b, b1, call, p.
  apply handle_reset_Ok_inv in H5 as [[Hres ->] | (Hres & Hreset & Hout)];
    rewrite Hres.
  - simpl. simplify_map_eq. split_and!; try done.
  - destruct w' as [o' outs']. simpl in *. subst outs'.
    erewrite reset_run in Hreset by (by simplify_map_eq).
    injection Hreset as <-. simpl. simplify_map_eq. rewrite length_mask.
    split_and!; try done. split; [|done]. simpl.
    destruct Hreg1 as (_ & (a1 & Ha1 & La1) & _).
    repeat split; simplify_map_eq; eauto using length_np_zeros.
Qed.

End StepOutcome.

(** ** The predicted-active output and resets *)

Section PredictedActive.
Context {B : Type} `{!TemporalMemory B} `{!Factory B}.
Implicit Types o : gmap string (pyval B).
Implicit Types w : TMRegion.world B.
Implicit Types inputs : gmap string ndarray.

Import TMRegion.

Lemma tm_step_ignores_resetIn inputs :
  tm_step (B:=B) (delete "resetIn"%string inputs) = tm_step inputs.
Proof. unfold tm_step, input. by rewrite !lookup_delete_ne. Qed.

Lemma named_outputs_ignores_resetIn inputs :
  named_outputs (B:=B) (delete "resetIn"%string inputs) = named_outputs inputs.
Proof. unfold named_outputs. by rewrite tm_step_ignores_resetIn. Qed.

(** A step is the same step without [resetIn], followed by the handling of
    [resetIn]. *)
Lemma compute_split inputs w :
  compute inputs w =
  match compute (delete "resetIn"%string inputs) w with
  | (Ok _, w1) => handle_reset inputs w1
  | (Raise e, w1) => (Raise e, w1)
  end.
Proof.
  rewrite !compute_named_outputs, named_outputs_ignores_resetIn.
  unfold bind, handle_reset at 2. rewrite lookup_delete_eq.
  destruct (named_outputs inputs w) as [[pa|?] ?]; [|done].
  by destruct (select_default pa _) as [[?|?] ?].
Qed.

(** C1.  Two consecutive steps that both return, the first without a
    reset: the predictedActiveCells output of the second step is the
    elementwise AND of its activeCells output with the predictiveCells output
    of the first step, which is what previouslyPredictedCells held when the
    second step began. *)
Theorem predictedActive_is_active_and_previous_predictive
    n in1 in2 w0 w1 outs2 w2 :
  ready n w0 →
  resets in1 = false →
  compute in1 w0 = (Ok tt, w1) →
  buffers_ready n outs2 →
  compute in2 (World (self w1) outs2) = (Ok tt, w2) →
  ∃ active predictive1,
    outputs w1 !! "predictiveCells"%string = Some predictive1 ∧
    self w1 !! "previouslyPredictedCells"%string = Some (PyArray predictive1) ∧
    outputs w2 !! "activeCells"%string = Some active ∧
    outputs w2 !! "predictedActiveCells"%string =
      Some (np_logical_and active predictive1).
Proof.
  intros Hw0 Hres H1 Hbuf2 H2.
  destruct (compute_Ok_inv _ _ _ _ Hw0 H1)
    as (b & b1 & c1 & p & _ & _ & _ & _ & _ & Hpc1 & _ & Hp1 & _ & [Hreg1 _]).
  rewrite Hres in Hp1.
  assert (ready n (World (self w1) outs2)) as Hw1 by done.
  destruct (compute_Ok_inv _ _ _ _ Hw1 H2)
    as (b' & b2 & c2 & p' & _ & Hp' & _ & _ & Hac2 & _ & Hpa2 & _).
  simpl in Hp'. rewrite Hp1 in Hp'. injection Hp' as <-.
  eexists _, _. split_and!; [done..|].
  rewrite Hpa2. f_equal. apply binary_mul_and; apply binary_mask.
Qed.

(** C2.  A step whose [resetIn] holds one nonzero element writes the
    outputs of the same step without [resetIn] and only then resets; and in
    the step that follows a reset (the explicit command, or the flag of the
    step before) predictedActiveCells is the AND of activeCells with the zero
    vector. *)
Theorem reset_only_after_outputs :
  (∀ inputs w w' r,
     inputs !! "resetIn"%string = Some [r] → r ≠ 0%Z →
     compute inputs w = (Ok tt, w') →
     ∃ w1, compute (delete "resetIn"%string inputs) w = (Ok tt, w1) ∧
           outputs w' = outputs w1 ∧
           reset (self w1) = (Ok tt, self w')) ∧
  (∀ n o o1 outs inputs w2,
     region_ready n o → reset o = (Ok tt, o1) →
     buffers_ready n outs →
     compute inputs (World o1 outs) = (Ok tt, w2) →
     ∃ active,
       outputs w2 !! "activeCells"%string = Some active ∧
       outputs w2 !! "predictedActiveCells"%string =
         Some (np_logical_and active (np_zeros n)) ∧
       np_logical_and active (np_zeros n) = np_zeros n) ∧
  (∀ n in1 in2 w0 w1 outs2 w2,
     ready n w0 → resets in1 = true →
     compute in1 w0 = (Ok tt, w1) →
     buffers_ready n outs2 →
     compute in2 (World (self w1) outs2) = (Ok tt, w2) →
     ∃ active,
       outputs w2 !! "activeCells"%string = Some active ∧
       outputs w2 !! "predictedActiveCells"%string =
         Some (np_logical_and active (np_zeros n))).
Proof.
  split_and!.
  - intros inputs w w' r Hin Hr H. rewrite compute_split in H.
    destruct (compute (delete "resetIn"%string inputs) w)
      as [[[]|e] w1] eqn:E; [|discriminate].
    exists w1. split; [done|].
    apply handle_reset_Ok_inv in H as [[Hres ->] | (_ & Hreset & Hout)]; [|done].
    unfold resets in Hres. rewrite Hin in Hres.
    apply negb_false_iff, Z.eqb_eq in Hres. done.
  - intros n o o1 outs inputs w2 Hreg Hreset Hbuf H.
    pose proof Hreg as ((b & Hb) & Ha & (p & Hp & Lp)).
    rewrite (reset_run _ _ _ Hb Hp) in Hreset. injection Hreset as <-.
    match type of H with compute _ ?w = _ => assert (ready n w) as Hw end.
    { split; [|done]. simpl. destruct Ha as (a & Ha & La).
      repeat split; simplify_map_eq; eauto.
      eexists. split; [done|]. by rewrite length_np_zeros. }
    destruct (compute_Ok_inv _ _ _ _ Hw H)
      as (b' & b2 & c2 & p' & _ & Hp' & _ & _ & Hac2 & _ & Hpa2 & _).
    simpl in Hp'. simplify_map_eq.
    pose proof (and_zeros_r (mask (length p) (getActiveCells b2))) as Hz.
    pose proof (mul_zeros_r (mask (length p) (getActiveCells b2))) as Hm.
    rewrite length_mask in Hz, Hm.
    eexists. split_and!; [done| |done]. by rewrite Hz, Hm.
  - intros n in1 in2 w0 w1 outs2 w2 Hw0 Hres H1 Hbuf2 H2.
    destruct (compute_Ok_inv _ _ _ _ Hw0 H1)
      as (b & b1 & c1 & p & _ & _ & _ & _ & _ & _ & _ & Hp1 & _ & [Hreg1 _]).
    rewrite Hres in Hp1.
    assert (ready n (World (self w1) outs2)) as Hw1 by done.
    destruct (compute_Ok_inv _ _ _ _ Hw1 H2)
      as (b' & b2 & c2 & p' & _ & Hp' & _ & _ & Hac2 & _ & Hpa2 & _).
    simpl in Hp'. rewrite Hp1 in Hp'. injection Hp' as <-.
    pose proof (and_zeros_r (mask n (getActiveCells b2))) as Hz.
    pose proof (mul_zeros_r (mask n (getActiveCells b2))) as Hm.
    rewrite length_mask in Hz, Hm.
    eexists. split; [done|]. by rewrite Hpa2, Hz, Hm.
Qed.

End PredictedActive.

(** ** Input conversion *)

Lemma where_eq1_from_spec k (x : ndarray) i :
  i ∈ where_eq1_from k x ↔ k ≤ i ∧ x !! (i - k) = Some 1%Z.
Proof.
  revert k. induction x as [|v x IH]; intros k; simpl.
  - rewrite elem_of_nil. split; [done | by intros [_ ?]].
  - assert (i ∈ where_eq1_from (S k) x ↔ k < i ∧ (v :: x) !! (i - k) = Some 1%Z)
      as IH'.
    { rewrite IH. split.
      - intros [Hk Hx]. split; [lia|].
        by replace (i - k) with (S (i - S k)) by lia.
      - intros [Hk Hx]. split; [lia|].
        by replace (i - k) with (S (i - S k)) in Hx by lia. }
    case_bool_decide as Hv.
    + rewrite elem_of_cons, IH'. subst v. split.
      * intros [-> | [Hk Hx]]; [by rewrite Nat.sub_diag | split; [lia | done]].
      * intros [Hk Hx]. destruct (decide (i = k)) as [-> | Hne]; [by left|].
        right. split; [lia | done].
    + rewrite IH'. split; [intros [Hk Hx]; split; [lia | done]|].
      intros [Hk Hx]. destruct (decide (i = k)) as [-> | Hne].
      * rewrite Nat.sub_diag in Hx. simpl in Hx. congruence.
      * split; [lia | done].
Qed.

Lemma active_set_spec (x : ndarray) i : i ∈ active_set x ↔ x !! i = Some 1%Z.
Proof.
  unfold active_set, np_where_eq1.
  rewrite elem_of_list_to_set, where_eq1_from_spec, Nat.sub_0_r.
  split; [by intros [_ ?] | split; [lia | done]].
Qed.

Lemma where_eq1_nonzero_binary k (x : ndarray) :
  binary x → where_eq1_from k x = nonzero_from k x.
Proof.
  intros Hx. revert k. induction Hx as [|v x Hv Hx IH]; intros k; [done|].
  simpl. rewrite IH. by destruct Hv as [-> | ->].
Qed.

Section ComputeClaims.
Context {B : Type} `{!TemporalMemory B} `{!Factory B}.
Implicit Types o : gmap string (pyval B).
Implicit Types w : TMRegion.world B.
Implicit Types inputs : gmap string ndarray.

Import TMRegion.

(** C3, as the code has it.  The first statement of [compute] hands the
    backend the set of indices at which the feed-forward input equals 1, and
    likewise for the external and top-down inputs when they are present
    (None otherwise).  On 0/1 vectors that is the set of nonzero indices. *)
Theorem inputs_become_index_sets_of_ones :
  (∀ inputs w x b learn fic,
     inputs !! "bottomUpIn"%string = Some x →
     self w !! "_tm"%string = Some (PyTM b) →
     self w !! "learningMode"%string = Some learn →
     self w !! "formInternalConnections"%string = Some fic →
     let call :=
       if (3 <? compute_args b)%nat
       then ComputeExtended (active_set x)
              (active_set <$> inputs !! "externalInput"%string)
              (active_set <$> inputs !! "topDownIn"%string) fic learn
       else ComputeBasic (active_set x) learn in
     tm_step inputs w =
     ((tm_compute call b).1,
      World (<["_tm"%string:=PyTM (tm_compute call b).2]> (self w))
        (outputs w))) ∧
  (∀ (x : ndarray) i, i ∈ active_set x ↔ x !! i = Some 1%Z) ∧
  (∀ x, binary x → active_set x = spec_nonzero_set x).
Proof.
  split_and!.
  - intros. by apply tm_step_run.
  - apply active_set_spec.
  - intros x Hx. unfold active_set, spec_nonzero_set, np_where_eq1.
    by rewrite where_eq1_nonzero_binary.
Qed.

(** ** The default-output selector *)

Lemma self_frame_named_outputs inputs :
  preserves self_frame (named_outputs (B:=B) inputs).
Proof.
  unfold named_outputs. frames.
Qed.

Lemma output_kept_named_outputs inputs :
  preserves (output_kept "bottomUpOut") (named_outputs (B:=B) inputs).
Proof.
  unfold named_outputs. frames.
Qed.

Lemma select_default_unknown pa w sel :
  self w !! "defaultOutputType"%string = Some (PyStr sel) →
  sel ∉ valid_selectors →
  select_default pa w =
  (Raise (Exception ("Unknown outputType: " ++ sel)), w).
Proof.
  intros Ht Hsel. unfold select_default.
  erewrite bind_Ok; [|by apply on_self_same, getattr_Some]. simpl.
  assert (∀ lit, lit ∈ valid_selectors → String.eqb sel lit = false) as Hne.
  { intros lit Hlit. apply String.eqb_neq. by intros ->. }
  rewrite !Hne by (unfold valid_selectors; repeat constructor). done.
Qed.

(** C4, as the code has it.  With a selector string outside the three
    valid ones, [compute] runs lines 360-397 and then raises a plain
    [Exception] naming the selector: it never returns, the default output
    bottomUpOut is left as it was, and on an initialised region
    activeCells, predictiveCells and predictedActiveCells have by then been
    overwritten with this step's vectors. *)
Theorem unknown_selector_raises_after_named_outputs inputs w sel :
  self w !! "defaultOutputType"%string = Some (PyStr sel) →
  sel ∉ valid_selectors →
  compute inputs w =
    match named_outputs inputs w with
    | (Ok _, w1) =>
        (Raise (Exception ("Unknown outputType: " ++ sel)), w1)
    | (Raise e, w1) => (Raise e, w1)
    end ∧
  (∃ e, (compute inputs w).1 = Raise e) ∧
  output_kept "bottomUpOut" w (compute inputs w).2 ∧
  (∀ n pa w1,
     ready n w → named_outputs inputs w = (Ok pa, w1) →
     ∃ b1,
       self w1 !! "_tm"%string = Some (PyTM b1) ∧
       outputs w1 !! "activeCells"%string =
         Some (mask n (getActiveCells b1)) ∧
       outputs w1 !! "predictiveCells"%string =
         Some (mask n (getPredictiveCells b1)) ∧
       outputs w1 !! "predictedActiveCells"%string = Some pa).
Proof.
  intros Ht Hsel.
  assert (compute inputs w =
    match named_outputs inputs w with
    | (Ok _, w1) => (Raise (Exception ("Unknown outputType: " ++ sel)), w1)
    | (Raise e, w1) => (Raise e, w1)
    end) as Hrun.
  { rewrite compute_named_outputs. unfold bind.
    pose proof (self_frame_named_outputs inputs w) as [Hcfg _].
    destruct (named_outputs inputs w) as [[pa|e] w1]; [|done]. simpl in Hcfg.
    rewrite (select_default_unknown _ _ sel); [done| |done].
    rewrite Hcfg; [done | not_listed]. }
  split_and!; [done|..].
  - rewrite Hrun. destruct (named_outputs inputs w) as [[pa|e] w1]; eauto.
  - rewrite Hrun. pose proof (output_kept_named_outputs inputs w) as Hk.
    by destruct (named_outputs inputs w) as [[pa|e] w1].
  - intros n pa w1 Hw H1.
    destruct (named_outputs_Ok_inv _ _ _ _ _ Hw H1)
      as (b & b1 & call & p & _ & _ & _ & _ & _ & ->).
    exists b1. simpl. by simplify_map_eq.
Qed.

(** ** A malformed reset flag *)

(** C9.  When [resetIn] is present and does not have exactly one element,
    [compute] raises, and it leaves the state that the same step without
    [resetIn] leaves, so no reset has been performed: on an initialised
    region the backend is as its own compute left it and
    previouslyPredictedCells holds the new predictive set.  The
    exception is the failed assertion whenever the step itself succeeds. *)
Theorem malformed_resetIn_raises_before_reset inputs w flag :
  inputs !! "resetIn"%string = Some flag →
  length flag ≠ 1 →
  (∃ e, compute inputs w =
        (Raise e, (compute (delete "resetIn"%string inputs) w).2) ∧
        ((compute (delete "resetIn"%string inputs) w).1 = Ok tt →
         e = AssertionError)) ∧
  (∀ n w1,
     ready n w →
     compute (delete "resetIn"%string inputs) w = (Ok tt, w1) →
     ∃ b b1 call,
       self w !! "_tm"%string = Some (PyTM b) ∧
       tm_compute call b = (Ok tt, b1) ∧
       self w1 !! "_tm"%string = Some (PyTM b1) ∧
       self w1 !! "previouslyPredictedCells"%string =
         Some (PyArray (mask n (getPredictiveCells b1)))).
Proof.
  intros Hin Hlen. split.
  - rewrite compute_split.
    destruct (compute (delete "resetIn"%string inputs) w) as [[[]|e] w1].
    + exists AssertionError. split; [|done]. unfold handle_reset.
      rewrite Hin. by apply Nat.eqb_neq in Hlen as ->.
    + exists e. split; [done | discriminate].
  - intros n w1 Hw H1.
    destruct (compute_Ok_inv _ _ _ _ Hw H1)
      as (b & b1 & call & p & Hb & _ & _ & Hcall & _ & _ & _ & Hp & Htm & _).
    assert (resets (delete "resetIn"%string inputs) = false) as Hres
      by (unfold resets; by rewrite lookup_delete_eq).
    rewrite Hres in Hp, Htm. eauto 10.
Qed.

(** ** What a step leaves alone *)

(** C10.  A step that returns leaves every configuration attribute with
    the value it had, and [_tm] still holds the backend it held, advanced by
    that backend's own compute and, when the step resets, its own reset: the
    attributes a step writes are activeState and previouslyPredictedCells,
    in place. *)
Theorem compute_keeps_configuration inputs w w' :
  compute inputs w = (Ok tt, w') →
  Forall (fun k => self w' !! k = self w !! k) config_fields ∧
  (∀ k, k ∉ runtime_attrs → self w' !! k = self w !! k) ∧
  (∃ b call b1,
     self w !! "_tm"%string = Some (PyTM b) ∧
     tm_compute call b = (Ok tt, b1) ∧
     self w' !! "_tm"%string =
       Some (PyTM (if resets inputs then tm_reset b1 else b1))).
Proof.
  intros H. pose proof (self_frame_compute inputs w) as [Hcfg _].
  rewrite H in Hcfg. simpl in Hcfg. split; [|split; [exact Hcfg|]].
  - apply Forall_forall. intros k Hk. apply Hcfg. unfold config_fields in Hk.
    repeat (apply elem_of_cons in Hk as [->|Hk]; [not_listed|]).
    by apply elem_of_nil in Hk.
  - rewrite compute_named_outputs in H.
    apply bind_Ok_inv in H as (pa & w3 & H1 & H).
    apply bind_Ok_inv in H as (? & w4 & H4 & H5).
    unfold named_outputs in H1.
    apply bind_Ok_inv in H1 as (? & w1 & H1 & H2).
    apply bind_Ok_inv in H2 as (pa' & w2 & H2 & H3).
    apply bind_Ok_inv in H3 as (? & w3' & H3 & Hret).
    injection Hret as -> ->.
    apply tm_step_Ok_inv in H1 as (b & b1 & call & Hb & Hcall & ->).
    pose proof (self_attr_kept_on_self "_tm" _ tm_kept_update_state
                  (World (<["_tm"%string:=PyTM b1]> (self w)) (outputs w)))
      as K2.
    pose proof (tm_kept_write_outputs pa w2) as K3.
    pose proof (tm_kept_select_default pa w3) as K4.
    rewrite H2 in K2. rewrite H3 in K3. rewrite H4 in K4.
    unfold self_attr_kept, attr_kept in K2, K3, K4. simpl in K2, K3, K4.
    rewrite lookup_insert_eq in K2. rewrite K2 in K3. rewrite K3 in K4.
    exists b, call, b1. split; [done|]. split; [by destruct x0|].
    apply handle_reset_Ok_inv in H5 as [[-> ->] | (-> & Hreset & _)]; [done|].
    by apply (reset_Ok_tm _ _ _ Hreset).
Qed.

End ComputeClaims.

(** ** initialize and reset *)

Section Lifecycle.
Context {B : Type} `{!TemporalMemory B} `{!Factory B}.
Implicit Types o : gmap string (pyval B).

Import TMRegion.

Lemma initialize_existing o v :
  o !! "_tm"%string = Some v → v ≠ PyNone → initialize o = (Ok tt, o).
Proof.
  intros Hv Hne. unfold initialize.
  rewrite (bind_Ok _ _ _ _ _ (getattr_Some _ _ _ Hv)). by destruct v.
Qed.

(** C6, as the code has it.  When no backend exists yet and the factory
    builds one, [initialize] stores it and allocates activeState and
    previouslyPredictedCells as zero vectors of the backend's reported cell
    count, and returns; the count is not compared with
    columnCount * cellsPerColumn. *)
Theorem initialize_sizes_vectors_by_backend o cc imp names b :
  o !! "_tm"%string = Some PyNone →
  o !! "columnCount"%string = Some cc →
  o !! "temporalImp"%string = Some imp →
  getConstructorArguments imp = Ok names →
  createModel imp
    (filter (fun kv => kv.1 ∈ names)
       (<["columnDimensions"%string:=KwTuple [cc]]> (KwVal <$> o))) = Ok b →
  initialize o =
  (Ok tt,
   <["previouslyPredictedCells"%string:=PyArray (np_zeros (numberOfCells b))]>
     (<["activeState"%string:=PyArray (np_zeros (numberOfCells b))]>
        (<["_tm"%string:=PyTM b]> o))).
Proof.
  intros Htm Hcc Himp Hnames Hb. unfold initialize.
  rewrite (bind_Ok _ _ _ _ _ (getattr_Some _ _ _ Htm)).
  unfold bind at 1, gets at 1.
  rewrite (bind_Ok _ _ _ _ _ (getattr_Some _ _ _ Hcc)).
  rewrite (bind_Ok _ _ _ _ _ (getattr_Some _ _ _ Himp)).
  unfold bind at 1, of_result at 1. rewrite Hnames.
  rewrite (bind_Ok _ _ _ _ _ (getattr_Some _ _ _ Himp)).
  unfold bind at 1, of_result at 1. rewrite Hb.
  unfold bind at 1, setattr at 1.
  erewrite bind_Ok; [|by apply with_tm_Some, lookup_insert_eq].
  unfold bind at 1, setattr at 1.
  erewrite bind_Ok;
    [|apply with_tm_Some; rewrite lookup_insert_ne by done;
      apply lookup_insert_eq].
  reflexivity.
Qed.

(** C7.  Once a backend exists a further [initialize] returns without
    touching the region, so a second call after a successful one changes
    nothing. *)
Theorem initialize_twice_is_once :
  (∀ o b, o !! "_tm"%string = Some (PyTM b) → initialize o = (Ok tt, o)) ∧
  (∀ o o1, initialize o = (Ok tt, o1) → initialize o1 = (Ok tt, o1)).
Proof.
  split.
  - intros o b Hb. by eapply initialize_existing.
  - intros o o1 H. unfold initialize in H.
    apply bind_Ok_inv in H as (tm & o' & [Htm ->]%getattr_Ok_inv & H).
    destruct tm;
      try (injection H as <-; by eapply initialize_existing).
    inv_run. unfold setattr in *. simplify_eq.
    eapply initialize_existing;
      [rewrite !lookup_insert_ne by done; apply lookup_insert_eq | done].
Qed.

Lemma reset_without_backend o v :
  o !! "_tm"%string = Some v → (∀ b, v ≠ PyTM b) →
  reset o =
  (match v with PyNone => Ok tt | _ => Raise (AttributeError "reset") end, o).
Proof.
  intros Hv Hne. unfold reset.
  rewrite (bind_Ok _ _ _ _ _ (getattr_Some _ _ _ Hv)).
  destruct v; try done; try (unfold bind, call_tm, bind; by rewrite
    (getattr_Some _ _ _ Hv)).
  by destruct (Hne tm).
Qed.

Lemma reset_without_vector o b :
  o !! "_tm"%string = Some (PyTM b) →
  (∀ p, o !! "previouslyPredictedCells"%string ≠ Some (PyArray p)) →
  reset o =
  (Raise (match o !! "previouslyPredictedCells"%string with
          | None => AttributeError "previouslyPredictedCells"
          | Some _ => TypeError
          end),
   <["_tm"%string:=PyTM (tm_reset b)]> o).
Proof.
  intros Hb Hp. unfold reset.
  rewrite (bind_Ok _ _ _ _ _ (getattr_Some _ _ _ Hb)).
  rewrite bind_run, (call_tm_Some _ _ _ _ Hb). simpl.
  unfold update_array, get_array, bind, getattr, raise.
  rewrite lookup_insert_ne by done.
  destruct (o !! "previouslyPredictedCells"%string) as [[]|] eqn:E; try done.
  by destruct (Hp a).
Qed.

(** C8.  With a backend whose own reset is idempotent, a second [reset]
    leaves the outcome and the region of the first; without a backend
    [reset] does nothing; with one it resets the backend and zeroes
    previouslyPredictedCells. *)
Theorem reset_twice_is_once :
  (∀ b : B, tm_reset (tm_reset b) = tm_reset b) →
  (∀ o, reset (reset o).2 = reset o) ∧
  (∀ o, o !! "_tm"%string = Some PyNone → reset o = (Ok tt, o)) ∧
  (∀ o b p,
     o !! "_tm"%string = Some (PyTM b) →
     o !! "previouslyPredictedCells"%string = Some (PyArray p) →
     reset o =
     (Ok tt,
      <["previouslyPredictedCells"%string:=PyArray (np_zeros (length p))]>
        (<["_tm"%string:=PyTM (tm_reset b)]> o))).
Proof.
  intros Hidem. split; [|split].
  - intros o.
    destruct (o !! "_tm"%string) as [v|] eqn:Htm;
      [|by unfold reset, bind, getattr; rewrite Htm; simpl; rewrite Htm].
    assert ((∃ b, v = PyTM b) ∨ ∀ b, v ≠ PyTM b) as [[b ->] | Hv]
      by (destruct v; eauto).
    2: { rewrite (reset_without_backend _ _ Htm Hv). simpl.
         by apply reset_without_backend. }
    assert ((∃ p, o !! "previouslyPredictedCells"%string = Some (PyArray p)) ∨
            ∀ p, o !! "previouslyPredictedCells"%string ≠ Some (PyArray p))
      as [[p Hp] | Hp]
      by (destruct (o !! "previouslyPredictedCells"%string) as [[]|]; eauto).
    + rewrite (reset_run _ _ _ Htm Hp). simpl.
      erewrite reset_run; [|by simplify_map_eq..].
      f_equal. rewrite Hidem, length_np_zeros.
      apply map_eq. intros k.
      destruct (decide (k = "previouslyPredictedCells"%string)) as [->|];
        [by simplify_map_eq|].
      destruct (decide (k = "_tm"%string)) as [->|]; by simplify_map_eq.
    + rewrite (reset_without_vector _ _ Htm Hp). simpl.
      erewrite reset_without_vector;
        [|apply lookup_insert_eq | by rewrite lookup_insert_ne].
      rewrite lookup_insert_ne by done.
      by rewrite Hidem, insert_insert_eq.
  - intros o Htm. unfold reset.
    by rewrite (bind_Ok _ _ _ _ _ (getattr_Some _ _ _ Htm)).
  - intros o b p Hb Hp. by apply reset_run.
Qed.

End Lifecycle.

(** ** Parameters *)

Section Parameters.
Context {B : Type}.
Implicit Types o : gmap string (pyval B).

(** [TMRegion.__init__] assigns no [inputWidth], and no successful
    [TMRegion.setParameter] creates one. *)
Lemma TMRegion_init_no_inputWidth (a : TMRegion.init_args B) o :
  TMRegion.__init__ a = Ok o → o !! "inputWidth"%string = None.
Proof.
  unfold TMRegion.__init__.
  destruct (py_bool (TMRegion.learnOnOneCell a)); [|discriminate].
  destruct (py_bool (TMRegion.formInternalConnections a)); [|discriminate].
  by intros [= <-].
Qed.

Lemma TMRegion_setParameter_no_inputWidth name index v o o' :
  o !! "inputWidth"%string = None →
  TMRegion.setParameter name index v o = (Ok tt, o') →
  o' !! "inputWidth"%string = None.
Proof.
  intros Hnone. unfold TMRegion.setParameter. case_bool_decide as Hn.
  - intros H. inv_run. unfold setattr in H. injection H as <-.
    rewrite lookup_insert_ne; [done|]. intros ->. revert Hn. not_listed.
  - unfold bind, gets, hasattr. case_bool_decide as Hk; [|discriminate].
    unfold setattr. intros [= <-]. rewrite lookup_insert_ne; [done|].
    intros ->. rewrite Hnone in Hk. by destruct Hk.
Qed.

Section Layer.
Variable py_mul : pyval B -> pyval B -> result (pyval B).



End Layer.
End Parameters.

(** ** A step returns *)

Section StepReturns.
Context {B : Type} `{!TemporalMemory B} `{!Factory B}.
Implicit Types o : gmap string (pyval B).
Implicit Types w : TMRegion.world B.
Implicit Types inputs : gmap string ndarray.

Import TMRegion.

Lemma np_put_fill_in_range cells (a : ndarray) :
  Forall (fun i => i < length a) cells →
  np_put cells 1 (np_fill 0 a) = Ok (mask (length a) cells).
Proof.
  intros Hr. rewrite np_put_in_range; [done|]. by rewrite length_np_fill.
Qed.

Lemma assign_output_World name src o (outs : gmap string ndarray) dst :
  outs !! name = Some dst → length src = length dst →
  assign_output name src (World o outs) =
  (Ok tt, World o (<[name:=src]> outs)).
Proof. intros. by rewrite assign_output_Some with (dst:=dst). Qed.

Lemma update_state_run n o b a p :
  o !! "_tm"%string = Some (PyTM b) →
  o !! "activeState"%string = Some (PyArray a) → length a = n →
  o !! "previouslyPredictedCells"%string = Some (PyArray p) → length p = n →
  Forall (fun i => i < n) (getActiveCells b) →
  Forall (fun i => i < n) (getPredictiveCells b) →
  update_state o =
  (Ok (zip_with Z.mul (mask n (getActiveCells b)) p),
   <["previouslyPredictedCells"%string :=
       PyArray (mask n (getPredictiveCells b))]>
     (<["activeState"%string := PyArray (mask n (getActiveCells b))]> o)).
Proof.
  intros Hb Ha La Hp Lp Hact Hpred. subst n. unfold update_state.
  erewrite bind_Ok; [|by eapply update_array_Some].
  erewrite bind_Ok; [|by apply with_tm_Some; rewrite lookup_insert_ne].
  erewrite bind_Ok;
    [|eapply update_array_Some;
      [apply lookup_insert_eq | by apply np_put_fill_in_range]].
  rewrite insert_insert_eq.
  erewrite bind_Ok; [|by apply get_array_Some, lookup_insert_eq].
  erewrite bind_Ok; [|by apply get_array_Some; rewrite lookup_insert_ne].
  rewrite bind_run. unfold of_result.
  rewrite np_mul_same_length by (by rewrite length_mask).
  erewrite bind_Ok;
    [|by eapply update_array_Some; [rewrite lookup_insert_ne|]].
  erewrite bind_Ok;
    [|by apply with_tm_Some; rewrite !lookup_insert_ne].
  erewrite bind_Ok;
    [|eapply update_array_Some;
      [apply lookup_insert_eq
      | apply np_put_fill_in_range; by rewrite Lp]].
  by rewrite insert_insert_eq, Lp.
Qed.

Lemma write_outputs_run n pa w a p :
  self w !! "activeState"%string = Some (PyArray a) → length a = n →
  self w !! "previouslyPredictedCells"%string = Some (PyArray p) →
  length p = n → length pa = n →
  buffers_ready n (outputs w) →
  write_outputs pa w =
  (Ok tt,
   World (self w)
     (<["predictedActiveCells"%string:=pa]>
        (<["predictiveCells"%string:=p]>
           (<["activeCells"%string:=a]> (outputs w))))).
Proof.
  destruct w as [o outs]. simpl.
  intros Ha La Hp Lp Lpa Hbuf. unfold write_outputs.
  destruct (Hbuf "activeCells"%string) as (d1 & Hd1 & L1);
    [repeat constructor|].
  destruct (Hbuf "predictiveCells"%string) as (d2 & Hd2 & L2);
    [repeat constructor|].
  destruct (Hbuf "predictedActiveCells"%string) as (d3 & Hd3 & L3);
    [repeat constructor|].
  erewrite bind_Ok; [|by apply on_self_same, get_array_Some].
  erewrite bind_Ok; [|eapply assign_output_World; [exact Hd1 | congruence]].
  erewrite bind_Ok; [|by apply on_self_same, get_array_Some].
  erewrite bind_Ok;
    [|eapply assign_output_World;
      [rewrite lookup_insert_ne by done; exact Hd2 | congruence]].
  eapply assign_output_World;
    [rewrite !lookup_insert_ne by done; exact Hd3 | congruence].
Qed.

Lemma select_default_run n pa w sel a p :
  self w !! "defaultOutputType"%string = Some (PyStr sel) →
  sel ∈ valid_selectors →
  self w !! "activeState"%string = Some (PyArray a) → length a = n →
  self w !! "previouslyPredictedCells"%string = Some (PyArray p) →
  length p = n → length pa = n →
  buffers_ready n (outputs w) →
  ∃ src,
    selected (PyStr sel) (self w) pa src ∧
    select_default pa w =
    (Ok tt, World (self w) (<["bottomUpOut"%string:=src]> (outputs w))).
Proof.
  destruct w as [o outs]. simpl.
  intros Ht Hsel Ha La Hp Lp Lpa Hbuf. unfold select_default, selected.
  destruct (Hbuf "bottomUpOut"%string) as (d & Hd & Ld);
    [repeat constructor|].
  erewrite bind_Ok; [|by apply on_self_same, getattr_Some]. simpl.
  unfold valid_selectors in Hsel.
  destruct (String.eqb sel "active") eqn:E1.
  { exists a. split; [by left|].
    erewrite bind_Ok; [|by apply on_self_same, get_array_Some].
    eapply assign_output_World; [exact Hd | congruence]. }
  destruct (String.eqb sel "predictive") eqn:E2.
  { exists p. split; [right; by left|].
    erewrite bind_Ok; [|by apply on_self_same, get_array_Some].
    eapply assign_output_World; [exact Hd | congruence]. }
  destruct (String.eqb sel "predictedActiveCells") eqn:E3.
  { exists pa. split; [right; by right|].
    eapply assign_output_World; [exact Hd | congruence]. }
  apply String.eqb_neq in E1, E2, E3.
  repeat (apply elem_of_cons in Hsel as [->|Hsel]; [done|]).
  by apply elem_of_nil in Hsel.
Qed.

(** On an initialised region a step returns as soon as the feed-forward
    input is there, the backend's own compute returns cells in range, the
    selector is one of the three and [resetIn], if present, has one
    element. *)
Lemma compute_returns n inputs w x b learn fic sel :
  ready n w →
  inputs !! "bottomUpIn"%string = Some x →
  self w !! "_tm"%string = Some (PyTM b) →
  self w !! "learningMode"%string = Some learn →
  self w !! "formInternalConnections"%string = Some fic →
  self w !! "defaultOutputType"%string = Some (PyStr sel) →
  sel ∈ valid_selectors →
  (∀ call b1, tm_compute call b = (Ok tt, b1) →
     Forall (fun i => i < n) (getActiveCells b1) ∧
     Forall (fun i => i < n) (getPredictiveCells b1)) →
  (∀ call, (tm_compute call b).1 = Ok tt) →
  (∀ flag, inputs !! "resetIn"%string = Some flag → length flag = 1) →
  ∃ w', compute inputs w = (Ok tt, w').
Proof.
  intros [(_ & (a & Ha & La) & (p & Hp & Lp)) Hbuf] Hx Hb Hl Hf Ht Hsel
    Hrange Hok Hflag.
  unfold compute.
  rewrite bind_run, (tm_step_run _ _ _ _ _ _ Hx Hb Hl Hf). simpl.
  match goal with |- context [tm_compute ?c b] => set (call := c) end.
  pose proof (Hok call) as Hcall.
  destruct (tm_compute call b) as [r b1] eqn:E. simpl in Hcall. subst r.
  destruct (Hrange _ _ E) as [Hact Hpred]. simpl.
  erewrite bind_Ok;
    [|apply on_self_run; simpl;
      by apply (update_state_run n _ b1 a p);
        rewrite ?lookup_insert_eq, ?lookup_insert_ne by done].
  assert (length (zip_with Z.mul (mask n (getActiveCells b1)) p) = n) as Lpa
    by (rewrite length_zip_with, length_mask; lia).
  simpl.
  set (act := mask n (getActiveCells b1)).
  set (pred := mask n (getPredictiveCells b1)).
  set (pa := zip_with Z.mul act p) in *.
  set (o2 := <["previouslyPredictedCells"%string:=PyArray pred]>
               (<["activeState"%string:=PyArray act]>
                  (<["_tm"%string:=PyTM b1]> (self w)))).
  assert (o2 !! "activeState"%string = Some (PyArray act)) as Ha2
    by (subst o2; by rewrite lookup_insert_ne, lookup_insert_eq).
  assert (o2 !! "previouslyPredictedCells"%string = Some (PyArray pred))
    as Hp2 by (subst o2; apply lookup_insert_eq).
  assert (o2 !! "defaultOutputType"%string = Some (PyStr sel)) as Ht2
    by (subst o2; by rewrite !lookup_insert_ne).
  assert (length act = n) as Lact by apply length_mask.
  assert (length pred = n) as Lpred by apply length_mask.
  rewrite bind_run,
    (write_outputs_run n pa (World o2 (outputs w)) act pred Ha2 Lact Hp2 Lpred
       Lpa Hbuf).
  simpl.
  match goal with |- context [World o2 ?outs] => set (outs3 := outs) end.
  assert (buffers_ready n outs3) as Hbuf3
    by (subst outs3; by repeat apply buffers_ready_insert).
  destruct (select_default_run n pa (World o2 outs3) sel act pred Ht2 Hsel
              Ha2 Lact Hp2 Lpred Lpa Hbuf3) as (src & _ & Hselect).
  rewrite bind_run, Hselect. simpl.
  unfold handle_reset.
  destruct (inputs !! "resetIn"%string) as [flag|] eqn:Hin;
    [|eexists; reflexivity].
  rewrite (Hflag _ eq_refl), Nat.eqb_refl.
  destruct (bool_decide _); [|eexists; reflexivity].
  erewrite on_self_run; [eexists; reflexivity|]. simpl.
  apply reset_run; [|exact Hp2].
  subst o2. rewrite !lookup_insert_ne by done. apply lookup_insert_eq.
Qed.

End StepReturns.

(** ** The scenario, run *)

Import TMRegion.

Ltac buffers_ready_by_cases :=
  let name := fresh "name" in
  let Hn := fresh "Hn" in
  intros name Hn; unfold output_names in Hn;
  repeat (apply elem_of_cons in Hn as [->|Hn];
          [eexists; split; reflexivity|]);
  by apply elem_of_nil in Hn.

Lemma buffers8_ready : buffers_ready 8 buffers8.
Proof. buffers_ready_by_cases. Qed.

Lemma region8_ready : region_ready 8 region8.
Proof.
  split_and!; [exists toy8 | exists (np_zeros 8) | exists (np_zeros 8)];
    by vm_compute.
Qed.

Lemma world8_ready : ready 8 world8.
Proof. split; [apply region8_ready | apply buffers8_ready]. Qed.

Lemma step1_run : compute in_cols02 world8 = (Ok tt, step1).
Proof. apply run_Ok. by vm_compute. Qed.

Lemma step2_run :
  compute in_cols02 (World (self step1) buffers8) = (Ok tt, step2).
Proof. apply run_Ok. by vm_compute. Qed.

(** The four-column scenario of the specification. *)
Example scenario_step1 :
  outputs step1 !! "activeCells"%string = Some [1; 0; 0; 1; 0; 0; 0; 0]%Z ∧
  outputs step1 !! "predictedActiveCells"%string = Some (np_zeros 8).
Proof. by vm_compute. Qed.

Example scenario_step2 :
  outputs step2 !! "predictedActiveCells"%string =
    Some [0; 1; 0; 0; 1; 0; 0; 0]%Z.
Proof. by vm_compute. Qed.

Lemma predictedActive_is_active_and_previous_predictive_witness :
  ready 8 world8 ∧ resets in_cols02 = false ∧
  compute in_cols02 world8 = (Ok tt, step1) ∧
  buffers_ready 8 buffers8 ∧
  compute in_cols02 (World (self step1) buffers8) = (Ok tt, step2) ∧
  ∃ active predictive1,
    outputs step1 !! "predictiveCells"%string = Some predictive1 ∧
    self step1 !! "previouslyPredictedCells"%string =
      Some (PyArray predictive1) ∧
    outputs step2 !! "activeCells"%string = Some active ∧
    outputs step2 !! "predictedActiveCells"%string =
      Some (np_logical_and active predictive1).
Proof.
  assert (resets in_cols02 = false) as Hres by reflexivity.
  split_and!;
    [apply world8_ready | exact Hres | apply step1_run | apply buffers8_ready
    | apply step2_run |].
  exact (predictedActive_is_active_and_previous_predictive 8 in_cols02
           in_cols02 world8 step1 buffers8 step2 world8_ready Hres step1_run
           buffers8_ready step2_run).
Defined.

Lemma step1_reset_run :
  compute (in_cols02_reset [1%Z]) world8 = (Ok tt, step1_reset).
Proof. apply run_Ok. by vm_compute. Qed.

Lemma step2_after_reset_run :
  compute in_cols02 (World (self step1_reset) buffers8)
  = (Ok tt, step2_after_reset).
Proof. apply run_Ok. by vm_compute. Qed.

Lemma region8_reset_run : reset (self step1) = (Ok tt, region8_reset).
Proof. apply run_Ok. by vm_compute. Qed.

Lemma step2_after_command_run :
  compute in_cols02 (World region8_reset buffers8)
  = (Ok tt, step2_after_command).
Proof. apply run_Ok. by vm_compute. Qed.

Lemma step1_region_ready : region_ready 8 (self step1).
Proof.
  split_and!;
    [exists (Toy 8 3 [([1; 4], [])] [0; 3] [1; 4] {[0; 2]})
    | exists [1; 0; 0; 1; 0; 0; 0; 0]%Z
    | exists [0; 1; 0; 0; 1; 0; 0; 0]%Z ]; by vm_compute.
Qed.

Lemma reset_only_after_outputs_witness :
  (∃ w1, compute (delete "resetIn"%string (in_cols02_reset [1%Z])) world8
         = (Ok tt, w1) ∧
         outputs step1_reset = outputs w1 ∧
         reset (self w1) = (Ok tt, self step1_reset)) ∧
  (∃ active,
     outputs step2_after_command !! "activeCells"%string = Some active ∧
     outputs step2_after_command !! "predictedActiveCells"%string =
       Some (np_logical_and active (np_zeros 8)) ∧
     np_logical_and active (np_zeros 8) = np_zeros 8) ∧
  (∃ active,
     outputs step2_after_reset !! "activeCells"%string = Some active ∧
     outputs step2_after_reset !! "predictedActiveCells"%string =
       Some (np_logical_and active (np_zeros 8))).
Proof.
  destruct (reset_only_after_outputs (B:=toy)) as (Hflag & Hcommand & Hnext).
  split_and!.
  - apply (Hflag (in_cols02_reset [1%Z]) world8 step1_reset 1%Z);
      [reflexivity | discriminate | apply step1_reset_run].
  - apply (Hcommand 8 (self step1) region8_reset buffers8 in_cols02
             step2_after_command);
      [apply step1_region_ready | apply region8_reset_run
      | apply buffers8_ready | apply step2_after_command_run].
  - apply (Hnext 8 (in_cols02_reset [1%Z]) in_cols02 world8 step1_reset
             buffers8 step2_after_reset);
      [apply world8_ready | reflexivity | apply step1_reset_run
      | apply buffers8_ready | apply step2_after_reset_run].
Defined.

(** C3 as the specification words it fails on an input holding a 2:
    index 0 is nonzero, and the backend is handed column 1 only. *)
Lemma nonzero_other_than_one_is_not_active :
  (compute in_two world8).1 = Ok tt ∧
  (∃ b, self (compute in_two world8).2 !! "_tm"%string = Some (PyTM b) ∧
        toy_columns b = {[1]} ∧
        toy_columns b ≠ spec_nonzero_set [2; 1; 0; 0]%Z) ∧
  0 ∈ spec_nonzero_set [2; 1; 0; 0]%Z ∧
  0 ∉ active_set [2; 1; 0; 0]%Z.
Proof.
  split_and!.
  - by vm_compute.
  - eexists. split_and!; [by vm_compute | by vm_compute |].
    vm_compute. discriminate.
  - unfold spec_nonzero_set. simpl. set_solver.
  - rewrite active_set_spec. discriminate.
Qed.

Lemma inputs_become_index_sets_of_ones_witness :
  tm_step in_cols02 world8 =
  ((tm_compute (ComputeBasic (active_set [1; 0; 1; 0]%Z) (PyBool true))
      toy8).1,
   World (<["_tm"%string:=PyTM (tm_compute
                (ComputeBasic (active_set [1; 0; 1; 0]%Z) (PyBool true))
                toy8).2]> (self world8)) (outputs world8)) ∧
  (0 ∈ active_set [1; 0; 1; 0]%Z ↔ [1; 0; 1; 0]%Z !! 0 = Some 1%Z) ∧
  active_set [1; 0; 1; 0]%Z = spec_nonzero_set [1; 0; 1; 0]%Z.
Proof.
  destruct (inputs_become_index_sets_of_ones (B:=toy))
    as (Hcall & Hmem & Hbin).
  split_and!.
  - apply (Hcall in_cols02 world8 [1; 0; 1; 0]%Z toy8 (PyBool true)
             (PyBool true)); by vm_compute.
  - apply Hmem.
  - apply Hbin. unfold binary.
    repeat (apply Forall_cons_2; [(by left) || (by right)|]).
    apply Forall_nil_2.
Defined.

(** C4 as the specification words it fails: the step with the selector
    "bogus" raises a plain [Exception] and has rewritten the activeCells
    buffer. *)
Lemma unknown_selector_mutates_named_outputs :
  self world8_bogus !! "defaultOutputType"%string = Some (PyStr "bogus") ∧
  ("bogus"%string ∉ valid_selectors) ∧
  (compute in_cols02 world8_bogus).1 =
    Raise (Exception "Unknown outputType: bogus") ∧
  outputs world8_bogus !! "activeCells"%string = Some (np_zeros 8) ∧
  outputs (compute in_cols02 world8_bogus).2 !! "activeCells"%string =
    Some [1; 0; 0; 1; 0; 0; 0; 0]%Z ∧
  outputs (compute in_cols02 world8_bogus).2 ≠ outputs world8_bogus.
Proof.
  split_and!; [by vm_compute | not_listed | by vm_compute..|].
  intros E. apply (f_equal (fun m => m !! "activeCells"%string)) in E.
  vm_compute in E. discriminate.
Qed.

Lemma unknown_selector_raises_after_named_outputs_witness :
  compute in_cols02 world8_bogus =
    match named_outputs in_cols02 world8_bogus with
    | (Ok _, w1) => (Raise (Exception ("Unknown outputType: " ++ "bogus")), w1)
    | (Raise e, w1) => (Raise e, w1)
    end ∧
  (∃ e, (compute in_cols02 world8_bogus).1 = Raise e) ∧
  output_kept "bottomUpOut" world8_bogus (compute in_cols02 world8_bogus).2.
Proof.
  assert (self world8_bogus !! "defaultOutputType"%string
          = Some (PyStr "bogus")) as Hsel by (by vm_compute).
  assert ("bogus"%string ∉ valid_selectors) as Hbad by not_listed.
  destruct (unknown_selector_raises_after_named_outputs in_cols02
              world8_bogus "bogus" Hsel Hbad) as (Hrun & Hraise & Hkept & _).
  by split_and!.
Defined.

Lemma unknown_selector_is_settable :
  (setParameter "defaultOutputType" 0 (PyStr "bogus") region8).1 = Ok tt.
Proof. by vm_compute. Qed.

Lemma malformed_resetIn_raises_before_reset_witness :
  in_cols02_reset [1; 1]%Z !! "resetIn"%string = Some [1; 1]%Z ∧
  length [1; 1]%Z ≠ 1 ∧
  ∃ e, compute (in_cols02_reset [1; 1]%Z) world8 =
       (Raise e,
        (compute (delete "resetIn"%string (in_cols02_reset [1; 1]%Z))
           world8).2) ∧
       ((compute (delete "resetIn"%string (in_cols02_reset [1; 1]%Z))
           world8).1 = Ok tt →
        e = AssertionError).
Proof.
  assert (in_cols02_reset [1; 1]%Z !! "resetIn"%string = Some [1; 1]%Z)
    as Hin by reflexivity.
  assert (length [1; 1]%Z ≠ 1) as Hlen by (simpl; lia).
  split_and!; [exact Hin | exact Hlen |].
  exact (proj1 (malformed_resetIn_raises_before_reset
                  (in_cols02_reset [1; 1]%Z) world8 [1; 1]%Z Hin Hlen)).
Defined.

Example malformed_resetIn_scenario :
  (compute (in_cols02_reset [1; 1]%Z) world8).1 = Raise AssertionError.
Proof. by vm_compute. Qed.

Lemma compute_keeps_configuration_witness :
  compute in_cols02 world8 = (Ok tt, step1) ∧
  Forall (fun k => self step1 !! k = self world8 !! k) config_fields ∧
  (∀ k, k ∉ runtime_attrs → self step1 !! k = self world8 !! k) ∧
  (∃ b call b1,
     self world8 !! "_tm"%string = Some (PyTM b) ∧
     tm_compute call b = (Ok tt, b1) ∧
     self step1 !! "_tm"%string =
       Some (PyTM (if resets in_cols02 then tm_reset b1 else b1))).
Proof.
  split; [apply step1_run|].
  exact (compute_keeps_configuration in_cols02 world8 step1 step1_run).
Defined.

(** C6 as the specification words it fails: on a region of four columns
    with two cells each, a backend that reports five cells is accepted, and
    the vectors get five elements. *)
Lemma initialize_accepts_mismatched_cell_count :
  region_fresh !! "columnCount"%string = Some (PyInt 4) ∧
  region_fresh !! "cellsPerColumn"%string = Some (PyInt 2) ∧
  numberOfCells toy5 = 5 ∧ 5 ≠ 4 * 2 ∧
  (@initialize toy toy_tm (toy_factory toy5) region_fresh).1 = Ok tt ∧
  (@initialize toy toy_tm (toy_factory toy5) region_fresh).2
    !! "_tm"%string = Some (PyTM toy5) ∧
  (@initialize toy toy_tm (toy_factory toy5) region_fresh).2
    !! "activeState"%string = Some (PyArray (np_zeros 5)) ∧
  (@initialize toy toy_tm (toy_factory toy5) region_fresh).2
    !! "previouslyPredictedCells"%string = Some (PyArray (np_zeros 5)).
Proof. split_and!; by vm_compute. Qed.

Lemma initialize_sizes_vectors_by_backend_witness :
  @initialize toy toy_tm (toy_factory toy8) region_fresh =
  (Ok tt,
   <["previouslyPredictedCells"%string:=PyArray (np_zeros 8)]>
     (<["activeState"%string:=PyArray (np_zeros 8)]>
        (<["_tm"%string:=PyTM toy8]> region_fresh))).
Proof.
  apply (@initialize_sizes_vectors_by_backend toy toy_tm (toy_factory toy8)
           region_fresh (PyInt 4) (PyStr "tm")
           ["columnDimensions"; "cellsPerColumn"; "seed"]%string toy8);
    by vm_compute.
Defined.

Lemma region8_run :
  @initialize toy toy_tm (toy_factory toy8) region_fresh = (Ok tt, region8).
Proof. apply run_Ok. by vm_compute. Qed.

Lemma initialize_twice_is_once_witness :
  region8 !! "_tm"%string = Some (PyTM toy8) ∧
  @initialize toy toy_tm (toy_factory toy8) region_fresh = (Ok tt, region8) ∧
  @initialize toy toy_tm (toy_factory toy8) region8 = (Ok tt, region8).
Proof.
  destruct (@initialize_twice_is_once toy toy_tm (toy_factory toy8))
    as [Hexisting Hagain].
  assert (region8 !! "_tm"%string = Some (PyTM toy8)) as Htm
    by (by vm_compute).
  split_and!; [exact Htm | apply region8_run |].
  pose proof (Hexisting region8 toy8 Htm) as Hnoop.
  exact (Hagain region_fresh region8 region8_run).
Defined.

Lemma toy_reset_idempotent (t : toy) : tm_reset (tm_reset t) = tm_reset t.
Proof. by destruct t. Qed.

Lemma reset_twice_is_once_witness :
  reset (reset (self step1)).2 = reset (self step1) ∧
  reset region_fresh = (Ok tt, region_fresh) ∧
  reset region8 =
  (Ok tt,
   <["previouslyPredictedCells"%string:=PyArray (np_zeros (length (np_zeros 8)))]>
     (<["_tm"%string:=PyTM (tm_reset toy8)]> region8)).
Proof.
  destruct (reset_twice_is_once (B:=toy) toy_reset_idempotent)
    as (Htwice & Hnone & Hsome).
  split_and!.
  - apply Htwice.
  - apply Hnone. by vm_compute.
  - apply Hsome; by vm_compute.
Defined.

(** C5 on [TMRegion]: the parameter table declares [inputWidth], yet the
    constructor leaves no such attribute and a successful
    [setParameter("columnCount", 0, 8)] creates none, where [L2Column] keeps
    it equal to the product. *)
Theorem TMRegion_has_no_inputWidth :
  region_fresh !! "columnCount"%string = Some (PyInt 4) ∧
  region_fresh !! "cellsPerColumn"%string = Some (PyInt 2) ∧
  region_fresh !! "inputWidth"%string = None ∧
  (setParameter "columnCount" 0 (PyInt 8) region_fresh).1 = Ok tt ∧
  (setParameter "columnCount" 0 (PyInt 8) region_fresh).2
    !! "columnCount"%string = Some (PyInt 8) ∧
  (setParameter "columnCount" 0 (PyInt 8) region_fresh).2
    !! "inputWidth"%string = None.
Proof. split_and!; by vm_compute. Qed.

Example L2Column_keeps_inputWidth :
  layer_fresh !! "inputWidth"%string = Some (PyInt 32768) ∧
  (L2Column.setParameter int_mul "columnCount" 0 (PyInt 8) layer_fresh).1
    = Ok tt ∧
  (L2Column.setParameter int_mul "columnCount" 0 (PyInt 8) layer_fresh).2
    !! "inputWidth"%string = Some (PyInt 128).
Proof. split_and!; by vm_compute. Qed.

(** * Further properties *)

(** A run that raises is determined by the state it leaves. *)
Lemma run_Raise {S A} (m : M S A) s e :
  (m s).1 = Raise e → m s = (Raise e, (m s).2).
Proof. destruct (m s). simpl. by intros ->. Qed.

(** ** A step on an initialised region *)

Section StepOutcomes.
Context {B : Type} `{!TemporalMemory B} `{!Factory B}.
Implicit Types o : gmap string (pyval B).
Implicit Types w : TMRegion.world B.
Implicit Types inputs : gmap string ndarray.

Import TMRegion.

Lemma tm_step_backend_call inputs w x b learn fic :
  inputs !! "bottomUpIn"%string = Some x →
  self w !! "_tm"%string = Some (PyTM b) →
  self w !! "learningMode"%string = Some learn →
  self w !! "formInternalConnections"%string = Some fic →
  tm_step inputs w =
  ((tm_compute (backend_call inputs x learn fic b) b).1,
   World (<["_tm"%string:=
             PyTM (tm_compute (backend_call inputs x learn fic b) b).2]>
            (self w)) (outputs w)).
Proof. intros. by apply tm_step_run. Qed.


End StepOutcomes.

Section StepReturnsOutcome.
Context {B : Type} `{!TemporalMemory B} `{!Factory B}.
Implicit Types o : gmap string (pyval B).
Implicit Types w : TMRegion.world B.
Implicit Types inputs : gmap string ndarray.

Import TMRegion.



End StepReturnsOutcome.

Import TMRegion.


Section StepShape.
Context {B : Type} `{!TemporalMemory B} `{!Factory B}.
Implicit Types o : gmap string (pyval B).
Implicit Types w : TMRegion.world B.
Implicit Types inputs : gmap string ndarray.

Import TMRegion.

(** The world a returning step leaves, written out. *)
Lemma compute_Ok_explicit n inputs w w' :
  ready n w → compute inputs w = (Ok tt, w') →
  ∃ b b1 call p t src,
    self w !! "_tm"%string = Some (PyTM b) ∧
    self w !! "previouslyPredictedCells"%string = Some (PyArray p) ∧
    length p = n ∧
    self w !! "defaultOutputType"%string = Some t ∧
    tm_compute call b = (Ok tt, b1) ∧
    let act := mask n (getActiveCells b1) in
    let pred := mask n (getPredictiveCells b1) in
    let pa := zip_with Z.mul act p in
    let o2 := <["previouslyPredictedCells"%string := PyArray pred]>
                (<["activeState"%string := PyArray act]>
                   (<["_tm"%string := PyTM b1]> (self w))) in
    selected t o2 pa src ∧
    outputs w' =
      <["bottomUpOut"%string := src]>
        (<["predictedActiveCells"%string := pa]>
           (<["predictiveCells"%string := pred]>
              (<["activeCells"%string := act]> (outputs w)))) ∧
    self w' =
      if resets inputs
      then <["previouslyPredictedCells"%string := PyArray (np_zeros n)]>
             (<["_tm"%string := PyTM (tm_reset b1)]> o2)
      else o2.
Proof.
  intros Hw H. rewrite compute_named_outputs in H.
  apply bind_Ok_inv in H as (pa & w1 & H1 & H).
  apply bind_Ok_inv in H as (? & w4 & H4 & H5).
  destruct (named_outputs_ready _ _ _ _ _ Hw H1) as [[Hreg1 Hbuf1] Lpa].
  destruct (named_outputs_Ok_inv _ _ _ _ _ Hw H1)
    as (b & b1 & call & p & Hb & Hp & Lp & Hcall & Hpa & ->).
  apply select_default_Ok_inv in H4
    as (t & src & dst & r & Ht & Hsel & Hdst & Hr & ->).
  simpl in *.
  assert (length src = n) as Lsrc.
  { destruct Hsel as [[_ E] | [(_ & _ & E) | (_ & _ & _ & ->)]];
      simplify_map_eq; auto using length_mask. }
  eapply (buffer_assign _ "bottomUpOut") in Hr;
    [|exact Hbuf1 | repeat constructor | done | done].
  subst r. rewrite !lookup_insert_ne in Ht by done.
  exists b, b1, call, p, t, src. subst pa.
  split_and!; try done.
  - apply handle_reset_Ok_inv in H5 as [[_ ->] | (_ & _ & ->)]; done.
  - apply handle_reset_Ok_inv in H5 as [[-> ->] | (-> & Hreset & _)]; [done|].
    erewrite reset_run in Hreset;
      [|simpl; rewrite !lookup_insert_ne by done; apply lookup_insert_eq
       |simpl; apply lookup_insert_eq].
    injection Hreset as <-. by rewrite length_mask.
Qed.

(** X2.  When a step on an initialised region returns, the selector is one
    of the three valid ones and the default output bottomUpOut holds exactly
    the named output that selector designates. *)
Theorem default_output_mirrors_selector n inputs w w' sel :
  ready n w →
  self w !! "defaultOutputType"%string = Some (PyStr sel) →
  compute inputs w = (Ok tt, w') →
  sel ∈ valid_selectors ∧
  is_Some (outputs w' !! "bottomUpOut"%string) ∧
  outputs w' !! "bottomUpOut"%string = outputs w' !! selected_output sel.
Proof.
  intros Hw Ht H.
  destruct (compute_Ok_explicit _ _ _ _ Hw H)
    as (b & b1 & call & p & t & src & _ & _ & _ & Ht' & _ & Hsel & Hout & _).
  rewrite Ht in Ht'. injection Ht' as <-. rewrite Hout.
  unfold selected, selected_output, valid_selectors in *. simpl in Hsel.
  destruct Hsel as [[E1 Hs] | [(E1 & E2 & Hs) | (E1 & E2 & E3 & ->)]];
    rewrite ?E1, ?E2; simplify_map_eq.
  - apply String.eqb_eq in E1 as ->. split_and!; [repeat constructor|eauto|done].
  - apply String.eqb_eq in E2 as ->. split_and!; [repeat constructor|eauto|done].
  - apply String.eqb_eq in E3 as ->. split_and!; [repeat constructor|eauto|done].
Qed.

Lemma binary_zip_mul (a b : ndarray) :
  binary a → binary b → binary (zip_with Z.mul a b).
Proof.
  intros Ha. revert b. induction Ha as [|x a Hx Ha IH]; intros b Hb;
    [apply Forall_nil_2|].
  destruct Hb as [|y b Hy Hb]; [apply Forall_nil_2|]. simpl.
  apply Forall_cons_2; [|by apply IH].
  destruct Hx as [-> | ->], Hy as [-> | ->]; auto.
Qed.

(** X3.  The shape of an initialised region is an invariant of its steps:
    after a step that returns, both vectors and all four output buffers
    still have [n] elements, both vectors hold only 0 and 1 and, provided
    previouslyPredictedCells held only 0 and 1 before, so do the four
    outputs. *)
Theorem step_keeps_shape_and_binary n inputs w w' :
  ready n w →
  compute inputs w = (Ok tt, w') →
  ready n w' ∧
  region_binary (self w') ∧
  ((∀ p, self w !! "previouslyPredictedCells"%string = Some (PyArray p) →
         binary p) →
   outputs_binary (outputs w')).
Proof.
  intros Hw H.
  destruct (compute_Ok_inv _ _ _ _ Hw H)
    as (? & ? & ? & ? & _ & _ & _ & _ & _ & _ & _ & _ & _ & Hw').
  destruct (compute_Ok_explicit _ _ _ _ Hw H)
    as (b & b1 & call & p & t & src & _ & Hp & _ & _ & _ & Hsel & Hout & Hself).
  simpl in Hsel.
  split_and!; [done | |].
  - rewrite Hself. split; intros a Ha; destruct (resets inputs);
      simplify_map_eq;
      first [apply binary_mask | apply (binary_replicate_0 n)].
  - intros Hbin. specialize (Hbin _ Hp).
    assert (binary (zip_with Z.mul (mask n (getActiveCells b1)) p)) as Hpa
      by auto using binary_zip_mul, binary_mask.
    assert (binary src) as Hsrc.
    { destruct Hsel as [[_ E] | [(_ & _ & E) | (_ & _ & _ & ->)]];
        simplify_map_eq; auto using binary_mask. }
    intros k d Hk Hd. rewrite Hout in Hd. unfold output_names in Hk.
    repeat (apply elem_of_cons in Hk as [->|Hk];
            [simplify_map_eq; auto using binary_mask|]).
    by apply elem_of_nil in Hk.
Qed.

End StepShape.

Lemma default_output_mirrors_selector_witness :
  "active"%string ∈ valid_selectors ∧
  is_Some (outputs step1 !! "bottomUpOut"%string) ∧
  outputs step1 !! "bottomUpOut"%string =
    outputs step1 !! selected_output "active".
Proof.
  apply (default_output_mirrors_selector 8 in_cols02 world8 step1 "active"
           world8_ready); [by vm_compute | apply step1_run].
Defined.

Lemma step_keeps_shape_and_binary_witness :
  ready 8 step1 ∧
  region_binary (self step1) ∧
  ((∀ p, self world8 !! "previouslyPredictedCells"%string = Some (PyArray p) →
         binary p) →
   outputs_binary (outputs step1)).
Proof.
  exact (step_keeps_shape_and_binary 8 in_cols02 world8 step1 world8_ready
           step1_run).
Defined.

Section InitializeOutcome.
Context {B : Type} `{!TemporalMemory B} `{!Factory B}.
Implicit Types o : gmap string (pyval B).
Implicit Types w : TMRegion.world B.
Implicit Types inputs : gmap string ndarray.

Import TMRegion.

(** [initialize] on a region without a backend, up to the factory's answer. *)
Lemma initialize_fresh_run o cc imp names :
  o !! "_tm"%string = Some PyNone →
  o !! "columnCount"%string = Some cc →
  o !! "temporalImp"%string = Some imp →
  getConstructorArguments imp = Ok names →
  initialize o =
  match createModel imp
          (filter (fun kv => kv.1 ∈ names)
             (<["columnDimensions"%string:=KwTuple [cc]]> (KwVal <$> o))) with
  | Ok b =>
      (Ok tt,
       <["previouslyPredictedCells"%string:=
           PyArray (np_zeros (numberOfCells b))]>
         (<["activeState"%string:=PyArray (np_zeros (numberOfCells b))]>
            (<["_tm"%string:=PyTM b]> o)))
  | Raise e => (Raise e, o)
  end.
Proof.
  intros Htm Hcc Himp Hnames. unfold initialize.
  rewrite (bind_Ok _ _ _ _ _ (getattr_Some _ _ _ Htm)).
  unfold bind at 1, gets at 1.
  rewrite (bind_Ok _ _ _ _ _ (getattr_Some _ _ _ Hcc)).
  rewrite (bind_Ok _ _ _ _ _ (getattr_Some _ _ _ Himp)).
  unfold bind at 1, of_result at 1. rewrite Hnames.
  rewrite (bind_Ok _ _ _ _ _ (getattr_Some _ _ _ Himp)).
  unfold bind at 1, of_result at 1.
  destruct (createModel imp _) as [b|e]; [|reflexivity].
  unfold bind at 1, setattr at 1.
  erewrite bind_Ok; [|by apply with_tm_Some, lookup_insert_eq].
  unfold bind at 1, setattr at 1.
  erewrite bind_Ok;
    [|apply with_tm_Some; rewrite lookup_insert_ne by done;
      apply lookup_insert_eq].
  reflexivity.
Qed.

(** What a returning [initialize] has done on a region without a backend. *)
Lemma initialize_fresh_Ok_inv o o1 :
  o !! "_tm"%string = Some PyNone →
  initialize o = (Ok tt, o1) →
  ∃ b,
    o1 = <["previouslyPredictedCells"%string:=
             PyArray (np_zeros (numberOfCells b))]>
           (<["activeState"%string:=PyArray (np_zeros (numberOfCells b))]>
              (<["_tm"%string:=PyTM b]> o)).
Proof.
  intros Htm H. pose proof H as H0. unfold initialize in H0.
  rewrite (bind_Ok _ _ _ _ _ (getattr_Some _ _ _ Htm)) in H0.
  unfold bind at 1, gets at 1 in H0.
  apply bind_Ok_inv in H0 as (cc & ? & [Hcc ->]%getattr_Ok_inv & H0).
  apply bind_Ok_inv in H0 as (imp & ? & [Himp ->]%getattr_Ok_inv & H0).
  apply bind_Ok_inv in H0 as (names & ? & [Hnames ->]%of_result_Ok_inv & _).
  rewrite (initialize_fresh_run _ _ _ _ Htm Hcc Himp Hnames) in H.
  destruct (createModel imp _) as [b|e]; [|discriminate].
  injection H as <-. by exists b.
Qed.

(** X4.  On a region without a backend, [initialize] hands the factory the
    region's own attributes as keyword arguments, cut down to the names the
    implementation's constructor declares, with columnDimensions, when
    declared, being the one-element tuple of columnCount.  If the factory
    raises, the exception is the call's outcome and the region is
    unchanged; otherwise the backend it returns is stored and sizes both
    vectors. *)
Theorem initialize_passes_expected_arguments o cc imp names :
  o !! "_tm"%string = Some PyNone →
  o !! "columnCount"%string = Some cc →
  o !! "temporalImp"%string = Some imp →
  getConstructorArguments imp = Ok names →
  ∃ args : gmap string (kwarg B),
    (∀ k v, args !! k = Some v ↔
       k ∈ names ∧
       if String.eqb k "columnDimensions" then v = KwTuple [cc]
       else ∃ x, o !! k = Some x ∧ v = KwVal x) ∧
    initialize o =
    match createModel imp args with
    | Ok b =>
        (Ok tt,
         <["previouslyPredictedCells"%string:=
             PyArray (np_zeros (numberOfCells b))]>
           (<["activeState"%string:=PyArray (np_zeros (numberOfCells b))]>
              (<["_tm"%string:=PyTM b]> o)))
    | Raise e => (Raise e, o)
    end.
Proof.
  intros Htm Hcc Himp Hnames. eexists. split; [|by apply initialize_fresh_run].
  intros k v. rewrite map_lookup_filter_Some. simpl.
  destruct (String.eqb_spec k "columnDimensions") as [->|Hk].
  - rewrite lookup_insert_eq. split.
    + by intros [[= <-] ?].
    + by intros [? ->].
  - rewrite lookup_insert_ne by done. rewrite lookup_fmap, fmap_Some.
    split.
    + intros [(x & ? & ->) ?]. eauto.
    + intros [? (x & ? & ->)]. eauto.
Qed.

(** X5.  [initialize] is all or nothing: whenever it raises, whatever the
    region held, the region is left exactly as it was. *)
Theorem initialize_raises_without_change o e o' :
  initialize o = (Raise e, o') → o' = o.
Proof.
  unfold initialize. rewrite bind_run. unfold getattr at 1.
  destruct (o !! "_tm"%string) as [tm|] eqn:Htm; [|by intros [= _ <-]].
  destruct tm; try (by intros [= <-]); try discriminate.
  unfold bind at 1, gets at 1. rewrite bind_run. unfold getattr at 1.
  destruct (o !! "columnCount"%string) as [cc|] eqn:Hcc; [|by intros [= _ <-]].
  rewrite bind_run. unfold getattr at 1.
  destruct (o !! "temporalImp"%string) as [imp|] eqn:Himp;
    [|by intros [= _ <-]].
  rewrite bind_run. unfold of_result at 1.
  destruct (getConstructorArguments imp) as [names|e1] eqn:Hnames;
    [|by intros [= _ <-]].
  intros H'.
  assert (initialize o = (Raise e, o')) as Hrun.
  { unfold initialize. rewrite (bind_Ok _ _ _ _ _ (getattr_Some _ _ _ Htm)).
    unfold bind at 1, gets at 1.
    rewrite (bind_Ok _ _ _ _ _ (getattr_Some _ _ _ Hcc)).
    rewrite (bind_Ok _ _ _ _ _ (getattr_Some _ _ _ Himp)).
    unfold bind at 1, of_result at 1. rewrite Hnames. exact H'. }
  rewrite (initialize_fresh_run _ _ _ _ Htm Hcc Himp Hnames) in Hrun.
  destruct (createModel imp _); [discriminate|]. by injection Hrun as _ <-.
Qed.

(** X6.  The first step after [initialize] has no predicted-active cell:
    once [initialize] has built the backend [b], a step that returns on
    buffers of [numberOfCells b] elements writes the zero vector to
    predictedActiveCells, whatever the backend reports as active. *)
Theorem first_step_predicts_nothing o o1 :
  o !! "_tm"%string = Some PyNone →
  initialize o = (Ok tt, o1) →
  ∃ b,
    o1 !! "_tm"%string = Some (PyTM b) ∧
    ∀ inputs outs w',
      buffers_ready (numberOfCells b) outs →
      compute inputs (World o1 outs) = (Ok tt, w') →
      outputs w' !! "predictedActiveCells"%string =
        Some (np_zeros (numberOfCells b)).
Proof.
  intros Htm H. destruct (initialize_fresh_Ok_inv _ _ Htm H) as [b ->].
  exists b. split; [by simplify_map_eq|].
  intros inputs outs w' Hbuf Hc.
  assert (ready (numberOfCells b)
            (World (<["previouslyPredictedCells"%string:=
                        PyArray (np_zeros (numberOfCells b))]>
                      (<["activeState"%string:=
                           PyArray (np_zeros (numberOfCells b))]>
                         (<["_tm"%string:=PyTM b]> o))) outs)) as Hw.
  { split; [|done]. simpl. split_and!.
    - exists b. by simplify_map_eq.
    - exists (np_zeros (numberOfCells b)).
      split; [by simplify_map_eq | apply length_np_zeros].
    - exists (np_zeros (numberOfCells b)).
      split; [by simplify_map_eq | apply length_np_zeros]. }
  destruct (compute_Ok_inv _ _ _ _ Hw Hc)
    as (b0 & b1 & call & p & _ & Hp & _ & _ & _ & _ & Hpa & _).
  simpl in Hp. rewrite lookup_insert_eq in Hp. injection Hp as <-.
  rewrite Hpa. f_equal.
  rewrite <- (length_mask (numberOfCells b) (getActiveCells b1)) at 2 3.
  apply mul_zeros_r.
Qed.

End InitializeOutcome.

Lemma initialize_passes_expected_arguments_witness :
  ∃ args : gmap string (kwarg toy),
    (∀ k v, args !! k = Some v ↔
       k ∈ ["columnDimensions"; "cellsPerColumn"; "seed"]%string ∧
       if String.eqb k "columnDimensions" then v = KwTuple [PyInt 4]
       else ∃ x, region_fresh !! k = Some x ∧ v = KwVal x) ∧
    @initialize toy toy_tm (toy_factory toy8) region_fresh =
    match @createModel toy (toy_factory toy8) (PyStr "tm") args with
    | Ok b =>
        (Ok tt,
         <["previouslyPredictedCells"%string:=
             PyArray (np_zeros (numberOfCells b))]>
           (<["activeState"%string:=PyArray (np_zeros (numberOfCells b))]>
              (<["_tm"%string:=PyTM b]> region_fresh)))
    | Raise e => (Raise e, region_fresh)
    end.
Proof.
  apply (@initialize_passes_expected_arguments toy toy_tm (toy_factory toy8)
           region_fresh (PyInt 4) (PyStr "tm")
           ["columnDimensions"; "cellsPerColumn"; "seed"]%string);
    by vm_compute.
Defined.

Lemma initialize_raises_without_change_witness :
  (@initialize toy toy_tm (toy_factory toy8) region_cpp).1 =
    Raise (Exception "Unknown temporal memory implementation") ∧
  (@initialize toy toy_tm (toy_factory toy8) region_cpp).2 = region_cpp.
Proof.
  assert ((@initialize toy toy_tm (toy_factory toy8) region_cpp).1 =
            Raise (Exception "Unknown temporal memory implementation")) as Hr
    by (by vm_compute).
  split; [exact Hr|].
  exact (@initialize_raises_without_change toy toy_tm (toy_factory toy8)
           region_cpp _ _ (run_Raise _ _ _ Hr)).
Defined.

Lemma first_step_predicts_nothing_witness :
  ∃ b,
    region8 !! "_tm"%string = Some (PyTM b) ∧
    ∀ inputs outs w',
      buffers_ready (numberOfCells b) outs →
      @compute toy toy_tm inputs (World region8 outs) = (Ok tt, w') →
      outputs w' !! "predictedActiveCells"%string =
        Some (np_zeros (numberOfCells b)).
Proof.
  apply (@first_step_predicts_nothing toy toy_tm (toy_factory toy8)
           region_fresh region8); [by vm_compute | apply region8_run].
Defined.

(** ** Steps that raise *)

Section StepRaises.
Context {B : Type} `{!TemporalMemory B} `{!Factory B}.
Implicit Types o : gmap string (pyval B).
Implicit Types w : TMRegion.world B.
Implicit Types inputs : gmap string ndarray.

Import TMRegion.

Lemma np_put_out_of_range cells v (a : ndarray) :
  ¬ Forall (fun i => i < length a) cells → np_put cells v a = Raise IndexError.
Proof.
  intros Hr. unfold np_put.
  destruct (forallb _ cells) eqn:E; [|done]. destruct Hr.
  apply Forall_forall. intros i Hi%list_elem_of_In.
  rewrite forallb_forall in E. by apply Nat.ltb_lt, E.
Qed.

Lemma update_array_Raise name f o (a : ndarray) e :
  o !! name = Some (PyArray a) → f a = Raise e →
  update_array name f o = (Raise e, o).
Proof.
  intros Ha Hf. unfold update_array.
  erewrite bind_Ok; [|by apply get_array_Some].
  unfold bind, of_result. by rewrite Hf.
Qed.

(** X7.  Without a feed-forward input a step raises KeyError at its first
    statement, whatever the region is, and changes nothing. *)
Theorem step_without_bottomUpIn_raises inputs w :
  inputs !! "bottomUpIn"%string = None →
  compute inputs w = (Raise (KeyError "bottomUpIn"), w).
Proof. intros Hx. unfold compute, tm_step, input. by rewrite Hx. Qed.

(** X8.  A step on a region that has not been initialised (its backend is
    still None) raises AttributeError where it first uses the backend, and
    changes neither the region nor the outputs. *)
Theorem step_before_initialize_raises inputs w x :
  inputs !! "bottomUpIn"%string = Some x →
  self w !! "_tm"%string = Some PyNone →
  compute inputs w = (Raise (AttributeError "compute"), w).
Proof.
  intros Hx Htm. unfold compute.
  erewrite bind_Raise; [reflexivity|]. unfold tm_step, input. rewrite Hx.
  unfold bind at 1, ret at 1. erewrite bind_Raise; [reflexivity|].
  apply on_self_same. unfold with_tm.
  by rewrite (bind_Ok _ _ _ _ _ (getattr_Some _ _ _ Htm)).
Qed.

(** X9.  An exception of the backend's own compute is the outcome of the
    step: the region keeps the backend as the failed call left it, and
    neither the two vectors nor any output is touched. *)
Theorem backend_failure_propagates inputs w x b learn fic e b1 :
  inputs !! "bottomUpIn"%string = Some x →
  self w !! "_tm"%string = Some (PyTM b) →
  self w !! "learningMode"%string = Some learn →
  self w !! "formInternalConnections"%string = Some fic →
  tm_compute (backend_call inputs x learn fic b) b = (Raise e, b1) →
  compute inputs w =
  (Raise e, World (<["_tm"%string:=PyTM b1]> (self w)) (outputs w)).
Proof.
  intros Hx Hb Hl Hf Hcall. unfold compute.
  rewrite bind_run, (tm_step_backend_call _ _ _ _ _ _ Hx Hb Hl Hf), Hcall.
  reflexivity.
Qed.

(** X10.  When the backend reports an active cell outside the region's
    vectors, the step raises IndexError after it has cleared activeState:
    the region is left with the advanced backend, a zero activeState and its
    old previouslyPredictedCells, and no output has been written. *)
Theorem active_cell_out_of_range_raises n inputs w x b learn fic b1 :
  region_ready n (self w) →
  inputs !! "bottomUpIn"%string = Some x →
  self w !! "_tm"%string = Some (PyTM b) →
  self w !! "learningMode"%string = Some learn →
  self w !! "formInternalConnections"%string = Some fic →
  tm_compute (backend_call inputs x learn fic b) b = (Ok tt, b1) →
  ¬ Forall (fun i => i < n) (getActiveCells b1) →
  compute inputs w =
  (Raise IndexError,
   World (<["activeState"%string:=PyArray (np_zeros n)]>
            (<["_tm"%string:=PyTM b1]> (self w))) (outputs w)).
Proof.
  intros (_ & (a & Ha & La) & _) Hx Hb Hl Hf Hcall Hout. unfold compute.
  rewrite bind_run, (tm_step_backend_call _ _ _ _ _ _ Hx Hb Hl Hf), Hcall.
  simpl. erewrite bind_Raise; [reflexivity|].
  refine (on_self_run _ (World _ _) _ _ _). simpl. unfold update_state.
  erewrite bind_Ok;
    [|eapply update_array_Some; [by rewrite lookup_insert_ne|reflexivity]].
  erewrite bind_Ok;
    [|apply with_tm_Some; by rewrite lookup_insert_ne, lookup_insert_eq].
  rewrite np_fill_zeros, La.
  erewrite bind_Raise; [reflexivity|].
  eapply update_array_Raise; [apply lookup_insert_eq|].
  apply np_put_out_of_range. by rewrite length_np_zeros.
Qed.

(** X11.  When the active cells are in range and a predictive cell is not,
    the step raises IndexError after it has cleared
    previouslyPredictedCells: activeState holds this step's active cells,
    the predictions of the step before are lost, and no output has been
    written. *)
Theorem predictive_cell_out_of_range_raises n inputs w x b learn fic b1 :
  region_ready n (self w) →
  inputs !! "bottomUpIn"%string = Some x →
  self w !! "_tm"%string = Some (PyTM b) →
  self w !! "learningMode"%string = Some learn →
  self w !! "formInternalConnections"%string = Some fic →
  tm_compute (backend_call inputs x learn fic b) b = (Ok tt, b1) →
  Forall (fun i => i < n) (getActiveCells b1) →
  ¬ Forall (fun i => i < n) (getPredictiveCells b1) →
  compute inputs w =
  (Raise IndexError,
   World (<["previouslyPredictedCells"%string:=PyArray (np_zeros n)]>
            (<["activeState"%string:=PyArray (mask n (getActiveCells b1))]>
               (<["_tm"%string:=PyTM b1]> (self w)))) (outputs w)).
Proof.
  intros (_ & (a & Ha & La) & (p & Hp & Lp)) Hx Hb Hl Hf Hcall Hact Hout.
  unfold compute.
  rewrite bind_run, (tm_step_backend_call _ _ _ _ _ _ Hx Hb Hl Hf), Hcall.
  simpl. erewrite bind_Raise; [reflexivity|].
  refine (on_self_run _ (World _ _) _ _ _). simpl. unfold update_state. subst n.
  erewrite bind_Ok;
    [|eapply update_array_Some; [by rewrite lookup_insert_ne|reflexivity]].
  erewrite bind_Ok;
    [|apply with_tm_Some; by rewrite lookup_insert_ne, lookup_insert_eq].
  erewrite bind_Ok;
    [|eapply update_array_Some;
      [apply lookup_insert_eq | by apply np_put_fill_in_range]].
  rewrite insert_insert_eq.
  erewrite bind_Ok; [|by apply get_array_Some, lookup_insert_eq].
  erewrite bind_Ok; [|by apply get_array_Some; rewrite !lookup_insert_ne].
  rewrite bind_run. unfold of_result.
  rewrite np_mul_same_length by (by rewrite length_mask).
  erewrite bind_Ok;
    [|eapply update_array_Some; [by rewrite !lookup_insert_ne|reflexivity]].
  erewrite bind_Ok;
    [|apply with_tm_Some; rewrite !lookup_insert_ne by done;
      apply lookup_insert_eq].
  rewrite np_fill_zeros, Lp.
  erewrite bind_Raise; [reflexivity|].
  eapply update_array_Raise; [apply lookup_insert_eq|].
  apply np_put_out_of_range. by rewrite length_np_zeros.
Qed.

(** X12.  When the activeCells buffer has neither the length of the
    region's vectors nor are those of one element, the step raises
    ValueError at its first output assignment: the region has by then taken
    the whole step (backend, activeState, previouslyPredictedCells) and no
    output has been written. *)
Theorem output_buffer_mismatch_raises n inputs w x b learn fic b1 d :
  region_ready n (self w) →
  inputs !! "bottomUpIn"%string = Some x →
  self w !! "_tm"%string = Some (PyTM b) →
  self w !! "learningMode"%string = Some learn →
  self w !! "formInternalConnections"%string = Some fic →
  tm_compute (backend_call inputs x learn fic b) b = (Ok tt, b1) →
  Forall (fun i => i < n) (getActiveCells b1) →
  Forall (fun i => i < n) (getPredictiveCells b1) →
  outputs w !! "activeCells"%string = Some d →
  length d ≠ n → n ≠ 1 →
  compute inputs w =
  (Raise ValueError,
   World (<["previouslyPredictedCells"%string:=
              PyArray (mask n (getPredictiveCells b1))]>
            (<["activeState"%string:=PyArray (mask n (getActiveCells b1))]>
               (<["_tm"%string:=PyTM b1]> (self w)))) (outputs w)).
Proof.
  intros (_ & (a & Ha & La) & (p & Hp & Lp)) Hx Hb Hl Hf Hcall Hact Hpred
    Hd Ld Hn.
  unfold compute.
  rewrite bind_run, (tm_step_backend_call _ _ _ _ _ _ Hx Hb Hl Hf), Hcall.
  simpl.
  erewrite bind_Ok;
    [|apply on_self_run; simpl;
      by apply (update_state_run n _ b1 a p);
        rewrite ?lookup_insert_eq, ?lookup_insert_ne by done].
  simpl. erewrite bind_Raise; [reflexivity|].
  unfold write_outputs.
  erewrite bind_Ok;
    [|apply on_self_same, get_array_Some; simpl;
      by rewrite lookup_insert_ne, lookup_insert_eq].
  erewrite bind_Raise; [reflexivity|].
  unfold assign_output. simpl. rewrite Hd. unfold np_assign.
  rewrite length_mask.
  assert ((n =? length d)%nat = false) as -> by (apply Nat.eqb_neq; congruence).
  pose proof (length_mask n (getActiveCells b1)) as Lm.
  destruct (mask n (getActiveCells b1)) as [|v [|]]; simpl in Lm;
    [done | congruence | done].
Qed.

End StepRaises.

Lemma step_without_bottomUpIn_raises_witness :
  compute ∅ world8 = (Raise (KeyError "bottomUpIn"), world8).
Proof. apply step_without_bottomUpIn_raises. reflexivity. Defined.

Lemma step_before_initialize_raises_witness :
  compute in_cols02 world_fresh =
  (Raise (AttributeError "compute"), world_fresh).
Proof.
  apply (step_before_initialize_raises in_cols02 world_fresh [1; 0; 1; 0]%Z);
    [reflexivity | by vm_compute].
Defined.

Lemma backend_failure_propagates_witness :
  compute in_cols02 world_faulty =
  (Raise (Exception "backend failure"),
   World (<["_tm"%string:=PyTM (Faulty 1)]> (self world_faulty))
     (outputs world_faulty)).
Proof.
  apply (backend_failure_propagates in_cols02 world_faulty [1; 0; 1; 0]%Z
           (Faulty 0) (PyBool true) (PyBool true));
    [reflexivity | by vm_compute | by vm_compute | by vm_compute
    | reflexivity].
Defined.

Lemma region8_wild_ready : region_ready 8 region8_wild.
Proof.
  split_and!; [exists toy8_wild | exists (np_zeros 8) | exists (np_zeros 8)];
    by vm_compute.
Qed.

Lemma region8_stray_ready : region_ready 8 region8_stray.
Proof.
  split_and!; [exists toy8_stray | exists (np_zeros 8) | exists (np_zeros 8)];
    by vm_compute.
Qed.

Lemma active_cell_out_of_range_raises_witness :
  compute in_cols02 world8_wild =
  (Raise IndexError,
   World (<["activeState"%string:=PyArray (np_zeros 8)]>
            (<["_tm"%string:=PyTM toy8_wild_after1]> (self world8_wild)))
     (outputs world8_wild)).
Proof.
  apply (active_cell_out_of_range_raises 8 in_cols02 world8_wild
           [1; 0; 1; 0]%Z toy8_wild (PyBool true) (PyBool true)
           toy8_wild_after1 region8_wild_ready);
    [reflexivity | by vm_compute | by vm_compute | by vm_compute
    | reflexivity |].
  simpl. intros [Hlt _]%Forall_cons_1. lia.
Defined.

Lemma predictive_cell_out_of_range_raises_witness :
  compute in_cols02 world8_stray =
  (Raise IndexError,
   World (<["previouslyPredictedCells"%string:=PyArray (np_zeros 8)]>
            (<["activeState"%string:=
                 PyArray (mask 8 (getActiveCells toy8_stray_after1))]>
               (<["_tm"%string:=PyTM toy8_stray_after1]>
                  (self world8_stray)))) (outputs world8_stray)).
Proof.
  apply (predictive_cell_out_of_range_raises 8 in_cols02 world8_stray
           [1; 0; 1; 0]%Z toy8_stray (PyBool true) (PyBool true)
           toy8_stray_after1 region8_stray_ready);
    [reflexivity | by vm_compute | by vm_compute | by vm_compute
    | reflexivity | simpl; repeat constructor |].
  simpl. intros [Hlt _]%Forall_cons_1. lia.
Defined.

Lemma output_buffer_mismatch_raises_witness :
  compute in_cols02 world8_short =
  (Raise ValueError,
   World (<["previouslyPredictedCells"%string:=
              PyArray (mask 8 (getPredictiveCells toy8_after1))]>
            (<["activeState"%string:=
                 PyArray (mask 8 (getActiveCells toy8_after1))]>
               (<["_tm"%string:=PyTM toy8_after1]> (self world8_short))))
     (outputs world8_short)).
Proof.
  apply (output_buffer_mismatch_raises 8 in_cols02 world8_short
           [1; 0; 1; 0]%Z toy8 (PyBool true) (PyBool true) toy8_after1
           (np_zeros 4) region8_ready);
    [reflexivity | by vm_compute | by vm_compute | by vm_compute
    | apply run_Ok; reflexivity | vm_compute; repeat constructor
    | vm_compute; repeat constructor | by vm_compute | simpl; lia | lia].
Defined.

(** ** What a step depends on and what it leaves alone *)

Section Simulation.
Context {S : Type}.

Lemma simulates_bind {A C} (R : relation S) (m m' : M S A)
    (f f' : A -> M S C) :
  simulates R m m' → (∀ a, simulates R (f a) (f' a)) →
  simulates R (bind m f) (bind m' f').
Proof.
  intros Hm Hf s s' HR. unfold bind. destruct (Hm s s' HR) as [E1 R1].
  destruct (m s) as [[a|e] s1], (m' s') as [[a'|e'] s1']; simpl in *;
    simplify_eq; [by apply Hf | by split].
Qed.

Lemma simulates_ret {A} (R : relation S) (a : A) : simulates R (ret a) (ret a).
Proof. by intros s s' HR. Qed.

Lemma simulates_raise {A} (R : relation S) e :
  simulates R (raise (A:=A) e) (raise e).
Proof. by intros s s' HR. Qed.

Lemma simulates_of_result {A} (R : relation S) (r : result A) :
  simulates R (of_result r) (of_result r).
Proof. by intros s s' HR. Qed.

End Simulation.

Section AttributeSimulation.
Context {B : Type} `{!TemporalMemory B} `{!Factory B}.
Implicit Types o : gmap string (pyval B).
Implicit Types w : TMRegion.world B.
Implicit Types inputs : gmap string ndarray.

Import TMRegion.

Lemma simulates_getattr k (v : pyval B) name :
  name ≠ k → simulates (with_attr k v) (getattr name) (getattr name).
Proof.
  intros Hne o o' ->. unfold getattr. rewrite lookup_insert_ne by done.
  by destruct (o !! name).
Qed.

Lemma simulates_setattr k (v : pyval B) name x :
  name ≠ k → simulates (with_attr k v) (setattr name x) (setattr name x).
Proof.
  intros Hne o o' ->. unfold setattr, with_attr. simpl.
  split; [done | by apply insert_insert_ne].
Qed.

Lemma simulates_get_array k (v : pyval B) name :
  name ≠ k → simulates (with_attr k v) (get_array name) (get_array name).
Proof.
  intros Hne. unfold get_array.
  apply simulates_bind; [by apply simulates_getattr|].
  intros []; by (apply simulates_ret || apply simulates_raise).
Qed.

Lemma simulates_update_array k (v : pyval B) name f :
  name ≠ k →
  simulates (with_attr k v) (update_array name f) (update_array name f).
Proof.
  intros Hne. unfold update_array.
  apply simulates_bind; [by apply simulates_get_array|]. intros a.
  apply simulates_bind; [apply simulates_of_result|]. intros a'.
  by apply simulates_setattr.
Qed.

Lemma simulates_with_tm {A} k (v : pyval B) method (f : B -> A) :
  "_tm"%string ≠ k →
  simulates (with_attr k v) (with_tm method f) (with_tm method f).
Proof.
  intros Hne. unfold with_tm.
  apply simulates_bind; [by apply simulates_getattr|].
  intros []; by (apply simulates_ret || apply simulates_raise).
Qed.

Lemma simulates_call_tm k (v : pyval B) method (f : M B unit) :
  "_tm"%string ≠ k →
  simulates (with_attr k v) (call_tm method f) (call_tm method f).
Proof.
  intros Hne. unfold call_tm.
  apply simulates_bind; [by apply simulates_getattr|].
  intros []; try apply simulates_raise.
  intros o o' ->. destruct (f tm) as [r b']. simpl.
  split; [done | by apply insert_insert_ne].
Qed.

Lemma simulates_on_self {A} k (v : pyval B)
    (m : M (gmap string (pyval B)) A) :
  simulates (with_attr k v) m m →
  simulates (self_with_attr k v) (on_self m) (on_self m).
Proof.
  intros Hm w w' [Hs Ho]. unfold on_self.
  destruct (Hm (self w) (self w') Hs) as [E1 R1].
  destruct (m (self w)) as [r o1], (m (self w')) as [r' o1']. simpl in *.
  by split; [|split].
Qed.

Lemma simulates_assign_output k (v : pyval B) name src :
  simulates (self_with_attr k v) (assign_output name src)
    (assign_output name src).
Proof.
  intros w w' [Hs Ho]. unfold assign_output. rewrite Ho.
  destruct (outputs w !! name) as [dst|]; [|by split].
  destruct (np_assign src dst); simpl; [|by split].
  split; [done|]. by split.
Qed.

Lemma simulates_input k (v : pyval B) inputs name :
  simulates (self_with_attr k v) (input inputs name) (input inputs name).
Proof.
  unfold input. destruct (inputs !! name);
    by (apply simulates_ret || apply simulates_raise).
Qed.

Lemma simulates_reset k (v : pyval B) :
  "_tm"%string ≠ k → "previouslyPredictedCells"%string ≠ k →
  simulates (with_attr k v) reset reset.
Proof.
  intros H1 H2. unfold reset.
  apply simulates_bind; [by apply simulates_getattr|].
  intros []; try apply simulates_ret;
    (apply simulates_bind;
     [by apply simulates_call_tm | intros _; by apply simulates_update_array]).
Qed.

(** A step on a region with one more (or one changed) attribute, not among
    those a step reads, runs in lockstep with the step on the region
    itself. *)
Lemma compute_simulates k (v : pyval B) inputs :
  k ∉ compute_reads →
  simulates (self_with_attr k v) (compute inputs) (compute inputs).
Proof.
  intros Hk.
  assert ("_tm"%string ≠ k ∧ "formInternalConnections"%string ≠ k ∧
          "learningMode"%string ≠ k ∧ "activeState"%string ≠ k ∧
          "previouslyPredictedCells"%string ≠ k ∧
          "defaultOutputType"%string ≠ k) as (H1 & H2 & H3 & H4 & H5 & H6).
  { unfold compute_reads in Hk.
    split_and!; intros <-; apply Hk; repeat constructor. }
  unfold compute, tm_step, update_state, write_outputs, select_default,
    handle_reset.
  repeat match goal with
    | |- simulates _ (bind _ _) (bind _ _) =>
        apply simulates_bind; [|intros ?]
    | |- simulates _ (if ?c then _ else _) _ => destruct c
    | |- simulates _ (match ?x with _ => _ end) _ => destruct x
    | |- simulates _ (on_self _) _ => apply simulates_on_self
    end;
    first
      [ apply simulates_ret | apply simulates_raise
      | apply simulates_of_result | apply simulates_input
      | apply simulates_assign_output
      | by apply simulates_getattr | by apply simulates_get_array
      | by apply simulates_update_array | by apply simulates_with_tm
      | by apply simulates_call_tm | by apply simulates_reset ].
Qed.

Lemma setParameter_Ok_inv name index v o o' :
  setParameter name index v o = (Ok tt, o') →
  (name ∈ coerced_parameters ∧
   ∃ b, py_bool v = Ok b ∧ o' = <[name:=PyBool b]> o) ∨
  ((name ∉ coerced_parameters) ∧ is_Some (o !! name) ∧ o' = <[name:=v]> o).
Proof.
  unfold setParameter, coerced_parameters. case_bool_decide as Hn.
  - intros H'. apply bind_Ok_inv in H' as (b & o1 & [Hb ->]%of_result_Ok_inv & H').
    unfold setattr in H'. injection H' as <-. left. eauto.
  - unfold bind, gets, hasattr. case_bool_decide as Hk; [|discriminate].
    unfold setattr. intros [= <-]. by right.
Qed.

(** X13.  A step writes no output buffer the region does not declare:
    whatever happens, returning or raising, a buffer whose name is not among
    the four outputs of [getSpec] holds after the step what it held
    before. *)
Theorem step_writes_only_declared_outputs name inputs w :
  name ∉ getSpec_outputs →
  outputs (compute inputs w).2 !! name = outputs w !! name.
Proof.
  intros Hn.
  assert ("bottomUpOut"%string ≠ name ∧ "predictiveCells"%string ≠ name ∧
          "predictedActiveCells"%string ≠ name ∧
          "activeCells"%string ≠ name) as (H1 & H2 & H3 & H4).
  { unfold getSpec_outputs in Hn.
    split_and!; intros <-; apply Hn; repeat constructor. }
  assert (preserves (output_kept name) (compute (B:=B) inputs)) as Hp.
  { unfold compute, tm_step, write_outputs, select_default, handle_reset.
    frames. }
  apply Hp.
Qed.

(** X14.  A step looks up four inputs and no other: two input dictionaries
    that agree on bottomUpIn, externalInput, topDownIn and resetIn give the
    same outcome and the same state.  In particular the declared input
    sequenceIdIn is never read. *)
Theorem step_reads_only_four_inputs inputs inputs' w :
  (∀ k, k ∈ compute_inputs → inputs' !! k = inputs !! k) →
  compute inputs' w = compute inputs w.
Proof.
  intros Hk. unfold compute, tm_step, handle_reset, input.
  rewrite (Hk "bottomUpIn"%string), (Hk "externalInput"%string),
    (Hk "topDownIn"%string), (Hk "resetIn"%string);
    [reflexivity|..]; unfold compute_inputs; repeat constructor.
Qed.

(** X15.  A backend whose compute declares at most three arguments is
    never handed the external and the apical input: with such a backend two
    input dictionaries that agree on bottomUpIn and resetIn give the same
    outcome and the same state. *)
Theorem plain_backend_ignores_lateral_inputs inputs inputs' w b :
  self w !! "_tm"%string = Some (PyTM b) →
  compute_args b ≤ 3 →
  inputs' !! "bottomUpIn"%string = inputs !! "bottomUpIn"%string →
  inputs' !! "resetIn"%string = inputs !! "resetIn"%string →
  compute inputs' w = compute inputs w.
Proof.
  intros Hb Hargs Hbu Hre.
  assert (∀ ins, tm_step ins w =
            match ins !! "bottomUpIn"%string with
            | Some x =>
                (let* learn := on_self (getattr "learningMode") in
                 on_self (call_tm "compute"
                            (tm_compute (ComputeBasic (active_set x) learn))))
                  w
            | None => (Raise (KeyError "bottomUpIn"), w)
            end) as Hstep.
  { intros ins. unfold tm_step, input.
    destruct (ins !! "bottomUpIn"%string) as [x|]; [|reflexivity].
    unfold bind at 1. unfold ret at 1.
    erewrite bind_Ok; [|by apply on_self_same, with_tm_Some].
    assert ((3 <? compute_args b)%nat = false) as ->
      by (apply Nat.ltb_ge; lia).
    reflexivity. }
  unfold compute, handle_reset. rewrite !bind_run, !Hstep, Hbu, Hre.
  reflexivity.
Qed.

(** X16.  A step looks up seven names on the region (the backend, the two
    vectors, learningMode, formInternalConnections, defaultOutputType and
    the method reset) and no other: giving an attribute of any other name a
    new value changes neither the outcome of the step nor the outputs, and
    the region the step leaves differs by that attribute alone. *)
Theorem step_ignores_other_attributes k v inputs w :
  k ∉ compute_reads →
  (compute inputs (World (<[k:=v]> (self w)) (outputs w))).1 =
    (compute inputs w).1 ∧
  outputs (compute inputs (World (<[k:=v]> (self w)) (outputs w))).2 =
    outputs (compute inputs w).2 ∧
  self (compute inputs (World (<[k:=v]> (self w)) (outputs w))).2 =
    <[k:=v]> (self (compute inputs w).2).
Proof.
  intros Hk.
  destruct (compute_simulates k v inputs Hk w
              (World (<[k:=v]> (self w)) (outputs w))) as (E & Hs & Ho);
    [by split|].
  by split_and!.
Qed.


(** X18.  On an initialised region [reset] returns; it leaves the region
    initialised with the same vector length, zeroes
    previouslyPredictedCells, and keeps activeState and every configuration
    field as they were. *)
Theorem reset_keeps_region_initialised n o :
  region_ready n o →
  ∃ o',
    reset o = (Ok tt, o') ∧
    region_ready n o' ∧
    o' !! "previouslyPredictedCells"%string = Some (PyArray (np_zeros n)) ∧
    o' !! "activeState"%string = o !! "activeState"%string ∧
    config_kept o o'.
Proof.
  intros ([b Hb] & (a & Ha & La) & (p & Hp & Lp)).
  eexists. split; [by apply (reset_run _ b p)|].
  split_and!.
  - split_and!.
    + exists (tm_reset b). rewrite lookup_insert_ne by done.
      apply lookup_insert_eq.
    + exists a. by rewrite !lookup_insert_ne.
    + exists (np_zeros (length p)).
      split; [apply lookup_insert_eq | by rewrite length_np_zeros].
  - by rewrite lookup_insert_eq, Lp.
  - by rewrite !lookup_insert_ne.
  - intros k Hk. unfold runtime_attrs in Hk.
    rewrite !lookup_insert_ne; [done|intros <-..]; apply Hk; repeat constructor.
Qed.

End AttributeSimulation.

Lemma step_writes_only_declared_outputs_witness :
  outputs (compute in_cols02 world8).2 !! "anomalyScore"%string =
  outputs world8 !! "anomalyScore"%string.
Proof. apply step_writes_only_declared_outputs. not_listed. Defined.

Lemma step_reads_only_four_inputs_witness :
  compute (<["sequenceIdIn"%string:=[5%Z]]> in_cols02) world8 =
  compute in_cols02 world8.
Proof.
  apply step_reads_only_four_inputs. intros k Hk.
  apply lookup_insert_ne. intros <-. revert Hk. not_listed.
Defined.

Lemma plain_backend_ignores_lateral_inputs_witness :
  compute (<["externalInput"%string:=[1; 1]%Z]> in_cols02) world8 =
  compute in_cols02 world8.
Proof.
  apply (plain_backend_ignores_lateral_inputs in_cols02
           (<["externalInput"%string:=[1; 1]%Z]> in_cols02) world8 toy8);
    [by vm_compute | simpl; lia | reflexivity | reflexivity].
Defined.

Lemma step_ignores_other_attributes_witness :
  (compute in_cols02
     (World (<["cellsPerColumn"%string:=PyInt 99]> (self world8))
        (outputs world8))).1 =
    (compute in_cols02 world8).1 ∧
  outputs
    (compute in_cols02
       (World (<["cellsPerColumn"%string:=PyInt 99]> (self world8))
          (outputs world8))).2 =
    outputs (compute in_cols02 world8).2 ∧
  self
    (compute in_cols02
       (World (<["cellsPerColumn"%string:=PyInt 99]> (self world8))
          (outputs world8))).2 =
    <["cellsPerColumn"%string:=PyInt 99]> (self (compute in_cols02 world8).2).
Proof. apply step_ignores_other_attributes. not_listed. Defined.


Lemma reset_keeps_region_initialised_witness :
  ∃ o',
    reset region8 = (Ok tt, o') ∧
    region_ready 8 o' ∧
    o' !! "previouslyPredictedCells"%string = Some (PyArray (np_zeros 8)) ∧
    o' !! "activeState"%string = region8 !! "activeState"%string ∧
    config_kept region8 o'.
Proof. exact (reset_keeps_region_initialised 8 region8 region8_ready). Defined.

(** ** Parameters of TMRegion *)

(** Membership in a list of names written out in full. *)
Ltac listed := apply (bool_decide_unpack _); vm_compute; exact I.

Section ParameterFacts.
Context {B : Type} `{!TemporalMemory B} `{!Factory B}.
Implicit Types o : gmap string (pyval B).
Implicit Types w : TMRegion.world B.
Implicit Types inputs : gmap string ndarray.

Import TMRegion.

Lemma Ok_inj {A} (x y : A) : Ok x = Ok y → x = y.
Proof. congruence. Qed.

Lemma setParameter_coerced name index v o b :
  name ∈ coerced_parameters → py_bool v = Ok b →
  setParameter name index v o = (Ok tt, <[name:=PyBool b]> o).
Proof.
  intros Hn Hb. unfold setParameter, coerced_parameters in *.
  rewrite bool_decide_eq_true_2 by done. unfold bind, of_result.
  by rewrite Hb.
Qed.

Lemma setParameter_attribute name index v o :
  name ∉ coerced_parameters → is_Some (o !! name) →
  setParameter name index v o = (Ok tt, <[name:=v]> o).
Proof.
  intros Hn Hk. unfold setParameter, coerced_parameters in *.
  rewrite bool_decide_eq_false_2 by done. unfold bind, gets, hasattr.
  by rewrite bool_decide_eq_true_2.
Qed.

Lemma init_Ok_inv (a : init_args B) o :
  __init__ a = Ok o →
  ∃ one fic,
    o = list_to_map
        [ ("columnCount", columnCount a);
          ("cellsPerColumn", cellsPerColumn a);
          ("activationThreshold", activationThreshold a);
          ("initialPermanence", initialPermanence a);
          ("connectedPermanence", connectedPermanence a);
          ("minThreshold", minThreshold a);
          ("maxNewSynapseCount", maxNewSynapseCount a);
          ("permanenceIncrement", permanenceIncrement a);
          ("permanenceDecrement", permanenceDecrement a);
          ("predictedSegmentDecrement", predictedSegmentDecrement a);
          ("seed", seed a);
          ("learnOnOneCell", PyBool one);
          ("learningMode", PyBool true);
          ("inferenceMode", PyBool true);
          ("temporalImp", temporalImp a);
          ("formInternalConnections", PyBool fic);
          ("defaultOutputType", defaultOutputType a);
          ("_tm", PyNone) ]%string.
Proof.
  unfold __init__.
  destruct (py_bool (learnOnOneCell a)) as [one|]; [|discriminate].
  destruct (py_bool (formInternalConnections a)) as [fic|]; [|discriminate].
  intros Ho. exists one, fic. symmetry. exact (Ok_inj _ _ Ho).
Qed.


Lemma setParameter_Raise_same name index v o e o' :
  setParameter name index v o = (Raise e, o') → o' = o.
Proof.
  unfold setParameter. case_bool_decide as Hn.
  - unfold bind, of_result, setattr. destruct (py_bool v) as [b|e'];
      [discriminate | by intros [= _ <-]].
  - unfold bind, gets, hasattr, setattr, raise.
    case_bool_decide as Hk; [discriminate | by intros [= _ <-]].
Qed.


Lemma attr_kept_setattr k name (v : pyval B) :
  name ≠ k → preserves (attr_kept k) (setattr name v).
Proof. intros Hne o. unfold setattr, attr_kept. simpl. by apply lookup_insert_ne. Qed.

(** [initialize] assigns the backend and the two vectors, nothing else. *)
Lemma attr_kept_initialize k :
  k ∉ runtime_attrs → preserves (attr_kept k) (initialize (B:=B)).
Proof.
  intros Hk.
  assert ("_tm"%string ≠ k ∧ "activeState"%string ≠ k ∧
          "previouslyPredictedCells"%string ≠ k) as (H1 & H2 & H3).
  { unfold runtime_attrs in Hk.
    split_and!; intros <-; apply Hk; repeat constructor. }
  pose proof (attr_kept_setattr k "_tm") as S1.
  pose proof (attr_kept_setattr k "activeState") as S2.
  pose proof (attr_kept_setattr k "previouslyPredictedCells") as S3.
  unfold initialize. frames.
Qed.

(** X21.  The three flags learningMode, inferenceMode and
    formInternalConnections hold booleans on every state the region goes
    through: the constructor leaves booleans, and [setParameter], [compute],
    [reset] and [initialize] keep them booleans whether they return or
    raise. *)
Theorem flags_stay_boolean :
  (∀ (a : init_args B) o, __init__ a = Ok o → flags_boolean o) ∧
  (∀ name index v o,
     flags_boolean o → flags_boolean (setParameter name index v o).2) ∧
  (∀ inputs w,
     flags_boolean (self w) → flags_boolean (self (compute inputs w).2)) ∧
  (∀ o, flags_boolean o → flags_boolean (reset o).2) ∧
  (∀ o, flags_boolean o → flags_boolean (initialize o).2).
Proof.
  assert (∀ o o', config_kept o o' → flags_boolean o → flags_boolean o')
    as Hkept.
  { intros o o' Hc Hf k Hk. rewrite Hc; [by apply Hf|].
    revert Hk. unfold coerced_parameters, runtime_attrs. intros Hk Hr.
    repeat (apply elem_of_cons in Hk as [->|Hk]; [revert Hr; not_listed|]).
    by apply elem_of_nil in Hk. }
  split_and!.
  - intros a o (one & fic & ->)%init_Ok_inv k Hk.
    unfold coerced_parameters in Hk.
    repeat (apply elem_of_cons in Hk as [->|Hk]; [eexists; reflexivity|]).
    by apply elem_of_nil in Hk.
  - intros name index v o Hf k Hk.
    destruct (setParameter name index v o) as [[[]|e] o'] eqn:E; simpl.
    + apply setParameter_Ok_inv in E as [(Hn & b & Hb & ->) | (Hn & _ & ->)].
      * destruct (decide (k = name)) as [->|Hne].
        -- exists b. apply lookup_insert_eq.
        -- rewrite lookup_insert_ne by done. by apply Hf.
      * rewrite lookup_insert_ne by (by intros <-). by apply Hf.
    + apply setParameter_Raise_same in E as ->. by apply Hf.
  - intros inputs w. apply Hkept, (self_frame_compute inputs w).
  - intros o. apply Hkept, (frame_reset o).
  - intros o. apply Hkept. intros k Hk. by apply attr_kept_initialize.
Qed.

(** X22.  The constructor and the parameter table agree but for two names:
    after [__init__] the region's attributes are exactly the parameters
    [getSpec] declares, without inputWidth, and the backend slot [_tm].
    Hence every parameter declared ReadWrite can be set on a constructed
    region: [setParameter] returns for it, with any value whose truth value
    exists, and the attribute then holds the value or, for a coerced flag,
    its truth value. *)
Theorem TMRegion_constructor_sets_declared_parameters (a : init_args B) o :
  __init__ a = Ok o →
  (∀ k, is_Some (o !! k) ↔
        (k ∈ declared getSpec_parameters ∧ k ≠ "inputWidth"%string) ∨
        k = "_tm"%string) ∧
  (∀ p index v b,
     p ∈ getSpec_parameters → accessMode p = ReadWrite →
     py_bool v = Ok b →
     ∃ o', setParameter (param_name p) index v o = (Ok tt, o') ∧
           (o' !! param_name p = Some v ∨
            o' !! param_name p = Some (PyBool b))).
Proof.
  intros (one & fic & ->)%init_Ok_inv.
  match goal with |- ?P ∧ _ => assert P as Hkeys end.
  { intros k.
    rewrite <- not_eq_None_Some, <- not_elem_of_list_to_map.
    split.
    - intros Hk. apply dec_stable in Hk. simpl in Hk.
      repeat (apply elem_of_cons in Hk as [->|Hk];
              [first [by right | left; split; [listed | done]]|]).
      by apply elem_of_nil in Hk.
    - intros [[Hk Hne] | ->] Hnot; apply Hnot; [|listed].
      unfold declared, getSpec_parameters in Hk. simpl in Hk.
      repeat (apply elem_of_cons in Hk as [->|Hk]; [first [done | listed]|]).
      by apply elem_of_nil in Hk. }
  split; [exact Hkeys|].
  intros p index v b Hp Hrw Hb.
  assert (param_name p ≠ "inputWidth"%string) as Hne.
  { unfold getSpec_parameters in Hp.
    repeat (apply elem_of_cons in Hp as [->|Hp];
            [first [discriminate Hrw | done]|]).
    by apply elem_of_nil in Hp. }
  assert (param_name p ∈ declared getSpec_parameters) as Hd
    by (by apply list_elem_of_fmap_2).
  pose proof (proj2 (Hkeys _) (or_introl (conj Hd Hne))) as Hattr.
  destruct (decide (param_name p ∈ coerced_parameters)) as [Hc|Hc].
  - eexists. split; [by apply setParameter_coerced|].
    right. apply lookup_insert_eq.
  - eexists. split; [by apply setParameter_attribute|].
    left. apply lookup_insert_eq.
Qed.

End ParameterFacts.

Section OutputCount.
Context {B : Type}.
Implicit Types o : gmap string (pyval B).
Variable py_mul : pyval B -> pyval B -> result (pyval B).

(** X23.  [getOutputElementCount] answers for exactly the four outputs
    [getSpec] declares, with the product of columnCount and cellsPerColumn
    as the region holds them at the time of the call (no backend is needed
    and its cell count is not consulted); for any other name it raises; in
    no case does it change the region. *)
Theorem getOutputElementCount_declared_outputs name o :
  (name ∈ TMRegion.getSpec_outputs →
   ∀ c p,
     o !! "columnCount"%string = Some c →
     o !! "cellsPerColumn"%string = Some p →
     TMRegion.getOutputElementCount py_mul name o = (py_mul c p, o)) ∧
  (name ∉ TMRegion.getSpec_outputs →
   TMRegion.getOutputElementCount py_mul name o =
   (Raise (Exception "Invalid output name specified"), o)) ∧
  (TMRegion.getOutputElementCount py_mul name o).2 = o.
Proof.
  unfold TMRegion.getOutputElementCount, TMRegion.getSpec_outputs.
  split_and!.
  - intros Hn c p Hc Hp. rewrite bool_decide_eq_true_2.
    + rewrite (bind_Ok _ _ _ _ _ (getattr_Some _ _ _ Hc)).
      by rewrite (bind_Ok _ _ _ _ _ (getattr_Some _ _ _ Hp)).
    + repeat (apply elem_of_cons in Hn as [->|Hn]; [listed|]).
      by apply elem_of_nil in Hn.
  - intros Hn. rewrite bool_decide_eq_false_2; [done|]. intros Hin. apply Hn.
    repeat (apply elem_of_cons in Hin as [->|Hin]; [listed|]).
    by apply elem_of_nil in Hin.
  - case_bool_decide; [|done]. unfold bind, getattr, of_result.
    repeat case_match; simplify_eq; done.
Qed.

End OutputCount.

Lemma region_fresh_run : __init__ args8 = Ok region_fresh.
Proof. reflexivity. Qed.



Lemma flags_stay_boolean_witness :
  flags_boolean region_fresh ∧
  flags_boolean (setParameter "learningMode" 0 (PyInt 0) region_fresh).2 ∧
  flags_boolean region8 ∧
  flags_boolean (self (compute in_cols02 world8).2) ∧
  flags_boolean (reset region8).2.
Proof.
  destruct (@flags_stay_boolean toy toy_tm (toy_factory toy8))
    as (Hinit & Hset & Hstep & Hreset & Hinitialize).
  pose proof (Hinit args8 region_fresh region_fresh_run) as Hfresh.
  pose proof (Hinitialize region_fresh Hfresh) as H8.
  split_and!.
  - exact Hfresh.
  - exact (Hset "learningMode"%string 0%Z (PyInt 0) region_fresh Hfresh).
  - exact H8.
  - exact (Hstep in_cols02 world8 H8).
  - exact (Hreset region8 H8).
Defined.

Lemma TMRegion_constructor_sets_declared_parameters_witness :
  (∀ k, is_Some (region_fresh !! k) ↔
        (k ∈ declared getSpec_parameters ∧ k ≠ "inputWidth"%string) ∨
        k = "_tm"%string) ∧
  (∀ p index v b,
     p ∈ getSpec_parameters → accessMode p = ReadWrite →
     py_bool v = Ok b →
     ∃ o', setParameter (param_name p) index v region_fresh = (Ok tt, o') ∧
           (o' !! param_name p = Some v ∨
            o' !! param_name p = Some (PyBool b))).
Proof.
  exact (TMRegion_constructor_sets_declared_parameters args8 region_fresh
           region_fresh_run).
Defined.

Lemma getOutputElementCount_declared_outputs_witness :
  getOutputElementCount int_mul "activeCells" region_fresh =
    (int_mul (PyInt 4) (PyInt 2), region_fresh) ∧
  getOutputElementCount int_mul "anomalyScore" region_fresh =
    (Raise (Exception "Invalid output name specified"), region_fresh).
Proof.
  split.
  - apply (getOutputElementCount_declared_outputs int_mul "activeCells"
             region_fresh); [listed | by vm_compute | by vm_compute].
  - apply (getOutputElementCount_declared_outputs int_mul "anomalyScore"
             region_fresh). not_listed.
Defined.

(** ** L2Column *)

Section LayerFacts.
Context {B : Type}.
Implicit Types o : gmap string (pyval B).
Variable py_mul : pyval B -> pyval B -> result (pyval B).



(** X25.  [L2Column.setParameter] is not all or nothing.  When the name is
    an attribute and the product of columnCount and cellsPerColumn, as they
    are after the assignment, raises, the call raises that exception with
    the new value stored and inputWidth still holding what it held. *)
Theorem L2Column_setParameter_partial_update name index v o c p e :
  name ∉ ["learningMode"; "inferenceMode"]%string →
  is_Some (o !! name) →
  <[name:=v]> o !! "columnCount"%string = Some c →
  <[name:=v]> o !! "cellsPerColumn"%string = Some p →
  py_mul c p = Raise e →
  L2Column.setParameter py_mul name index v o = (Raise e, <[name:=v]> o) ∧
  (name ≠ "inputWidth"%string →
   <[name:=v]> o !! "inputWidth"%string = o !! "inputWidth"%string).
Proof.
  intros Hn Hk Hc Hp Hmul. split; [|intros Hne; by apply lookup_insert_ne].
  unfold L2Column.setParameter. rewrite bool_decide_eq_false_2 by done.
  rewrite bind_run. unfold bind at 1, gets at 1, hasattr.
  rewrite bool_decide_eq_true_2 by done. unfold setattr at 1.
  rewrite (bind_Ok _ _ _ _ _ (getattr_Some _ _ _ Hc)).
  rewrite (bind_Ok _ _ _ _ _ (getattr_Some _ _ _ Hp)).
  unfold bind, of_result. by rewrite Hmul.
Qed.

Lemma L2Column_init_Ok_inv (a : L2Column.init_args B) o :
  L2Column.__init__ py_mul a = Ok o →
  ∃ iw,
    o = list_to_map
        [ ("columnCount", L2Column.columnCount a);
          ("cellsPerColumn", L2Column.cellsPerColumn a);
          ("inputWidth", iw);
          ("activationThreshold", L2Column.activationThreshold a);
          ("initialPermanence", L2Column.initialPermanence a);
          ("connectedPermanence", L2Column.connectedPermanence a);
          ("minThreshold", L2Column.minThreshold a);
          ("maxNewSynapseCount", L2Column.maxNewSynapseCount a);
          ("permanenceIncrement", L2Column.permanenceIncrement a);
          ("permanenceDecrement", L2Column.permanenceDecrement a);
          ("predictedSegmentDecrement", L2Column.predictedSegmentDecrement a);
          ("seed", L2Column.seed a);
          ("learningMode", PyBool true);
          ("inferenceMode", PyBool true);
          ("defaultOutputType", L2Column.defaultOutputType a) ]%string.
Proof.
  unfold L2Column.__init__.
  destruct (py_mul _ _) as [iw|]; [|discriminate].
  intros Ho. exists iw. symmetry. exact (Ok_inj _ _ Ho).
Qed.

(** X26.  On [L2Column] the constructor and the parameter table agree
    exactly: after [__init__] the region's attributes are the parameters
    [getSpec] declares, inputWidth included, and no other. *)
Theorem L2Column_constructor_sets_declared_parameters
    (a : L2Column.init_args B) o :
  L2Column.__init__ py_mul a = Ok o →
  ∀ k, is_Some (o !! k) ↔ k ∈ declared L2Column.getSpec_parameters.
Proof.
  intros [iw ->]%L2Column_init_Ok_inv k.
  rewrite <- not_eq_None_Some, <- not_elem_of_list_to_map.
  split.
  - intros Hk. apply dec_stable in Hk. simpl in Hk.
    repeat (apply elem_of_cons in Hk as [->|Hk]; [listed|]).
    by apply elem_of_nil in Hk.
  - intros Hk Hnot. apply Hnot.
    unfold declared, L2Column.getSpec_parameters in Hk. simpl in Hk.
    repeat (apply elem_of_cons in Hk as [->|Hk]; [listed|]).
    by apply elem_of_nil in Hk.
Qed.

End LayerFacts.

Lemma layer_fresh_run :
  L2Column.__init__ int_mul L2Column.default_args = Ok layer_fresh.
Proof. reflexivity. Qed.


Lemma L2Column_setParameter_partial_update_witness :
  L2Column.setParameter int_mul "columnCount" 0 PyNone layer_fresh =
    (Raise TypeError, <["columnCount"%string:=PyNone]> layer_fresh) ∧
  ("columnCount"%string ≠ "inputWidth"%string →
   <["columnCount"%string:=PyNone]> layer_fresh !! "inputWidth"%string =
   layer_fresh !! "inputWidth"%string).
Proof.
  apply (L2Column_setParameter_partial_update int_mul "columnCount" 0 PyNone
           layer_fresh PyNone (PyInt 16) TypeError);
    [not_listed | exists (PyInt 2048); by vm_compute | by vm_compute
    | by vm_compute | reflexivity].
Defined.

Lemma L2Column_constructor_sets_declared_parameters_witness :
  is_Some (layer_fresh !! "inputWidth"%string) ↔
  "inputWidth"%string ∈ declared L2Column.getSpec_parameters.
Proof.
  exact (L2Column_constructor_sets_declared_parameters int_mul
           L2Column.default_args layer_fresh layer_fresh_run "inputWidth").
Defined.
